(** * Calculator web application and delivery-metrics collector

    A shallow embedding of [app/calculator.py], [app/main.py] and
    [metrics/main.py], with the properties their specification states.

    Python [float] is IEEE 754 binary64; it is modelled by the Standard
    Library's [spec_float] at precision 53 and maximal exponent 1024, whose
    operations compute on the integer mantissa and exponent. *)

From Stdlib Require Import ZArith List String Ascii Bool Lia Arith.
From Stdlib Require Import Sorting.Sorted Sorting.Permutation.
From Stdlib Require Import Floats.SpecFloat.
Import ListNotations.
Open Scope string_scope.
Open Scope Z_scope.

(** ** Python exceptions and results *)

Inductive exn :=
| DivisionByZeroError (message : string)   (* app/calculator.py *)
| HTTPException (status_code : Z) (detail : string) (* fastapi *)
| HTTPError (status : Z)                   (* requests: raise_for_status *)
| RequestException                        (* requests: no response *)
| ZeroDivisionError
| OverflowError
| ValueError
| AttributeError
| OutOfFuel.  (* not a Python exception: a loop of the model ran out of steps *)

Inductive result (A : Type) :=
| Ok (value : A)
| Raise (e : exn).
Arguments Ok {A} value.
Arguments Raise {A} e.

Definition is_ok {A} (r : result A) : bool :=
  match r with Ok _ => true | Raise _ => false end.

Definition rbind {A B} (r : result A) (k : A -> result B) : result B :=
  match r with
  | Ok a => k a
  | Raise e => Raise e
  end.

Declare Scope result_scope.
Delimit Scope result_scope with res.
Notation "x <- c ;; k" := (rbind c (fun x => k))
  (at level 61, c at next level, right associativity) : result_scope.

(** ** Binary64 floating point *)

Module F64.

Definition prec : Z := 53.
Definition emax : Z := 1024.

Definition float := spec_float.

Definition zero : float := S754_zero false.
Definition add : float -> float -> float := SFadd prec emax.
Definition sub : float -> float -> float := SFsub prec emax.
Definition mul : float -> float -> float := SFmul prec emax.
Definition div : float -> float -> float := SFdiv prec emax.
Definition eqb : float -> float -> bool := SFeqb.
Definition ltb : float -> float -> bool := SFltb.
Definition leb : float -> float -> bool := SFleb.

Definition is_nan (x : float) : bool :=
  match x with S754_nan => true | _ => false end.

Definition is_infinite (x : float) : bool :=
  match x with S754_infinity _ => true | _ => false end.

(** [math.isfinite]: a zero or a finite non-zero float. *)
Definition is_finite (x : float) : bool :=
  match x with S754_zero _ | S754_finite _ _ _ => true | _ => false end.

(** [x == 0] and [not x] on a float: true on both signed zeros only. *)
Definition is_zero (x : float) : bool := eqb x zero.

(** An integer as the exactly rounded (nearest, ties to even) float:
    exact below 2^53.  Beyond the largest float the conversion yields an
    infinity here. *)
Definition of_Z (z : Z) : float := binary_normalize prec emax z 0 false.

(** [float(n)] and the implicit conversion of an [int] operand:
    CPython raises [OverflowError] when the integer is too large. *)
Definition of_int (z : Z) : result float :=
  let f := of_Z z in
  if is_infinite f then Raise OverflowError else Ok f.

(** [a / b] on two [int]s (true division): the correctly rounded
    quotient; [ZeroDivisionError] for [b = 0], [OverflowError] when the
    quotient exceeds the floats.  The sign of a zero quotient follows the
    sign of the divisor. *)
Definition int_truediv (a b : Z) : result float :=
  if b =? 0 then Raise ZeroDivisionError
  else
    let negate := xorb (a <? 0) (b <? 0) in
    match Z.abs a with
    | Zpos ma =>
        let q := div (S754_finite negate ma 0)
                     (S754_finite false (Z.to_pos (Z.abs b)) 0) in
        if is_infinite q then Raise OverflowError else Ok q
    | _ => Ok (S754_zero negate)
    end.

(** Nearest integer to [n / d], ties to the even one ([0 <= n], [0 < d]). *)
Definition round_half_even_div (n d : Z) : Z :=
  let q := n / d in
  let r := n mod d in
  match 2 * r ?= d with
  | Lt => q
  | Gt => q + 1
  | Eq => if Z.even q then q else q + 1
  end.

(** The magnitude of [x] in hundredths, rounded to the nearest integer
    (ties to even) from the exact binary value. *)
Definition hundredths (m : positive) (e : Z) : Z :=
  match e with
  | Zneg p => round_half_even_div (Zpos m * 100) (2 ^ Zpos p)
  | _ => Zpos m * 2 ^ e * 100
  end.

(** What rounding to two decimals asks of the hundredths [k] of
    [m * 2 ^ e]: [k] is an integer nearest to [100 * m * 2 ^ e], and the
    even one when two integers are equally near.  (With [n / d] for
    [100 * m * 2 ^ e], [d] a power of two: [|n / d - k| <= 1 / 2].) *)
Definition nearest_hundredth (m : positive) (e : Z) (k : Z) : Prop :=
  let n := 100 * Zpos m * 2 ^ Z.max e 0 in
  let d := 2 ^ Z.max (- e) 0 in
  Z.abs (2 * n - 2 * k * d) <= d
  /\ (Z.abs (2 * n - 2 * k * d) = d -> Z.even k = true).

(** [round(x, 2)] on a float: correctly rounded to two decimals from the
    exact value of [x] (ties to even), and the decimal result converted
    back to the nearest float.  Zeros, infinities and NaN are returned
    unchanged; the sign is kept. *)
Definition round2 (x : float) : float :=
  match x with
  | S754_finite s m e =>
      match hundredths m e with
      | Zpos n => div (S754_finite s n 0) (S754_finite false 100 0)
      | _ => S754_zero s
      end
  | _ => x
  end.

(** The place of a float in the order of [<]: its class from the negative
    infinity up, then exponent and mantissa, mirrored for the negatives. *)
Definition rank (x : float) : Z * Z * Z :=
  match x with
  | S754_infinity true => (-2, 0, 0)
  | S754_finite true m e => (-1, - e, - Zpos m)
  | S754_zero _ => (0, 0, 0)
  | S754_finite false m e => (1, e, Zpos m)
  | S754_infinity false => (2, 0, 0)
  | S754_nan => (3, 0, 0)
  end.

Definition rank_lt (a b : Z * Z * Z) : Prop :=
  let '(a1, a2, a3) := a in
  let '(b1, b2, b3) := b in
  a1 < b1 \/ (a1 = b1 /\ (a2 < b2 \/ (a2 = b2 /\ a3 < b3))).

(** [x] is the positive zero or a positive float of the format (mantissa
    and exponent in range, no spare leading zero) that is not above the
    value [Mb * 2 ^ eb]. *)
Definition below (Mb : positive) (eb : Z) (x : float) : Prop :=
  x = S754_zero false
  \/ exists m e,
       x = S754_finite false m e
       /\ bounded prec emax m e = true
       /\ e <= eb /\ Zpos m <= Zpos Mb * 2 ^ (eb - e).

End F64.

Abbreviation float := F64.float.

(** ** app/calculator.py *)

Module Calculator.

(** [DivisionByZeroError.__init__]'s default message. *)
Definition default_message : string := "Division by zero is not allowed".

Definition add (a b : float) : float := F64.add a b.
Definition subtract (a b : float) : float := F64.sub a b.
Definition multiply (a b : float) : float := F64.mul a b.

Definition divide (a b : float) : result float :=
  if F64.is_zero b then Raise (DivisionByZeroError default_message)
  else Ok (F64.div a b).

(** The four operations of the module under one calling convention:
    the outcome of calling the function on two floats. *)
Inductive operation := Add | Subtract | Multiply | Divide.

Definition call (op : operation) (a b : float) : result float :=
  match op with
  | Add => Ok (add a b)
  | Subtract => Ok (subtract a b)
  | Multiply => Ok (multiply a b)
  | Divide => divide a b
  end.

End Calculator.

(** ** app/main.py: the request handlers *)

Module Api.

Record OperationRequest := { a : float; b : float }.
Record OperationResponse := { result_ : float }.
Record HealthResponse := { status : string }.

Definition health_check : HealthResponse := {| status := "ok" |}.

Definition add_numbers (request : OperationRequest) : result OperationResponse :=
  Ok {| result_ := Calculator.add (a request) (b request) |}.

Definition subtract_numbers (request : OperationRequest) : result OperationResponse :=
  Ok {| result_ := Calculator.subtract (a request) (b request) |}.

Definition multiply_numbers (request : OperationRequest) : result OperationResponse :=
  Ok {| result_ := Calculator.multiply (a request) (b request) |}.

(** [try: ... except DivisionByZeroError as e: raise HTTPException(400, e.message)] *)
Definition divide_numbers (request : OperationRequest) : result OperationResponse :=
  match Calculator.divide (a request) (b request) with
  | Ok r => Ok {| result_ := r |}
  | Raise (DivisionByZeroError message) => Raise (HTTPException 400 message)
  | Raise e => Raise e
  end.

(** What the framework sends for a handler's outcome: the response model
    under status 200, an [HTTPException] under its own status with the
    detail as body. *)
Inductive body :=
| ResultBody (result_ : float)      (* {"result": ...} *)
| DetailBody (detail : string)      (* {"detail": ...} *)
| ServerError.

Definition respond (r : result OperationResponse) : Z * body :=
  match r with
  | Ok resp => (200, ResultBody (result_ resp))
  | Raise (HTTPException code detail) => (code, DetailBody detail)
  | Raise _ => (500, ServerError)
  end.

Definition post_div (request : OperationRequest) : Z * body :=
  respond (divide_numbers request).

End Api.

(** ** metrics/main.py: data *)

Module Metrics.

(** A run of a workflow, as the Actions API lists it: the keys the
    collector reads.  [conclusion] is [null] while a run is in progress;
    the two optional timestamps are read with [.get]. *)
Record WorkflowRun := {
  name : string;
  conclusion : option string;
  created_at : string;
  run_started_at : option string;
  updated_at : option string
}.

(** The value under the key ["user"] of a pull request: the key may be
    absent, the value may be [null] (or another value that is no object),
    or it is an object, whose ["login"] may be absent. *)
Inductive user_field :=
| UserAbsent
| UserNull
| User (login : option string).

Record PullRequest := {
  pr_created_at : string;
  merged_at : option string;
  user : user_field
}.

(** The two listing endpoints the collector calls and what each lists. *)
Inductive endpoint := ActionsRuns | Pulls.

Definition item (e : endpoint) : Type :=
  match e with
  | ActionsRuns => WorkflowRun
  | Pulls => PullRequest
  end.

Definition path (repo : string) (e : endpoint) : string :=
  match e with
  | ActionsRuns => "/repos/" ++ repo ++ "/actions/runs"
  | Pulls => "/repos/" ++ repo ++ "/pulls"
  end.

(** Query parameters: a [dict] with string and integer values.  A request
    carries, besides its URL, the endpoint the URL is built for. *)
Inductive pval := PStr (s : string) | PInt (n : Z).
Definition dict := list (string * pval).

Fixpoint dict_set (k : string) (v : pval) (d : dict) : dict :=
  match d with
  | [] => [(k, v)]
  | (k', v') :: d' =>
      if String.eqb k k' then (k, v) :: d' else (k', v') :: dict_set k v d'
  end.

Fixpoint dict_get (k : string) (d : dict) : option pval :=
  match d with
  | [] => None
  | (k', v) :: d' => if String.eqb k k' then Some v else dict_get k d'
  end.

Record Request := {
  target : endpoint;
  url : string;
  headers : list (string * string);
  params : dict
}.

(** What [requests.get] comes back with: a response with its status and,
    when the body parses as JSON, the listed items; or no response at all
    (connection error, timeout). *)
Inductive Reply (A : Type) :=
| Response (status_code : Z) (json : option A)
| NoResponse.
Arguments Response {A} status_code json.
Arguments NoResponse {A}.

(** [Response.raise_for_status] raises on the 4xx and 5xx statuses. *)
Definition is_error_status (code : Z) : bool :=
  (400 <=? code) && (code <? 600).

(** The metric groups of the report. *)
Inductive number := NInt (n : Z) | NFloat (x : float).

Record DoraMetrics := {
  deployments_total : nat;
  deployments_successful : nat;
  deployments_failed : nat;
  change_failure_rate_percent : number;
  mttr_hours : option float
}.

Record PrMetrics := {
  pr_throughput : nat;
  pr_lead_time_avg_hours : option float;
  pr_lead_time_median_hours : option float
}.

Record CiMetrics := {
  ci_runs_total : nat;
  ci_success_rate_percent : number;
  ci_avg_duration_minutes : option float
}.

Record SecurityMetrics := {
  security_runs_total : nat;
  security_success_rate_percent : number;
  security_last_conclusion : option string
}.

Record DependabotMetrics := {
  dependabot_prs_open : nat;
  dependabot_prs_merged : nat
}.

Record DeployMetrics := {
  deploy_avg_duration_minutes : option float
}.

Record Report := {
  generated_at : string;
  window_days_ : Z;
  repository : string;
  dora : DoraMetrics;
  pull_requests : PrMetrics;
  ci_health : CiMetrics;
  deploy_health : DeployMetrics;
  security : SecurityMetrics;
  dependabot : DependabotMetrics
}.

(** ** Builtins on strings, lists and numbers *)

Definition lower_ascii (c : ascii) : ascii :=
  let n := nat_of_ascii c in
  if ((65 <=? n) && (n <=? 90))%nat then ascii_of_nat (n + 32) else c.

(** [str.lower] on strings of ASCII characters (on other strings
    [str.lower] follows the Unicode tables): the instance of [str.lower]
    for running the collector, and the test of [DEBUG] in [Settings],
    where the comparison with ["true"] depends on ASCII letters only. *)
Fixpoint lower (s : string) : string :=
  match s with
  | EmptyString => EmptyString
  | String c s' => String (lower_ascii c) (lower s')
  end.

(** [dt_str.replace("Z", "+00:00")] *)
Fixpoint replace_Z (s : string) : string :=
  match s with
  | EmptyString => EmptyString
  | String c s' =>
      if Ascii.eqb c "Z"%char then "+00:00" ++ replace_Z s'
      else String c (replace_Z s')
  end.

(** Truthiness of an optional string ([None] and [""] are false). *)
Definition truthy_str (o : option string) : bool :=
  match o with
  | Some s => negb (String.eqb s "")
  | None => false
  end.

(** Truthiness of an optional float ([None], [0.0] and [-0.0] are false). *)
Definition truthy_float (o : option float) : bool :=
  match o with
  | Some x => negb (F64.is_zero x)
  | None => false
  end.

(** [r["conclusion"] == c] *)
Definition conclusion_is (c : string) (r : WorkflowRun) : bool :=
  match conclusion r with
  | Some s => String.eqb s c
  | None => false
  end.

(** [sum(1 for r in runs if p(r))] *)
Definition count_if {A} (p : A -> bool) (l : list A) : nat :=
  List.length (List.filter p l).

(** [sorted(l, key=key)]: the stable sort by [<] on the keys.  An element
    goes in front of the first one whose key is not smaller than its own,
    so equal keys keep the order of the input. *)
Section Sorted.
Context {A K : Type} (lt : K -> K -> bool) (key : A -> K).

Fixpoint insert_sorted (x : A) (l : list A) : list A :=
  match l with
  | [] => [x]
  | y :: l' =>
      if lt (key y) (key x) then y :: insert_sorted x l' else x :: l
  end.

Definition sorted (l : list A) : list A :=
  fold_right insert_sorted [] l.

(** [x] may stand before [y] in ascending order: the key of [y] is not
    smaller than the key of [x]. *)
Definition before (x y : A) : Prop := lt (key y) (key x) = false.
End Sorted.

(** [round(x, 2)]: an [int] is returned as it is. *)
Definition round2 (x : number) : number :=
  match x with
  | NInt n => NInt n
  | NFloat f => NFloat (F64.round2 f)
  end.

(** [x / y] on floats. *)
Definition float_truediv (x y : float) : result float :=
  if F64.is_zero y then Raise ZeroDivisionError else Ok (F64.div x y).

(** [x / n] and [x * n] with a float [x] and an int [n]. *)
Definition float_div_int (x : float) (n : Z) : result float :=
  (y <- F64.of_int n ;; float_truediv x y)%res.

Definition float_mul_int (x : float) (n : Z) : result float :=
  (y <- F64.of_int n ;; Ok (F64.mul x y))%res.

(** [round(v, 2) if v else None] *)
Definition round2_if (v : option float) : option float :=
  if truthy_float v then option_map F64.round2 v else None.

(** ** Dates and times

    An aware UTC [datetime] is its number of microseconds since the
    epoch, a [timedelta] a number of microseconds. *)
Definition datetime := Z.
Definition timedelta := Z.

Definition datetime_min : Z := -62135596800000000.  (* 0001-01-01 *)
Definition datetime_max : Z := 253402300799999999.  (* 9999-12-31 23:59:59.999999 *)

(** [timedelta(days=d)] *)
Definition timedelta_days (d : Z) : result timedelta :=
  if Z.abs d <=? 999999999 then Ok (d * 86400000000) else Raise OverflowError.

(** [t - d] for a datetime [t] and a timedelta [d] *)
Definition datetime_sub (t : datetime) (d : timedelta) : result datetime :=
  let r := t - d in
  if (datetime_min <=? r) && (r <=? datetime_max) then Ok r
  else Raise OverflowError.

(** [timedelta.total_seconds()] *)
Definition total_seconds (d : timedelta) : result float :=
  F64.int_truediv d 1000000.

(** [(later - earlier).total_seconds() / unit] *)
Definition elapsed (unit : Z) (earlier later : datetime) : result float :=
  (s <- total_seconds (later - earlier) ;; float_div_int s unit)%res.

(** ** The world the collector runs in

    The requests issued so far, the number of clock reads, and what has
    been written.  A computation takes a world to a result and a world;
    an exception ends it where it is raised. *)
Record World := {
  sent : list Request;
  clock_reads : nat;
  dirs : list string;
  files : list (string * string);
  printed : list string
}.

Definition initial_world : World :=
  {| sent := []; clock_reads := 0; dirs := []; files := []; printed := [] |}.

Definition M (A : Type) : Type := World -> result A * World.

Definition ret {A} (a : A) : M A := fun w => (Ok a, w).
Definition raise {A} (e : exn) : M A := fun w => (Raise e, w).
Definition lift {A} (r : result A) : M A := fun w => (r, w).

Definition bind {A B} (c : M A) (k : A -> M B) : M B :=
  fun w =>
    match c w with
    | (Ok a, w') => k a w'
    | (Raise e, w') => (Raise e, w')
    end.

Declare Scope io_scope.
Delimit Scope io_scope with io.
Notation "x <- c ;; k" := (bind c (fun x => k))
  (at level 61, c at next level, right associativity) : io_scope.
Notation "c ;;; k" := (bind c (fun _ => k))
  (at level 61, right associativity) : io_scope.

Definition makedirs (d : string) : M unit :=
  fun w =>
    (Ok tt, {| sent := sent w; clock_reads := clock_reads w;
               dirs := dirs w ++ [d]; files := files w;
               printed := printed w |}).

Definition write_file (path content : string) : M unit :=
  fun w =>
    (Ok tt, {| sent := sent w; clock_reads := clock_reads w;
               dirs := dirs w; files := files w ++ [(path, content)];
               printed := printed w |}).

Definition print (line : string) : M unit :=
  fun w =>
    (Ok tt, {| sent := sent w; clock_reads := clock_reads w;
               dirs := dirs w; files := files w;
               printed := printed w ++ [line] |}).

(** ** class GitHubMetricsCollector *)

Record GitHubMetricsCollector := {
  token : string;
  repo : string;
  window_days : Z;
  base_url : string;
  headers_ : list (string * string)
}.

Section Collector.

(** The environment of a run: the API server (its reply to the n-th
    request of the run), the clock (its value at the n-th read), the
    process environment; and the library functions the collector
    calls on values: [datetime.fromisoformat], [strftime('%Y-%m-%d')],
    [str.lower], [isoformat], [int] on a string, [sum] on floats and
    [json.dumps]. *)
Variable server : nat -> forall q : Request, Reply (list (item (target q))).
Variable clock : nat -> datetime.
Variable environ : string -> option string.
Variable fromisoformat : string -> option datetime.
Variable strftime_ymd : datetime -> string.
Variable str_lower : string -> string.
Variable isoformat : datetime -> string.
Variable py_int : string -> option Z.
Variable py_sum : list float -> float.
Variable json_dumps : Report -> string.

Definition now : M datetime :=
  fun w =>
    (Ok (clock (clock_reads w)),
     {| sent := sent w; clock_reads := S (clock_reads w);
        dirs := dirs w; files := files w; printed := printed w |}).

Definition environ_get (k default : string) : string :=
  match environ k with
  | Some v => v
  | None => default
  end.

(** [__init__] *)
Definition init : M GitHubMetricsCollector :=
  let token := environ_get "GITHUB_TOKEN" "" in
  let repo := environ_get "GITHUB_REPOSITORY" "" in
  match py_int (environ_get "METRICS_WINDOW_DAYS" "30") with
  | None => raise ValueError
  | Some window_days =>
      ret {| token := token;
             repo := repo;
             window_days := window_days;
             base_url := "https://api.github.com";
             headers_ := [("Authorization", "Bearer " ++ token);
                          ("Accept", "application/vnd.github+json");
                          ("X-GitHub-Api-Version", "2022-11-28")] |}
  end.

Variable self : GitHubMetricsCollector.

Definition request_for (e : endpoint) (params : dict) : Request :=
  {| target := e;
     url := base_url self ++ path (repo self) e;
     headers := headers_ self;
     params := params |}.

(** [_get]: one GET; [raise_for_status], then the decoded body. *)
Definition _get (e : endpoint) (params : dict) : M (list (item e)) :=
  fun w =>
    let request := request_for e params in
    let w' := {| sent := sent w ++ [request]; clock_reads := clock_reads w;
                 dirs := dirs w; files := files w; printed := printed w |} in
    match server (List.length (sent w)) request with
    | NoResponse => (Raise RequestException, w')
    | Response code json =>
        if is_error_status code then (Raise (HTTPError code), w')
        else match json with
             | Some items => (Ok items, w')
             | None => (Raise ValueError, w')
             end
    end.

(** [params["page"]]; the key is set before the loop is entered. *)
Definition page_of (params : dict) : Z :=
  match dict_get "page" params with
  | Some (PInt n) => n
  | _ => 0
  end.

(** The [while True] loop of [_get_paginated], one iteration per unit
    of [fuel]. *)
Fixpoint paginate (fuel : nat) (e : endpoint) (params : dict)
    (all_items : list (item e)) : M (list (item e)) :=
  match fuel with
  | O => raise OutOfFuel
  | S fuel' =>
      (items <- _get e params ;;
       match items with
       | [] => ret all_items
       | _ :: _ =>
           let all_items := (all_items ++ items)%list in
           if (List.length items <? 100)%nat then ret all_items
           else
             let params := dict_set "page" (PInt (page_of params + 1)) params in
             if page_of params >? 10 then ret all_items
             else paginate fuel' e params all_items
       end)%io
  end.

Definition _get_paginated (e : endpoint) (params : dict) : M (list (item e)) :=
  let params := dict_set "per_page" (PInt 100) params in
  let params := dict_set "page" (PInt 1) params in
  paginate 10 e params [].

Definition _get_window_start : M datetime :=
  (t <- now ;;
   lift (d <- timedelta_days (window_days self) ;; datetime_sub t d)%res)%io.

Definition _parse_datetime (dt_str : string) : result datetime :=
  match fromisoformat (replace_Z dt_str) with
  | Some t => Ok t
  | None => Raise ValueError
  end.

(** [_parse_datetime(d[key])] where the value may be [None] *)
Definition parse_field (v : option string) : result datetime :=
  match v with
  | Some s => _parse_datetime s
  | None => Raise AttributeError
  end.

Definition get_workflow_runs (workflow_name : string) : M (list WorkflowRun) :=
  (window_start <- _get_window_start ;;
   let params := [("created", PStr (">=" ++ strftime_ymd window_start))] in
   all_runs <- _get_paginated ActionsRuns params ;;
   ret (List.filter
          (fun run => String.eqb (str_lower (name run)) (str_lower workflow_name))
          all_runs))%io.

(** [(part / total * 100) if total > 0 else 0] *)
Definition percent (part total : nat) : result number :=
  if (0 <? total)%nat then
    (q <- F64.int_truediv (Z.of_nat part) (Z.of_nat total) ;;
     p <- float_mul_int q 100 ;;
     Ok (NFloat p))%res
  else Ok (NInt 0).

(** The inner loop of the recovery-time proxy: the first later run that
    succeeded gives the elapsed hours since [run]. *)
Fixpoint next_success (run : WorkflowRun) (later : list WorkflowRun)
    : result (option float) :=
  match later with
  | [] => Ok None
  | next_run :: later' =>
      if conclusion_is "success" next_run then
        (failed_time <- _parse_datetime (created_at run) ;;
         success_time <- _parse_datetime (created_at next_run) ;;
         h <- elapsed 3600 failed_time success_time ;;
         Ok (Some h))%res
      else next_success run later'
  end.

(** The outer loop: each failed run in turn, until one has a later
    success. *)
Fixpoint first_recovery (sorted_runs : list WorkflowRun)
    : result (option float) :=
  match sorted_runs with
  | [] => Ok None
  | run :: later =>
      if conclusion_is "failure" run then
        (mttr_hours <- next_success run later ;;
         match mttr_hours with
         | Some _ => Ok mttr_hours
         | None => first_recovery later
         end)%res
      else first_recovery later
  end.

(** The value of [mttr_hours] when the loops are left. *)
Definition mttr_proxy (cd_runs : list WorkflowRun) : result (option float) :=
  first_recovery (sorted String.ltb created_at cd_runs).

(** The elapsed time in hours between the creation of two runs. *)
Definition recovery_hours (failed succeeded : WorkflowRun) : result (option float) :=
  (failed_time <- _parse_datetime (created_at failed) ;;
   success_time <- _parse_datetime (created_at succeeded) ;;
   h <- elapsed 3600 failed_time success_time ;;
   Ok (Some h))%res.

(** [collect_dora_metrics], from the fetched runs on. *)
Definition dora_metrics (cd_runs : list WorkflowRun) : result DoraMetrics :=
  let total := List.length cd_runs in
  let successful := count_if (conclusion_is "success") cd_runs in
  let failed := count_if (conclusion_is "failure") cd_runs in
  (change_failure_rate <- percent failed total ;;
   mttr_hours <- mttr_proxy cd_runs ;;
   Ok {| deployments_total := total;
         deployments_successful := successful;
         deployments_failed := failed;
         change_failure_rate_percent := round2 change_failure_rate;
         mttr_hours := round2_if mttr_hours |})%res.

Definition collect_dora_metrics : M DoraMetrics :=
  (cd_runs <- get_workflow_runs "CD - Azure Web App" ;;
   lift (dora_metrics cd_runs))%io.

(** The comprehension of [collect_pr_metrics]: the pull requests with a
    [merged_at] that lies in the window. *)
Fixpoint merged_in_window (window_start : datetime) (prs : list PullRequest)
    : result (list PullRequest) :=
  match prs with
  | [] => Ok []
  | pr :: prs' =>
      if truthy_str (merged_at pr) then
        (merged <- parse_field (merged_at pr) ;;
         rest <- merged_in_window window_start prs' ;;
         Ok (if merged >=? window_start then pr :: rest else rest))%res
      else merged_in_window window_start prs'
  end.

(** The loop filling [lead_times]: hours from creation to merge. *)
Fixpoint lead_times_of (merged_prs : list PullRequest) : result (list float) :=
  match merged_prs with
  | [] => Ok []
  | pr :: rest =>
      (created <- _parse_datetime (pr_created_at pr) ;;
       merged <- parse_field (merged_at pr) ;;
       h <- elapsed 3600 created merged ;;
       hs <- lead_times_of rest ;;
       Ok (h :: hs))%res
  end.

(** [sum(l) / len(l) if l else None] *)
Definition average (l : list float) : result (option float) :=
  match l with
  | [] => Ok None
  | _ :: _ =>
      (a <- float_div_int (py_sum l) (Z.of_nat (List.length l)) ;; Ok (Some a))%res
  end.

(** [sorted(l)[len(l) // 2] if l else None] *)
Definition median_proxy (l : list float) : option float :=
  match l with
  | [] => None
  | _ :: _ => nth_error (sorted F64.ltb (fun x => x) l) (List.length l / 2)
  end.

(** [collect_pr_metrics], from the fetched pull requests and the start of
    the window on. *)
Definition pr_metrics (window_start : datetime) (prs : list PullRequest)
    : result PrMetrics :=
  (merged_prs <- merged_in_window window_start prs ;;
   lead_times <- lead_times_of merged_prs ;;
   avg_lead_time <- average lead_times ;;
   let median_lead_time := median_proxy lead_times in
   Ok {| pr_throughput := List.length merged_prs;
         pr_lead_time_avg_hours := round2_if avg_lead_time;
         pr_lead_time_median_hours := round2_if median_lead_time |})%res.

Definition closed_params : dict :=
  [("state", PStr "closed"); ("sort", PStr "updated"); ("direction", PStr "desc")].

Definition collect_pr_metrics : M PrMetrics :=
  (prs <- _get_paginated Pulls closed_params ;;
   window_start <- _get_window_start ;;
   lift (pr_metrics window_start prs))%io.

(** The loop filling [durations] in [collect_ci_metrics] and
    [collect_deploy_duration_metrics]: minutes from start to last update of
    the runs that have both timestamps and satisfy [keep]. *)
Fixpoint durations_of (keep : WorkflowRun -> bool) (runs : list WorkflowRun)
    : result (list float) :=
  match runs with
  | [] => Ok []
  | run :: rest =>
      if truthy_str (run_started_at run) && truthy_str (updated_at run) && keep run
      then
        (started <- parse_field (run_started_at run) ;;
         ended <- parse_field (updated_at run) ;;
         d <- elapsed 60 started ended ;;
         ds <- durations_of keep rest ;;
         Ok (d :: ds))%res
      else durations_of keep rest
  end.

Definition ci_metrics (ci_runs : list WorkflowRun) : result CiMetrics :=
  let total := List.length ci_runs in
  let successful := count_if (conclusion_is "success") ci_runs in
  (success_rate <- percent successful total ;;
   durations <- durations_of (fun _ => true) ci_runs ;;
   avg_duration <- average durations ;;
   Ok {| ci_runs_total := total;
         ci_success_rate_percent := round2 success_rate;
         ci_avg_duration_minutes := round2_if avg_duration |})%res.

Definition collect_ci_metrics : M CiMetrics :=
  (ci_runs <- get_workflow_runs "CI" ;; lift (ci_metrics ci_runs))%io.

Definition security_metrics (security_runs : list WorkflowRun)
    : result SecurityMetrics :=
  let total := List.length security_runs in
  let successful := count_if (conclusion_is "success") security_runs in
  (success_rate <- percent successful total ;;
   let last_conclusion :=
     match sorted (fun k1 k2 => String.ltb k2 k1) created_at security_runs with
     | [] => None
     | latest :: _ => conclusion latest
     end in
   Ok {| security_runs_total := total;
         security_success_rate_percent := round2 success_rate;
         security_last_conclusion := last_conclusion |})%res.

Definition collect_security_metrics : M SecurityMetrics :=
  (security_runs <- get_workflow_runs "Security" ;;
   lift (security_metrics security_runs))%io.

(** [pr.get("user", {}).get("login") == "dependabot[bot]"]: the default
    [{}] stands in for an absent key only; on [null] the second [.get]
    raises [AttributeError]. *)
Definition is_dependabot (pr : PullRequest) : result bool :=
  match user pr with
  | UserAbsent => Ok false
  | UserNull => Raise AttributeError
  | User (Some login) => Ok (String.eqb login "dependabot[bot]")
  | User None => Ok false
  end.

(** The first sum of [collect_dependabot_metrics]. *)
Fixpoint count_dependabot (open_prs : list PullRequest) : result nat :=
  match open_prs with
  | [] => Ok O
  | pr :: rest =>
      (d <- is_dependabot pr ;;
       n <- count_dependabot rest ;;
       Ok (if d then S n else n))%res
  end.

(** The second sum of [collect_dependabot_metrics]. *)
Fixpoint count_dependabot_merged (window_start : datetime)
    (closed_prs : list PullRequest) : result nat :=
  match closed_prs with
  | [] => Ok O
  | pr :: rest =>
      (d <- is_dependabot pr ;;
       if d && truthy_str (merged_at pr) then
         (merged <- parse_field (merged_at pr) ;;
          n <- count_dependabot_merged window_start rest ;;
          Ok (if merged >=? window_start then S n else n))%res
       else count_dependabot_merged window_start rest)%res
  end.

Definition collect_dependabot_metrics : M DependabotMetrics :=
  (window_start <- _get_window_start ;;
   open_prs <- _get_paginated Pulls [("state", PStr "open")] ;;
   dependabot_open <- lift (count_dependabot open_prs) ;;
   closed_prs <- _get_paginated Pulls closed_params ;;
   dependabot_merged <- lift (count_dependabot_merged window_start closed_prs) ;;
   ret {| dependabot_prs_open := dependabot_open;
          dependabot_prs_merged := dependabot_merged |})%io.

Definition deploy_duration_metrics (cd_runs : list WorkflowRun)
    : result DeployMetrics :=
  (durations <- durations_of (conclusion_is "success") cd_runs ;;
   avg_duration <- average durations ;;
   Ok {| deploy_avg_duration_minutes := round2_if avg_duration |})%res.

Definition collect_deploy_duration_metrics : M DeployMetrics :=
  (cd_runs <- get_workflow_runs "CD - Azure Web App" ;;
   lift (deploy_duration_metrics cd_runs))%io.

Definition collect_all_metrics : M Report :=
  (t <- now ;;
   dora <- collect_dora_metrics ;;
   pull_requests <- collect_pr_metrics ;;
   ci_health <- collect_ci_metrics ;;
   deploy_health <- collect_deploy_duration_metrics ;;
   security <- collect_security_metrics ;;
   dependabot <- collect_dependabot_metrics ;;
   ret {| generated_at := isoformat t;
          window_days_ := window_days self;
          repository := repo self;
          dora := dora;
          pull_requests := pull_requests;
          ci_health := ci_health;
          deploy_health := deploy_health;
          security := security;
          dependabot := dependabot |})%io.

End Collector.

Section Main.

Variable server : nat -> forall q : Request, Reply (list (item (target q))).
Variable clock : nat -> datetime.
Variable environ : string -> option string.
Variable fromisoformat : string -> option datetime.
Variable strftime_ymd : datetime -> string.
Variable str_lower : string -> string.
Variable isoformat : datetime -> string.
Variable py_int : string -> option Z.
Variable py_sum : list float -> float.
Variable json_dumps : Report -> string.

Definition main : M unit :=
  (collector <- init environ py_int ;;
   metrics <- collect_all_metrics server clock fromisoformat strftime_ymd str_lower
                isoformat py_sum collector ;;
   makedirs "site" ;;;
   write_file "site/metrics.json" (json_dumps metrics) ;;;
   print "Metrics collected and written to site/metrics.json" ;;;
   print (json_dumps metrics))%io.

End Main.

(** ** The recovery pair, as the specification words it

    The first run of a list that failed, with the runs after it; and that
    run paired with the first later run that succeeded. *)
Fixpoint first_failure (l : list WorkflowRun)
    : option (WorkflowRun * list WorkflowRun) :=
  match l with
  | [] => None
  | r :: l' => if conclusion_is "failure" r then Some (r, l') else first_failure l'
  end.

Definition recovery_pair (l : list WorkflowRun)
    : option (WorkflowRun * WorkflowRun) :=
  match first_failure l with
  | Some (failed, later) =>
      match List.find (conclusion_is "success") later with
      | Some succeeded => Some (failed, succeeded)
      | None => None
      end
  | None => None
  end.

(** A number of the report lies between two integers. *)
Definition number_between (lo hi : Z) (x : number) : bool :=
  match x with
  | NInt n => (lo <=? n) && (n <=? hi)
  | NFloat f => F64.leb (F64.of_Z lo) f && F64.leb f (F64.of_Z hi)
  end.

(** ** Failed requests in the log of a run *)

Section Trace.

Variable server : nat -> forall q : Request, Reply (list (item (target q))).

(** The [i]-th request of the log was answered with the error status
    [code]. *)
Definition fails_at (l : list Request) (i : nat) (code : Z) : Prop :=
  exists q json,
    nth_error l i = Some q
    /\ server i q = Response code json
    /\ is_error_status code = true.

(** No request of the log with a position in [n, m) was answered with an
    error status. *)
Definition clean_between (n m : nat) (l : list Request) : Prop :=
  forall i code, (n <= i < m)%nat -> ~ fails_at l i code.

(** From [w] to [w'] requests were sent and the clock was read, and nothing
    was written. *)
Definition only_requests (w w' : World) : Prop :=
  (exists rs, sent w' = sent w ++ rs)%list
  /\ dirs w' = dirs w /\ files w' = files w /\ printed w' = printed w.

(** The outcome of a computation started with [n] requests in the log:
    either none of its requests failed, or its last request is its only
    failed one and the computation ended there with that error. *)
Definition outcome_ok {A} (n : nat) (r : result A) (l : list Request) : Prop :=
  clean_between n (List.length l) l
  \/ exists code,
       r = Raise (HTTPError code)
       /\ (n < List.length l)%nat
       /\ fails_at l (List.length l - 1) code
       /\ clean_between n (List.length l - 1) l.

(** A computation that writes nothing and lets the error of a failed
    request through at once. *)
Definition propagates {A} (c : M A) : Prop :=
  forall w : World,
    only_requests w (snd (c w))
    /\ outcome_ok (List.length (sent w)) (fst (c w)) (sent (snd (c w))).

End Trace.

(** The parameters of the request for page [k], and a world after further
    requests. *)
Definition page_params (params : dict) (k : Z) : dict :=
  dict_set "page" (PInt k) (dict_set "per_page" (PInt 100) params).

Definition after_requests (w : World) (rs : list Request) : World :=
  {| sent := sent w ++ rs; clock_reads := clock_reads w;
     dirs := dirs w; files := files w; printed := printed w |}.

End Metrics.

(** ** Instances of the library functions, for running the collector

    A reader of the timestamps the API emits
    ([YYYY-MM-DDTHH:MM:SS] with an offset [+HH:MM] or [-HH:MM], the form
    they have once [Z] is replaced), the left-to-right
    sum, and servers that answer from a fixed table. *)

Module Run.

Import Metrics.

Definition digit_of (c : ascii) : option Z :=
  let n := Z.of_nat (nat_of_ascii c) in
  if (48 <=? n) && (n <=? 57) then Some (n - 48) else None.

Fixpoint read_digits (n : nat) (s : string) (acc : Z) : option (Z * string) :=
  match n with
  | O => Some (acc, s)
  | S n' =>
      match s with
      | String c s' =>
          match digit_of c with
          | Some d => read_digits n' s' (acc * 10 + d)
          | None => None
          end
      | EmptyString => None
      end
  end.

Fixpoint expect (p s : string) : option string :=
  match p with
  | EmptyString => Some s
  | String c p' =>
      match s with
      | String c' s' => if Ascii.eqb c c' then expect p' s' else None
      | EmptyString => None
      end
  end.

(** Days from 1970-01-01 to a date of the proleptic Gregorian calendar. *)
Definition days_from_civil (y m d : Z) : Z :=
  let y := if m <=? 2 then y - 1 else y in
  let era := y / 400 in
  let yoe := y - era * 400 in
  let doy := (153 * (if 2 <? m then m - 3 else m + 9) + 2) / 5 + d - 1 in
  let doe := yoe * 365 + yoe / 4 - yoe / 100 + doy in
  era * 146097 + doe - 719468.

Definition obind {A B} (o : option A) (k : A -> option B) : option B :=
  match o with
  | Some a => k a
  | None => None
  end.

Definition is_leap (y : Z) : bool :=
  (y mod 4 =? 0) && (negb (y mod 100 =? 0) || (y mod 400 =? 0)).

Definition days_in_month (y m : Z) : Z :=
  if m =? 2 then (if is_leap y then 29 else 28)
  else if (m =? 4) || (m =? 6) || (m =? 9) || (m =? 11) then 30
  else 31.

(** The sign of a UTC offset. *)
Definition read_sign (s : string) : option (Z * string) :=
  match s with
  | String c s' =>
      if Ascii.eqb c "+" then Some (1, s')
      else if Ascii.eqb c "-" then Some (-1, s')
      else None
  | EmptyString => None
  end.

(** [datetime.fromisoformat] on the strings
    [YYYY-MM-DDTHH:MM:SS+HH:MM] and [YYYY-MM-DDTHH:MM:SS-HH:MM]: the
    instant in microseconds since the epoch, and [None] (for [ValueError])
    when a field is out of its range.  Strings of another form, some of
    which [datetime.fromisoformat] reads too, are not read here. *)
Definition fromisoformat (s : string) : option datetime :=
  obind (read_digits 4 s 0) (fun '(y, s) =>
  obind (expect "-" s) (fun s =>
  obind (read_digits 2 s 0) (fun '(mo, s) =>
  obind (expect "-" s) (fun s =>
  obind (read_digits 2 s 0) (fun '(d, s) =>
  obind (expect "T" s) (fun s =>
  obind (read_digits 2 s 0) (fun '(h, s) =>
  obind (expect ":" s) (fun s =>
  obind (read_digits 2 s 0) (fun '(mi, s) =>
  obind (expect ":" s) (fun s =>
  obind (read_digits 2 s 0) (fun '(sec, s) =>
  obind (read_sign s) (fun '(sign, s) =>
  obind (read_digits 2 s 0) (fun '(oh, s) =>
  obind (expect ":" s) (fun s =>
  obind (read_digits 2 s 0) (fun '(om, s) =>
  match s with
  | EmptyString =>
      if (1 <=? y) && (1 <=? mo) && (mo <=? 12)
         && (1 <=? d) && (d <=? days_in_month y mo)
         && (h <=? 23) && (mi <=? 59) && (sec <=? 59)
         && (oh <=? 23) && (om <=? 59)
      then
        Some ((days_from_civil y mo d * 86400 + h * 3600 + mi * 60 + sec
               - sign * (oh * 3600 + om * 60)) * 1000000)
      else None
  | _ => None
  end))))))))))))))).

(** [sum] on floats, from the left, starting at the integer 0. *)
Definition py_sum (l : list float) : float :=
  fold_left F64.add l F64.zero.

Definition run_at (c : option string) (t : string) : WorkflowRun :=
  {| name := "CD - Azure Web App"; conclusion := c; created_at := t;
     run_started_at := Some t; updated_at := Some t |}.

(** A server that lists [n] copies of an item on every page. *)
Definition full_pages (n : nat) (r : WorkflowRun) (p : PullRequest)
    : nat -> forall q : Request, Reply (list (item (target q))) :=
  fun _ q =>
    match target q as e return Reply (list (item e)) with
    | ActionsRuns => Response 200 (Some (List.repeat r n))
    | Pulls => Response 200 (Some (List.repeat p n))
    end.

(** A server that answers every request but the [k]-th with an empty page
    and the [k]-th with status [code]. *)
Definition failing_at (k : nat) (code : Z)
    : nat -> forall q : Request, Reply (list (item (target q))) :=
  fun n q =>
    if Nat.eqb n k then Response code None
    else match target q as e return Reply (list (item e)) with
         | ActionsRuns => Response 200 (Some [])
         | Pulls => Response 200 (Some [])
         end.

(** [int] on the strings of ASCII decimal digits, and [None] (for
    [ValueError]) on the empty string and on strings with a letter.  The
    other strings that [int] reads (with a sign, blanks around the digits,
    underscores or digits beyond ASCII) are not read here. *)
Definition py_int (s : string) : option Z :=
  match s with
  | EmptyString => None
  | _ => match read_digits (String.length s) s 0 with
         | Some (n, _) => Some n
         | None => None
         end
  end.

(** A clock standing at 2024-03-01 12:00 UTC, and an empty environment. *)
Definition clock (n : nat) : datetime := 1709294400000000.
Definition environ (k : string) : option string := None.

Definition collector : GitHubMetricsCollector :=
  {| token := ""; repo := "o/r"; window_days := 30;
     base_url := "https://api.github.com"; headers_ := [] |}.

End Run.

(** ** app/main.py: the routes of the four operations *)

Module Routes.

Import Api.

(** The [POST] routes declared with [@app.post]. *)
Inductive route := PostAdd | PostSub | PostMul | PostDiv.

Definition route_path (r : route) : string :=
  match r with
  | PostAdd => "/add"
  | PostSub => "/sub"
  | PostMul => "/mul"
  | PostDiv => "/div"
  end.

Definition handler (r : route) : OperationRequest -> result OperationResponse :=
  match r with
  | PostAdd => add_numbers
  | PostSub => subtract_numbers
  | PostMul => multiply_numbers
  | PostDiv => divide_numbers
  end.

Definition operation_of (r : route) : Calculator.operation :=
  match r with
  | PostAdd => Calculator.Add
  | PostSub => Calculator.Subtract
  | PostMul => Calculator.Multiply
  | PostDiv => Calculator.Divide
  end.

(** The answer to a validated body sent to a route. *)
Definition post (r : route) (request : OperationRequest) : Z * body :=
  respond (handler r request).

End Routes.

(** ** app/config.py *)

Module Config.

Record Settings := {
  app_name : string;
  env : string;
  debug : bool;
  host : string;
  port : Z
}.

Section Environment.

(** The process environment ([os.getenv]) and [int] on a string. *)
Variable getenv : string -> option string.
Variable py_int : string -> option Z.

Definition getenv_default (k default : string) : string :=
  match getenv k with
  | Some v => v
  | None => default
  end.

(** [Settings.__init__] *)
Definition Settings_init : result Settings :=
  let app_name := getenv_default "APP_NAME" "Calculator WebApp" in
  let env := getenv_default "ENV" "development" in
  let debug := String.eqb (Metrics.lower (getenv_default "DEBUG" "false")) "true" in
  let host := getenv_default "HOST" "0.0.0.0" in
  match py_int (getenv_default "PORT" "8000") with
  | Some port =>
      Ok {| app_name := app_name; env := env; debug := debug;
            host := host; port := port |}
  | None => Raise ValueError
  end.

(** [get_settings] under [@lru_cache]: the cache holds the value of the
    first call that returned; a call that raises stores nothing. *)
Definition get_settings (cache : option Settings)
    : result Settings * option Settings :=
  match cache with
  | Some s => (Ok s, cache)
  | None =>
      match Settings_init with
      | Ok s => (Ok s, Some s)
      | Raise e => (Raise e, None)
      end
  end.

End Environment.

(** Successive calls of [get_settings], each in the environment of its
    time, from a given cache. *)
Fixpoint calls (py_int : string -> option Z)
    (environments : list (string -> option string)) (cache : option Settings)
    : list (result Settings) :=
  match environments with
  | [] => []
  | getenv :: rest =>
      let '(r, cache') := get_settings getenv py_int cache in
      r :: calls py_int rest cache'
  end.

End Config.

(** ** metrics/main.py: what a reply gives, what a computation sends *)

Module MetricsExt.

Import Metrics.

(** What [_get] makes of a reply: [requests.get] raising, the error of
    [raise_for_status], or the decoded body. *)
Definition outcome_of_reply {A} (r : Reply A) : result A :=
  match r with
  | NoResponse => Raise RequestException
  | Response code json =>
      if is_error_status code then Raise (HTTPError code)
      else match json with
           | Some items => Ok items
           | None => Raise ValueError
           end
  end.

(** A computation that sends at most [hi] requests, all of them
    satisfying [P], and at least [lo] of them when it returns. *)
Definition sends {A} (P : Request -> Prop) (lo hi : nat) (c : M A) : Prop :=
  forall w : World,
    exists rs : list Request,
      sent (snd (c w)) = (sent w ++ rs)%list
      /\ Forall P rs
      /\ (List.length rs <= hi)%nat
      /\ (is_ok (fst (c w)) = true -> (lo <= List.length rs)%nat).

(** A request as the collector [self] builds it, with pages of 100. *)
Definition built_by (self : GitHubMetricsCollector) (q : Request) : Prop :=
  url q = base_url self ++ path (repo self) (target q)
  /\ headers q = headers_ self
  /\ dict_get "per_page" (params q) = Some (PInt 100).

Section Window.

Variable fromisoformat : string -> option datetime.

(** The condition of the comprehensions on pull requests: a [merged_at]
    that is set and not before the start of the window. *)
Definition merged_since (window_start : datetime) (pr : PullRequest) : bool :=
  truthy_str (merged_at pr)
  && match parse_field fromisoformat (merged_at pr) with
     | Ok merged => merged >=? window_start
     | Raise _ => false
     end.

End Window.

(** Whether the author test of [collect_dependabot_metrics] raises on a
    pull request, and its value when it does not. *)
Definition user_is_null (pr : PullRequest) : bool :=
  match user pr with
  | UserNull => true
  | _ => false
  end.

Definition by_dependabot (pr : PullRequest) : bool :=
  match user pr with
  | User (Some login) => String.eqb login "dependabot[bot]"
  | _ => false
  end.

(** Descending order of the keys, as [sorted(..., reverse=True)] takes it. *)
Definition gtb (k1 k2 : string) : bool := String.ltb k2 k1.

(** A run that failed or succeeded (not cancelled, skipped or still
    running). *)
Definition decided (r : WorkflowRun) : bool :=
  conclusion_is "failure" r || conclusion_is "success" r.

(** A float without a minus sign: a zero, finite float or infinity with
    the sign bit clear, or NaN. *)
Definition unsigned (x : float) : bool :=
  match x with
  | S754_zero s | S754_infinity s | S754_finite s _ _ => negb s
  | S754_nan => true
  end.

Section Chronological.

Variable fromisoformat : string -> option datetime.

(** The order of the [created_at] strings of [runs] agrees with the order
    of the times they stand for. *)
Definition chronological (runs : list WorkflowRun) : Prop :=
  forall r1 r2 t1 t2,
    In r1 runs -> In r2 runs ->
    _parse_datetime fromisoformat (created_at r1) = Ok t1 ->
    _parse_datetime fromisoformat (created_at r2) = Ok t2 ->
    String.ltb (created_at r2) (created_at r1) = false ->
    t1 <= t2.



End Chronological.

End MetricsExt.

(** ** More instances for running the collector *)

Module RunExt.

Import Metrics.

(** A server that answers with full pages of 100 items until the [k]-th
    request, which it answers with status [code]. *)
Definition full_until (k : nat) (code : Z)
    : nat -> forall q : Request, Reply (list (item (target q))) :=
  fun n q =>
    if Nat.eqb n k then Response code None
    else Run.full_pages 100 (Run.run_at None "")
           {| pr_created_at := ""; merged_at := None; user := UserAbsent |} n q.

End RunExt.

(** * Properties *)

(** ** Comparison and addition of floats *)

Module F64Facts.

Lemma is_zero_spec (x : float) :
  F64.is_zero x = true <-> x = S754_zero false \/ x = S754_zero true.
Proof.
  unfold F64.is_zero, F64.eqb, SFeqb, F64.zero.
  destruct x as [[|]|[|]| |[|] m e]; simpl; split;
    intros H; try discriminate; auto; destruct H; discriminate.
Qed.

Lemma compare_cont_refl (m : positive) : Pos.compare_cont Eq m m = Eq.
Proof. exact (Pos.compare_refl m). Qed.

(** [x == x] fails for NaN only. *)
Lemma eqb_refl (x : float) : F64.eqb x x = negb (F64.is_nan x).
Proof.
  unfold F64.eqb, SFeqb.
  destruct x as [[|]|[|]| |[|] m e]; simpl; try reflexivity;
    rewrite Z.compare_refl, compare_cont_refl; reflexivity.
Qed.

Lemma add_comm (x y : float) : F64.add x y = F64.add y x.
Proof.
  unfold F64.add.
  destruct x as [[|]|[|]| |sx mx ex], y as [[|]|[|]| |sy my ey];
    try reflexivity.
  unfold SFadd. rewrite (Z.min_comm ey ex).
  f_equal. apply Z.add_comm.
Qed.

(** Away from NaN, [<] is the lexicographic order of the ranks. *)
Lemma ltb_rank (x y : float) :
  F64.is_nan x = false -> F64.is_nan y = false ->
  (F64.ltb x y = true <-> F64.rank_lt (F64.rank x) (F64.rank y)).
Proof.
  unfold F64.ltb, SFltb, F64.rank_lt.
  destruct x as [[|]|[|]| |[|] m1 e1], y as [[|]|[|]| |[|] m2 e2];
    simpl; intros Hx Hy; try discriminate;
    try (split; [intros; lia | intros; reflexivity]);
    try (split; [discriminate | intros; lia]);
    change (Pos.compare_cont Eq m1 m2) with (Pos.compare m1 m2);
    destruct (Z.compare_spec e1 e2) as [He|He|He];
    destruct (Pos.compare_spec m1 m2) as [Hm|Hm|Hm];
    simpl; split; intros Hlt; try discriminate; try reflexivity; try lia.
Qed.

Lemma ltb_asym (a b : float) :
  F64.is_nan a = false -> F64.is_nan b = false ->
  F64.ltb a b = true -> F64.ltb b a = false.
Proof.
  intros Ha Hb H. apply (ltb_rank a b Ha Hb) in H.
  destruct (F64.ltb b a) eqn:E; [|reflexivity].
  apply (ltb_rank b a Hb Ha) in E. exfalso.
  destruct (F64.rank a) as [[a1 a2] a3], (F64.rank b) as [[b1 b2] b3].
  unfold F64.rank_lt in *. lia.
Qed.

Lemma ltb_negtrans (a b c : float) :
  F64.is_nan a = false -> F64.is_nan b = false -> F64.is_nan c = false ->
  F64.ltb b a = false -> F64.ltb c b = false -> F64.ltb c a = false.
Proof.
  intros Ha Hb Hc Hba Hcb.
  destruct (F64.ltb c a) eqn:E; [|reflexivity]. exfalso.
  apply (ltb_rank c a Hc Ha) in E.
  assert (Nba : ~ F64.rank_lt (F64.rank b) (F64.rank a))
    by (intros H; apply (ltb_rank b a Hb Ha) in H; congruence).
  assert (Ncb : ~ F64.rank_lt (F64.rank c) (F64.rank b))
    by (intros H; apply (ltb_rank c b Hc Hb) in H; congruence).
  destruct (F64.rank a) as [[a1 a2] a3], (F64.rank b) as [[b1 b2] b3],
    (F64.rank c) as [[c1 c2] c3].
  unfold F64.rank_lt in *. lia.
Qed.

End F64Facts.

(** ** Rounding to the format

    What [binary_round_aux] returns for a non-negative value that does not
    exceed a float [Mb * 2 ^ eb] of the format: a float of the format that
    does not exceed it either.  The bound is carried through the division
    of integers, the product with 100 and the rounding to two decimals. *)

Module RoundingProps.

Lemma digits2_pos_spec (m : positive) :
  2 ^ (Zpos (digits2_pos m) - 1) <= Zpos m < 2 ^ Zpos (digits2_pos m).
Proof.
  induction m as [m IH|m IH|]; cbn [digits2_pos].
  - rewrite Pos2Z.inj_succ.
    replace (Z.succ (Zpos (digits2_pos m)) - 1) with (Z.succ (Zpos (digits2_pos m) - 1)) by lia.
    rewrite !Z.pow_succ_r by lia. lia.
  - rewrite Pos2Z.inj_succ.
    replace (Z.succ (Zpos (digits2_pos m)) - 1) with (Z.succ (Zpos (digits2_pos m) - 1)) by lia.
    rewrite !Z.pow_succ_r by lia. lia.
  - simpl. lia.
Qed.

Lemma iter_pos_nat {A} (f : A -> A) (p : positive) :
  forall x, iter_pos f p x = Nat.iter (Pos.to_nat p) f x.
Proof.
  induction p as [p IH|p IH|]; intros x; cbn [iter_pos].
  - rewrite !IH, Pos2Nat.inj_xI. rewrite <- Nat.iter_succ_r.
    replace (S (2 * Pos.to_nat p))%nat with (Pos.to_nat p + S (Pos.to_nat p))%nat by lia.
    now rewrite Nat.iter_add.
  - rewrite !IH, Pos2Nat.inj_xO.
    replace (2 * Pos.to_nat p)%nat with (Pos.to_nat p + Pos.to_nat p)%nat by lia.
    now rewrite Nat.iter_add.
  - reflexivity.
Qed.

Lemma shr_1_spec (mrs : shr_record) :
  0 <= shr_m mrs ->
  shr_m (shr_1 mrs) = shr_m mrs / 2
  /\ (shr_r mrs = false -> shr_s mrs = false -> shr_m mrs mod 2 = 0 ->
      shr_r (shr_1 mrs) = false /\ shr_s (shr_1 mrs) = false).
Proof.
  destruct mrs as [m r s]. cbn [shr_m shr_r shr_s].
  destruct m as [|[p|p|]|p]; cbn [shr_1 shr_m shr_r shr_s]; intros Hm; try lia;
    (split; [Z.div_mod_to_equations; lia|]); intros -> -> Hmod; try (split; reflexivity);
    exfalso; Z.div_mod_to_equations; lia.
Qed.

Lemma shr_iter_spec (n : nat) (mrs : shr_record) :
  0 <= shr_m mrs ->
  shr_m (Nat.iter n shr_1 mrs) = shr_m mrs / 2 ^ Z.of_nat n
  /\ (shr_r mrs = false -> shr_s mrs = false -> shr_m mrs mod 2 ^ Z.of_nat n = 0 ->
      shr_r (Nat.iter n shr_1 mrs) = false /\ shr_s (Nat.iter n shr_1 mrs) = false).
Proof.
  intros Hm. induction n as [|n [IHm IHe]].
  - simpl. rewrite Z.div_1_r. auto.
  - cbn [Nat.iter nat_rect].
    assert (Hpos : 0 < 2 ^ Z.of_nat n) by (apply Z.pow_pos_nonneg; lia).
    assert (H0 : 0 <= shr_m (Nat.iter n shr_1 mrs))
      by (rewrite IHm; apply Z.div_pos; lia).
    destruct (shr_1_spec _ H0) as [H1 H2].
    rewrite Nat2Z.inj_succ, Z.pow_succ_r by lia.
    split.
    + unfold Nat.iter in *. rewrite H1, IHm, Z.div_div by lia. f_equal. lia.
    + intros Hr Hs Hmod.
      assert (Hmod' : shr_m mrs mod 2 ^ Z.of_nat n = 0).
      { apply Z.mod_divide in Hmod; [|lia]. apply Z.mod_divide; [lia|].
        destruct Hmod as [c Hc]. exists (c * 2). lia. }
      destruct (IHe Hr Hs Hmod') as [Hr' Hs'].
      unfold Nat.iter in *. apply H2; auto.
      rewrite IHm.
      apply Z.mod_divide in Hmod; [|lia]. destruct Hmod as [c Hc].
      rewrite Hc. replace (c * (2 * 2 ^ Z.of_nat n)) with (c * 2 * 2 ^ Z.of_nat n) by lia.
      rewrite Z.div_mul by lia. apply Z.mod_mul. lia.
Qed.

Lemma shr_spec (mrs : shr_record) (e n : Z) :
  0 <= shr_m mrs -> 0 <= n ->
  snd (shr mrs e n) = e + n
  /\ shr_m (fst (shr mrs e n)) = shr_m mrs / 2 ^ n
  /\ (shr_r mrs = false -> shr_s mrs = false -> shr_m mrs mod 2 ^ n = 0 ->
      shr_r (fst (shr mrs e n)) = false /\ shr_s (fst (shr mrs e n)) = false).
Proof.
  intros Hm Hn. destruct n as [|p|p]; try lia.
  - simpl. rewrite Z.div_1_r. repeat split; auto. lia.
  - cbn [shr fst snd]. rewrite iter_pos_nat.
    destruct (shr_iter_spec (Pos.to_nat p) mrs Hm) as [H1 H2].
    rewrite positive_nat_Z in *. auto.
Qed.

Lemma fexp_eq (e : Z) : fexp 53 1024 e = Z.max (e - 53) (-1074).
Proof. reflexivity. Qed.

Lemma Zdigits2_spec (m : Z) :
  0 < m -> 2 ^ (Zdigits2 m - 1) <= m < 2 ^ Zdigits2 m.
Proof.
  destruct m as [|p|p]; try lia. intros _. apply digits2_pos_spec.
Qed.

Lemma Zdigits2_le (m k : Z) : 0 < m -> 0 <= k -> m < 2 ^ k -> Zdigits2 m <= k.
Proof.
  intros Hm Hk Hlt. destruct (Zdigits2_spec m Hm) as [Hlo _].
  destruct (Z.le_gt_cases (Zdigits2 m) k) as [|Hgt]; [assumption|].
  assert (2 ^ k <= 2 ^ (Zdigits2 m - 1)) by (apply Z.pow_le_mono_r; lia). lia.
Qed.

Lemma Zdigits2_gt (m k : Z) : 0 <= k -> 2 ^ k <= m -> k < Zdigits2 m.
Proof.
  intros Hk Hle.
  assert (0 < 2 ^ k) by (apply Z.pow_pos_nonneg; lia).
  destruct (Zdigits2_spec m ltac:(lia)) as [_ Hhi].
  destruct (Z.lt_ge_cases k (Zdigits2 m)) as [|Hge]; [assumption|].
  assert (2 ^ Zdigits2 m <= 2 ^ k) by (apply Z.pow_le_mono_r; lia). lia.
Qed.

Lemma Zdigits2_pos (m : Z) : 0 < m -> 0 < Zdigits2 m.
Proof. destruct m; simpl; lia. Qed.

Lemma round_nearest_even_spec (m : Z) (l : location) :
  m <= round_nearest_even m l <= m + 1
  /\ (l = loc_Exact -> round_nearest_even m l = m).
Proof.
  destruct l as [|[| |]]; simpl; try destruct (Z.even m);
    split; try lia; auto; discriminate.
Qed.

Lemma loc_of_exact (mrs : shr_record) :
  shr_r mrs = false -> shr_s mrs = false -> loc_of_shr_record mrs = loc_Exact.
Proof. destruct mrs; simpl; intros -> ->; reflexivity. Qed.

Lemma shr_record_of_loc_m (m : Z) (l : location) :
  shr_m (shr_record_of_loc m l) = m.
Proof. destruct l as [|[| |]]; reflexivity. Qed.

Lemma shr_fexp_noshift (m e : Z) :
  fexp 53 1024 (Zdigits2 m + e) <= e ->
  shr_fexp 53 1024 m e loc_Exact
  = ({| shr_m := m; shr_r := false; shr_s := false |}, e).
Proof.
  intros H. unfold shr_fexp, shr.
  destruct (fexp 53 1024 (Zdigits2 m + e) - e) eqn:E; try reflexivity. lia.
Qed.

Lemma shr_fexp_carry (e : Z) :
  -1074 <= e ->
  shr_fexp 53 1024 9007199254740992 e loc_Exact
  = ({| shr_m := 4503599627370496; shr_r := false; shr_s := false |}, e + 1).
Proof.
  intros H. unfold shr_fexp.
  replace (fexp 53 1024 (Zdigits2 9007199254740992 + e) - e) with 1
    by (rewrite fexp_eq; change (Zdigits2 9007199254740992) with 54; lia).
  reflexivity.
Qed.

Lemma bounded_inv (m : positive) (e : Z) :
  bounded 53 1024 m e = true ->
  -1074 <= e <= 971 /\ Zpos m < 2 ^ 53
  /\ e = Z.max (Zpos (digits2_pos m) + e - 53) (-1074).
Proof.
  unfold bounded, canonical_mantissa. rewrite fexp_eq.
  intros H. apply andb_prop in H. destruct H as [Hc He].
  apply Z.eqb_eq in Hc. apply Z.leb_le in He. change (1024 - 53) with 971 in He.
  assert (Hd : Zpos (digits2_pos m) <= 53) by lia.
  pose proof (digits2_pos_spec m) as [_ Hhi].
  assert (2 ^ Zpos (digits2_pos m) <= 2 ^ 53) by (apply Z.pow_le_mono_r; lia).
  repeat split; lia.
Qed.

Lemma round_aux_le (mx ex : Z) (lx : location) (Mb : positive) (eb : Z) :
  0 <= mx ->
  ex <= fexp 53 1024 (Zdigits2 mx + ex) ->
  bounded 53 1024 Mb eb = true ->
  ex <= eb ->
  mx <= Zpos Mb * 2 ^ (eb - ex) ->
  (mx = Zpos Mb * 2 ^ (eb - ex) -> lx = loc_Exact) ->
  binary_round_aux 53 1024 false mx ex lx = S754_zero false
  \/ exists m e,
       binary_round_aux 53 1024 false mx ex lx = S754_finite false m e
       /\ bounded 53 1024 m e = true
       /\ e <= eb /\ Zpos m <= Zpos Mb * 2 ^ (eb - e).
Proof.
  intros Hmx Hex Hb Heb Hle Hexact.
  destruct (bounded_inv _ _ Hb) as [Hebr [HMb _]].
  remember (binary_round_aux 53 1024 false mx ex lx) as res eqn:Hres.
  unfold binary_round_aux in Hres.
  unfold shr_fexp at 1 in Hres.
  set (d := Zdigits2 mx) in *.
  set (e1 := fexp 53 1024 (d + ex)) in *.
  assert (He1 : e1 = Z.max (d + ex - 53) (-1074)) by (unfold e1; apply fexp_eq).
  assert (Hn1 : 0 <= e1 - ex) by lia.
  destruct (shr_spec (shr_record_of_loc mx lx) ex (e1 - ex)) as [Hse [Hsm Hsx]];
    [rewrite shr_record_of_loc_m; lia | lia |].
  rewrite shr_record_of_loc_m in Hsm, Hsx.
  destruct (shr (shr_record_of_loc mx lx) ex (e1 - ex)) as [mrs' e'].
  cbn [fst snd] in Hse, Hsm, Hsx.
  assert (He' : e' = e1) by lia. clear Hse. subst e'.
  set (m' := shr_m mrs') in *.
  assert (Hp1 : 0 < 2 ^ (e1 - ex)) by (apply Z.pow_pos_nonneg; lia).
  assert (Hm'0 : 0 <= m') by (rewrite Hsm; apply Z.div_pos; lia).
  assert (Hd0 : 0 <= d) by (unfold d; destruct mx; simpl; lia).
  (* the magnitude of the input *)
  assert (Hmag : mx < 2 ^ d).
  { destruct (Z.eq_dec mx 0) as [->|Hne]; [apply Z.pow_pos_nonneg; lia|].
    apply Zdigits2_spec. lia. }
  (* normal or subnormal *)
  assert (Hcases : (e1 = d + ex - 53 /\ 2 ^ 52 <= m') \/ (e1 = -1074 /\ m' < 2 ^ 52)).
  { destruct (Z.le_gt_cases (-1074) (d + ex - 53)) as [Hn|Hs].
    - left. split; [lia|].
      assert (Hd53 : 53 <= d) by lia.
      assert (Hmxpos : 0 < mx) by (destruct mx; simpl in *; unfold d in *; simpl in *; lia).
      destruct (Zdigits2_spec mx Hmxpos) as [Hlo _]. fold d in Hlo.
      rewrite Hsm. apply Z.div_le_lower_bound; [lia|].
      replace (e1 - ex) with (d - 53) by lia.
      rewrite <- Z.pow_add_r by lia. now replace (d - 53 + 52) with (d - 1) by lia.
    - right. split; [lia|].
      rewrite Hsm. apply Z.div_lt_upper_bound; [lia|].
      destruct (Z.le_gt_cases d (e1 - ex + 52)) as [Hsmall|Hbig].
      + rewrite <- Z.pow_add_r by lia.
        assert (2 ^ d <= 2 ^ (e1 - ex + 52)) by (apply Z.pow_le_mono_r; lia). lia.
      + lia. }
  assert (Hm'53 : m' < 2 ^ 53).
  { destruct Hcases as [[Hn _]|[_ Hs]]; [|assert (2 ^ 52 < 2 ^ 53) by reflexivity; lia].
    rewrite Hsm. apply Z.div_lt_upper_bound; [lia|].
    replace (e1 - ex) with (d - 53) by lia.
    rewrite <- Z.pow_add_r by lia. now replace (d - 53 + 53) with d by lia. }
  (* the bound, on the grid of the result *)
  assert (He1b : e1 <= eb).
  { destruct (Z.eq_dec mx 0) as [H0|Hne].
    - subst mx. unfold d in He1. simpl in He1. lia.
    - destruct (Zdigits2_spec mx ltac:(lia)) as [Hlo _]. fold d in Hlo.
      assert (Hp : 0 < 2 ^ (eb - ex)) by (apply Z.pow_pos_nonneg; lia).
      assert (2 ^ (d - 1) < 2 ^ (53 + (eb - ex))).
      { rewrite Z.pow_add_r by lia. nia. }
      apply Z.pow_lt_mono_r_iff in H; lia. }
  set (T := Zpos Mb * 2 ^ (eb - e1)).
  assert (HT : Zpos Mb * 2 ^ (eb - ex) = T * 2 ^ (e1 - ex)).
  { unfold T. rewrite <- Z.mul_assoc, <- Z.pow_add_r by lia. do 2 f_equal. lia. }
  destruct (round_nearest_even_spec m' (loc_of_shr_record mrs')) as [[Hr1 Hr2] Hr3].
  set (m1 := round_nearest_even m' (loc_of_shr_record mrs')) in *.
  assert (Hm1T : m1 <= T).
  { assert (m' <= T).
    { rewrite Hsm. apply Z.div_le_upper_bound; [lia|]. rewrite Z.mul_comm. lia. }
    destruct (Z.eq_dec m' T) as [Heq|Hne]; [|lia].
    assert (Hmul : m' * 2 ^ (e1 - ex) <= mx).
    { rewrite Hsm, Z.mul_comm. apply Z.mul_div_le. lia. }
    assert (Hmxeq : mx = T * 2 ^ (e1 - ex)) by nia.
    assert (Hlx : lx = loc_Exact) by (apply Hexact; lia).
    subst lx. destruct Hsx as [Hxr Hxs]; try reflexivity.
    { rewrite Hmxeq. apply Z.mod_mul. lia. }
    rewrite Hr3; [lia|]. now apply loc_of_exact. }
  assert (Hm1 : m1 < 2 ^ 53 \/ m1 = 2 ^ 53) by lia.
  change (1024 - 53) with 971 in Hres.
  destruct Hm1 as [Hlt|Hcarry].
  - (* no carry *)
    rewrite shr_fexp_noshift in Hres.
    2:{ rewrite fexp_eq.
        destruct (Z.eq_dec m1 0) as [H0|Hne]; [rewrite H0; simpl; lia|].
        assert (Zdigits2 m1 <= 53) by (apply Zdigits2_le; lia). lia. }
    cbn [shr_m] in Hres.
    destruct m1 as [|p|p] eqn:Hp; [now left| |lia].
    right. exists p, e1.
    replace (e1 <=? 971) with true in Hres by (symmetry; apply Z.leb_le; lia).
    split; [exact Hres|]. split; [|split; [exact He1b|exact Hm1T]].
    unfold bounded, canonical_mantissa. rewrite fexp_eq.
    apply andb_true_intro.
      split; [apply Z.eqb_eq|apply Z.leb_le; change (1024 - 53) with 971; lia].
    change (Zpos (digits2_pos p)) with (Zdigits2 (Zpos p)).
    assert (Hdp : Zdigits2 (Zpos p) <= 53) by (apply Zdigits2_le; lia).
    destruct Hcases as [[Hn Hge]|[Hs _]]; [|lia].
    assert (52 < Zdigits2 (Zpos p)) by (apply Zdigits2_gt; lia). lia.
  - (* the mantissa carried into a 54th bit *)
    assert (Hnorm : e1 = d + ex - 53 /\ 2 ^ 52 <= m').
    { destruct Hcases as [H|[_ Hs]]; [exact H|].
      assert (2 ^ 52 < 2 ^ 53) by reflexivity. lia. }
    rewrite Hcarry in Hres. change (2 ^ 53) with 9007199254740992 in Hres.
    rewrite shr_fexp_carry in Hres by lia. cbn [shr_m] in Hres.
    assert (Hlt : e1 < eb).
    { destruct (Z.eq_dec e1 eb) as [Heq|]; [|lia].
      unfold T in Hm1T. rewrite Heq, Z.sub_diag in Hm1T. simpl in Hm1T. lia. }
    right. exists 4503599627370496%positive, (e1 + 1).
    replace (e1 + 1 <=? 971) with true in Hres by (symmetry; apply Z.leb_le; lia).
    split; [exact Hres|]. split; [|split; [lia|]].
    + unfold bounded, canonical_mantissa. rewrite fexp_eq.
      apply andb_true_intro.
      split; [apply Z.eqb_eq|apply Z.leb_le; change (1024 - 53) with 971; lia].
      change (Zpos (digits2_pos 4503599627370496)) with 53. lia.
    + unfold T in Hm1T.
      replace (eb - e1) with (Z.succ (eb - (e1 + 1))) in Hm1T by lia.
      rewrite Z.pow_succ_r in Hm1T by lia.
      change (2 ^ 53) with 9007199254740992 in Hcarry. lia.
Qed.

Lemma new_location_exact (n : Z) : new_location n 0 = loc_Exact.
Proof.
  unfold new_location, new_location_even, new_location_odd.
  destruct (Z.even n); reflexivity.
Qed.

Lemma div_pos_le (k n Mb : positive) (eb : Z) :
  bounded 53 1024 Mb eb = true ->
  eb <= 0 ->
  Zpos k * 2 ^ (- eb) <= Zpos Mb * Zpos n ->
  F64.div (S754_finite false k 0) (S754_finite false n 0) = S754_zero false
  \/ exists m e,
       F64.div (S754_finite false k 0) (S754_finite false n 0) = S754_finite false m e
       /\ bounded 53 1024 m e = true
       /\ e <= eb /\ Zpos m <= Zpos Mb * 2 ^ (eb - e).
Proof.
  intros Hb Heb0 Hle.
  destruct (bounded_inv _ _ Hb) as [Hebr [HMb _]].
  unfold F64.div, F64.prec, F64.emax, SFdiv, SFdiv_core_binary.
  cbn [xorb].
  set (d1 := Zdigits2 (Zpos k)). set (d2 := Zdigits2 (Zpos n)).
  replace (d1 + 0 - (d2 + 0)) with (d1 - d2) by lia.
  rewrite fexp_eq. change (0 - 0) with 0.
  set (e' := Z.min (Z.max (d1 - d2 - 53) (-1074)) 0).
  destruct (Zdigits2_spec (Zpos k) ltac:(lia)) as [Hk1 Hk2]. fold d1 in Hk1, Hk2.
  destruct (Zdigits2_spec (Zpos n) ltac:(lia)) as [Hn1 Hn2]. fold d2 in Hn1, Hn2.
  assert (Hd1 : 0 < d1) by (apply Zdigits2_pos; lia).
  assert (Hd2 : 0 < d2) by (apply Zdigits2_pos; lia).
  assert (He'0 : e' <= 0) by (unfold e'; lia).
  assert (Hm' : match 0 - e' with
                | 0 => Zpos k
                | Zpos _ => Z.shiftl (Zpos k) (0 - e')
                | Zneg _ => 0
                end = Zpos k * 2 ^ (- e')).
  { replace (0 - e') with (- e') by lia.
    destruct (- e') as [|p|p] eqn:E; try lia.
    apply Z.shiftl_mul_pow2. lia. }
  rewrite Hm'. clear Hm'.
  set (s := - e') in *.
  assert (Hs : 0 <= s) by (unfold s; lia).
  assert (Hps : 0 < 2 ^ s) by (apply Z.pow_pos_nonneg; lia).
  pose proof (Z_div_mod (Zpos k * 2 ^ s) (Zpos n) ltac:(lia)) as Hdm.
  destruct (Z.div_eucl (Zpos k * 2 ^ s) (Zpos n)) as [q r].
  destruct Hdm as [Hqr Hr].
  assert (Hq0 : 0 <= q) by nia.
  (* the bound is above the magnitude of the quotient *)
  assert (HD : d1 - d2 - 53 <= eb).
  { assert (Hpe : 0 < 2 ^ (- eb)) by (apply Z.pow_pos_nonneg; lia).
    assert (Hpd : 0 < 2 ^ (d1 - 1)) by (apply Z.pow_pos_nonneg; lia).
    assert (2 ^ (d1 - 1 + - eb) < 2 ^ (53 + d2)).
    { rewrite !Z.pow_add_r by lia.
      assert (2 ^ (d1 - 1) * 2 ^ (- eb) <= Zpos k * 2 ^ (- eb)) by nia.
      assert (Zpos Mb * Zpos n < 2 ^ 53 * 2 ^ d2) by nia. lia. }
    apply Z.pow_lt_mono_r_iff in H; lia. }
  assert (He'b : e' <= eb) by (unfold e'; lia).
  assert (Hsb : 0 <= eb - e') by lia.
  assert (Hpb : 0 < 2 ^ (eb - e')) by (apply Z.pow_pos_nonneg; lia).
  assert (Hnum : Zpos k * 2 ^ s <= Zpos Mb * 2 ^ (eb - e') * Zpos n).
  { replace s with (- eb + (eb - e')) by (unfold s; lia).
    rewrite Z.pow_add_r by lia. nia. }
  apply round_aux_le; auto.
  - (* the quotient has enough digits *)
    rewrite fexp_eq.
    destruct (Z.eq_dec e' (-1074)) as [Hmin|Hnm].
    { assert (0 <= Zdigits2 q) by (destruct q; simpl; lia). lia. }
    assert (Hbig : 2 ^ (52 + d2) <= Zpos k * 2 ^ s).
    { assert (Hsd : 52 + d2 <= d1 - 1 + s) by (unfold s, e'; lia).
      assert (2 ^ (52 + d2) <= 2 ^ (d1 - 1 + s)) by (apply Z.pow_le_mono_r; lia).
      rewrite (Z.pow_add_r 2 (d1 - 1) s) in H by lia.
      apply Z.le_trans with (1 := H). apply Z.mul_le_mono_nonneg_r; lia. }
    assert (Hq52 : 2 ^ 52 <= q).
    { rewrite Z.pow_add_r in Hbig by lia.
      assert (0 < 2 ^ 52) by reflexivity.
      assert (2 ^ 52 * Zpos n < Zpos n * q + Zpos n) by nia. nia. }
    assert (52 < Zdigits2 q) by (apply Zdigits2_gt; lia). lia.
  - nia.
  - intros Hq. replace r with 0 by nia. apply new_location_exact.
Qed.

Lemma below_not_infinite (Mb : positive) (eb : Z) (x : float) :
  F64.below Mb eb x -> F64.is_infinite x = false.
Proof. intros [->|[m [e [-> _]]]]; reflexivity. Qed.

Lemma below_between (Mb : positive) (eb : Z) (x : float) :
  F64.below Mb eb x ->
  F64.leb F64.zero x = true /\ F64.leb x (S754_finite false Mb eb) = true.
Proof.
  intros [->|[m [e [-> [_ [He Hm]]]]]]; [split; reflexivity|].
  split; [reflexivity|].
  unfold F64.leb, SFleb, SFcompare.
  destruct (Z.compare_spec e eb) as [Heq|Hlt|Hgt]; try reflexivity; [|lia].
  subst e. rewrite Z.sub_diag in Hm. simpl in Hm.
  change (Pos.compare_cont Eq m Mb) with (Pos.compare m Mb).
  destruct (Pos.compare_spec m Mb); try reflexivity. lia.
Qed.

Lemma int_truediv_unit (k n : nat) :
  (k <= n)%nat -> (0 < n)%nat ->
  exists q, F64.int_truediv (Z.of_nat k) (Z.of_nat n) = Ok q
            /\ F64.below 4503599627370496 (-52) q.
Proof.
  intros Hkn Hn. unfold F64.int_truediv.
  replace (Z.of_nat n =? 0) with false by (symmetry; apply Z.eqb_neq; lia).
  replace (Z.of_nat k <? 0) with false by (symmetry; apply Z.ltb_ge; lia).
  replace (Z.of_nat n <? 0) with false by (symmetry; apply Z.ltb_ge; lia).
  cbn [xorb].
  destruct (Z.abs (Z.of_nat k)) as [|ma|ma] eqn:Hk.
  - exists (S754_zero false). split; [reflexivity|now left].
  - assert (Hq : F64.below 4503599627370496 (-52)
                   (F64.div (S754_finite false ma 0)
                      (S754_finite false (Z.to_pos (Z.abs (Z.of_nat n))) 0))).
    { apply div_pos_le; [reflexivity|lia|].
      rewrite Z2Pos.id by lia. change (2 ^ (- -52)) with 4503599627370496. lia. }
    eexists. rewrite (below_not_infinite _ _ _ Hq). split; [reflexivity|exact Hq].
  - lia.
Qed.

Lemma mul_100_below (x : float) :
  F64.below 4503599627370496 (-52) x ->
  F64.below 7036874417766400 (-46) (F64.mul x (F64.of_Z 100)).
Proof.
  change (F64.of_Z 100) with (S754_finite false 7036874417766400 (-46)).
  intros [->|[m [e [-> [Hb [He Hm]]]]]]; [now left|].
  unfold F64.mul, F64.prec, F64.emax, SFmul. cbn [xorb].
  assert (Hp : 0 < 2 ^ (-52 - e)) by (apply Z.pow_pos_nonneg; lia).
  assert (Hpow : 4503599627370496 * 2 ^ (-52 - e) = 2 ^ (- e)).
  { change 4503599627370496 with (2 ^ 52). rewrite <- Z.pow_add_r by lia.
    f_equal. lia. }
  apply round_aux_le; try reflexivity; try lia.
  - rewrite fexp_eq.
    assert (52 < Zdigits2 (Zpos (m * 7036874417766400))).
    { apply Zdigits2_gt; [lia|]. change (2 ^ 52) with 4503599627370496. lia. }
    lia.
  - replace (-46 - (e + -46)) with (- e) by lia. rewrite <- Hpow. nia.
Qed.

Lemma round_half_even_div_le (n d c : Z) :
  0 < d -> 0 <= n -> n <= c * d -> F64.round_half_even_div n d <= c.
Proof.
  intros Hd Hn Hle. unfold F64.round_half_even_div.
  pose proof (Z.div_mod n d ltac:(lia)) as Hdm.
  pose proof (Z.mod_pos_bound n d Hd) as Hr.
  assert (Hq : n / d <= c) by (apply Z.div_le_upper_bound; lia).
  destruct (Z.eq_dec (n / d) c) as [Heq|Hne].
  - assert (n mod d = 0) by nia.
    rewrite H. replace (2 * 0 ?= d) with Lt by (symmetry; apply Z.compare_lt_iff; lia).
    lia.
  - destruct (2 * (n mod d) ?= d); try destruct (Z.even (n / d)); lia.
Qed.

Lemma round2_below (x : float) :
  F64.below 7036874417766400 (-46) x ->
  F64.below 7036874417766400 (-46) (F64.round2 x).
Proof.
  intros [->|[m [e [-> [Hb [He Hm]]]]]]; [now left|].
  unfold F64.round2.
  assert (Hh : F64.hundredths m e <= 10000).
  { unfold F64.hundredths. destruct e as [|p|p]; try lia.
    apply round_half_even_div_le; [apply Z.pow_pos_nonneg; lia|lia|].
    replace (-46 - Zneg p) with (Zpos p - 46) in Hm by lia.
    assert (Hp : 0 < 2 ^ (Zpos p - 46)) by (apply Z.pow_pos_nonneg; lia).
    replace (2 ^ Zpos p) with (2 ^ 46 * 2 ^ (Zpos p - 46))
      by (rewrite <- Z.pow_add_r by lia; f_equal; lia).
    change (2 ^ 46) with 70368744177664. nia. }
  destruct (F64.hundredths m e) as [|n|n]; [now left| |now left].
  apply div_pos_le; [reflexivity|lia|].
  change (2 ^ (- -46)) with 70368744177664. lia.
Qed.

Lemma shr_nonneg (mrs : shr_record) (e n : Z) :
  0 <= shr_m mrs -> 0 <= shr_m (fst (shr mrs e n)).
Proof.
  intros Hm. destruct n as [|p|p]; try exact Hm.
  destruct (shr_spec mrs e (Zpos p) Hm ltac:(lia)) as [_ [H _]].
  rewrite H. apply Z.div_pos; [lia|]. apply Z.pow_pos_nonneg; lia.
Qed.

(** Rounding a non-negative mantissa never yields NaN. *)
Lemma round_aux_not_nan (s : bool) (mx ex : Z) (lx : location) :
  0 <= mx -> F64.is_nan (binary_round_aux 53 1024 s mx ex lx) = false.
Proof.
  intros Hmx. unfold binary_round_aux, shr_fexp.
  pose proof (shr_nonneg (shr_record_of_loc mx lx) ex
                (fexp 53 1024 (Zdigits2 mx + ex) - ex)) as H1.
  rewrite shr_record_of_loc_m in H1. specialize (H1 Hmx).
  destruct (shr (shr_record_of_loc mx lx) ex _) as [mrs' e']. cbn [fst] in H1.
  destruct (round_nearest_even_spec (shr_m mrs') (loc_of_shr_record mrs'))
    as [[Hr _] _].
  set (m1 := round_nearest_even (shr_m mrs') (loc_of_shr_record mrs')) in *.
  pose proof (shr_nonneg (shr_record_of_loc m1 loc_Exact) e'
                (fexp 53 1024 (Zdigits2 m1 + e') - e')) as H2.
  cbn [shr_record_of_loc shr_m] in H2. specialize (H2 ltac:(lia)).
  destruct (shr _ e' _) as [mrs2 e2]. cbn [fst] in H2.
  destruct (shr_m mrs2) as [|m|m]; try reflexivity; [|lia].
  destruct (e2 <=? 1024 - 53); reflexivity.
Qed.

Lemma normalize_not_nan (m e : Z) (szero : bool) :
  F64.is_nan (binary_normalize 53 1024 m e szero) = false.
Proof.
  destruct m as [|p|p]; [reflexivity| |];
    unfold binary_normalize, binary_round;
    destruct (shl_align _ _ _) as [mz ez]; apply round_aux_not_nan; lia.
Qed.

(** The sum of two finite floats is a number: a zero, a finite float or,
    on overflow, an infinity. *)
Lemma add_finite_not_nan (x y : float) :
  F64.is_finite x = true -> F64.is_finite y = true ->
  F64.is_nan (F64.add x y) = false.
Proof.
  destruct x as [[|]|[|]| |sx mx ex], y as [[|]|[|]| |sy my ey];
    try discriminate; intros _ _; try reflexivity.
  unfold F64.add, SFadd. apply normalize_not_nan.
Qed.






(** [round_half_even_div n d] is an integer nearest to [n / d], and the
    even one when two are equally near. *)
Lemma round_half_even_div_nearest (n d : Z) :
  0 < d -> 0 <= n ->
  0 <= F64.round_half_even_div n d
  /\ Z.abs (2 * n - 2 * F64.round_half_even_div n d * d) <= d
  /\ (Z.abs (2 * n - 2 * F64.round_half_even_div n d * d) = d ->
      Z.even (F64.round_half_even_div n d) = true).
Proof.
  intros Hd Hn. unfold F64.round_half_even_div.
  pose proof (Z.div_mod n d ltac:(lia)) as Hdm.
  pose proof (Z.mod_pos_bound n d Hd) as Hr.
  assert (Hq : 0 <= n / d) by (apply Z.div_pos; lia).
  set (q := n / d) in *. set (r := n mod d) in *.
  destruct (Z.compare_spec (2 * r) d) as [Heq|Hlt|Hgt].
  - destruct (Z.even q) eqn:Ev.
    + split; [lia|]. split; [nia|]. intros _. exact Ev.
    + split; [lia|]. split; [nia|]. intros _.
      rewrite Z.even_add, Ev. reflexivity.
  - split; [lia|]. split; [nia|]. intros H. nia.
  - split; [lia|]. split; [nia|]. intros H. nia.
Qed.

Lemma hundredths_nearest (m : positive) (e : Z) :
  0 <= F64.hundredths m e /\ F64.nearest_hundredth m e (F64.hundredths m e).
Proof.
  unfold F64.hundredths, F64.nearest_hundredth.
  destruct e as [|p|p].
  - change (Z.max 0 0) with 0. change (Z.max (- 0) 0) with 0.
    rewrite !Z.pow_0_r. split; [lia|]. split; [lia|intros H; lia].
  - replace (Z.max (Zpos p) 0) with (Zpos p) by lia.
    replace (Z.max (- Zpos p) 0) with 0 by lia.
    assert (0 < 2 ^ Zpos p) by (apply Z.pow_pos_nonneg; lia).
    rewrite Z.pow_0_r. split; [nia|]. split; [|intros H1]; nia.
  - replace (Z.max (Zneg p) 0) with 0 by lia.
    replace (Z.max (- Zneg p) 0) with (Zpos p) by lia.
    rewrite Z.pow_0_r, Z.mul_1_r.
    assert (Hd : 0 < 2 ^ Zpos p) by (apply Z.pow_pos_nonneg; lia).
    destruct (round_half_even_div_nearest (Zpos m * 100) (2 ^ Zpos p) Hd ltac:(lia))
      as [H0 [H1 H2]].
    replace (100 * Zpos m) with (Zpos m * 100) by lia. auto.
Qed.

(** The hundredths of a percentage are at most 10000. *)
Lemma hundredths_le (x : float) (m : positive) (e : Z) :
  F64.below 7036874417766400 (-46) x -> x = S754_finite false m e ->
  F64.hundredths m e <= 10000.
Proof.
  intros [->|[m' [e' [-> [Hb [He Hm]]]]]]; [discriminate|].
  intros [= <- <-].
  unfold F64.hundredths. destruct e' as [|p|p]; try lia.
  apply round_half_even_div_le; [apply Z.pow_pos_nonneg; lia|lia|].
  replace (-46 - Zneg p) with (Zpos p - 46) in Hm by lia.
  assert (Hp : 0 < 2 ^ (Zpos p - 46)) by (apply Z.pow_pos_nonneg; lia).
  replace (2 ^ Zpos p) with (2 ^ 46 * 2 ^ (Zpos p - 46))
    by (rewrite <- Z.pow_add_r by lia; f_equal; lia).
  change (2 ^ 46) with 70368744177664. nia.
Qed.

End RoundingProps.

(** ** The calculator *)

Module CalculatorProps.

Import Calculator.

(** C1.  [divide a b] raises [DivisionByZeroError] with the message
    "Division by zero is not allowed" when [b == 0], which holds of the two
    signed zeros and of nothing else, and returns the quotient [a / b]
    otherwise; of the four operations of the module, a call fails only if
    it is a division by zero. *)
Theorem divide_fails_exactly_by_zero (a b : float) :
  divide a b =
    (if F64.is_zero b
     then Raise (DivisionByZeroError "Division by zero is not allowed")
     else Ok (F64.div a b))
  /\ (F64.is_zero b = true <-> b = S754_zero false \/ b = S754_zero true)
  /\ (forall op : operation,
        is_ok (call op a b) = false <-> op = Divide /\ F64.is_zero b = true).
Proof.
  split; [reflexivity|]. split; [apply F64Facts.is_zero_spec|].
  intros op. unfold call, divide.
  destruct op; simpl; try (split; [discriminate | intros [H _]; discriminate]).
  destruct (F64.is_zero b); simpl; split; intros H; auto; try discriminate.
  destruct H; discriminate.
Qed.

(** C8.  [add a b] is the float sum of [a] and [b], and the order of the
    arguments does not change the value returned.  Under the comparison
    [==] the two results are equal unless they are NaN, which they are not
    when [a] and [b] are numbers (finite). *)
Theorem add_is_sum_and_commutes (a b : float) :
  add a b = SFadd 53 1024 a b
  /\ add a b = add b a
  /\ F64.eqb (add a b) (add b a) = negb (F64.is_nan (add a b))
  /\ (F64.is_finite a = true -> F64.is_finite b = true ->
      F64.eqb (add a b) (add b a) = true).
Proof.
  assert (Heq : F64.eqb (add a b) (add b a) = negb (F64.is_nan (add a b))).
  { unfold add. rewrite (F64Facts.add_comm b a). apply F64Facts.eqb_refl. }
  split; [reflexivity|]. split; [apply F64Facts.add_comm|].
  split; [exact Heq|].
  intros Ha Hb. rewrite Heq. unfold add.
  now rewrite RoundingProps.add_finite_not_nan.
Qed.

End CalculatorProps.

(** ** The division endpoint *)

Module ApiProps.

Import Api.

(** C6.  For a validated body [{a, b}], [POST /div] answers 400 with the
    detail "Division by zero is not allowed" when [b == 0], and 200 with
    the quotient [a / b] as result otherwise. *)
Theorem post_div_response (x y : float) :
  post_div {| a := x; b := y |} =
    if F64.is_zero y
    then (400, DetailBody "Division by zero is not allowed")
    else (200, ResultBody (F64.div x y)).
Proof.
  unfold post_div, divide_numbers, Calculator.divide. simpl.
  destruct (F64.is_zero y); reflexivity.
Qed.

Example post_div_10_0 :
  post_div {| a := F64.of_Z 10; b := F64.of_Z 0 |}
  = (400, DetailBody "Division by zero is not allowed").
Proof. reflexivity. Qed.

Example post_div_20_4 :
  post_div {| a := F64.of_Z 20; b := F64.of_Z 4 |} = (200, ResultBody (F64.of_Z 5)).
Proof. reflexivity. Qed.

End ApiProps.

(** ** The paginated fetch *)

Module PaginationProps.

Import Metrics.

Lemma dict_get_set (k : string) (v : pval) (d : dict) :
  dict_get k (dict_set k v d) = Some v.
Proof.
  induction d as [|[k' v'] d IH]; simpl.
  - now rewrite String.eqb_refl.
  - destruct (String.eqb k k') eqn:E; simpl.
    + now rewrite String.eqb_refl.
    + now rewrite E.
Qed.

Lemma dict_set_set (k : string) (v1 v2 : pval) (d : dict) :
  dict_set k v2 (dict_set k v1 d) = dict_set k v2 d.
Proof.
  induction d as [|[k' v'] d IH]; simpl.
  - now rewrite String.eqb_refl.
  - destruct (String.eqb k k') eqn:E; simpl.
    + now rewrite String.eqb_refl.
    + rewrite E. congruence.
Qed.

Lemma page_of_set (params : dict) (k : Z) :
  page_of (dict_set "page" (PInt k) params) = k.
Proof. unfold page_of. now rewrite dict_get_set. Qed.

Lemma page_of_page_params (params : dict) (k : Z) :
  page_of (page_params params k) = k.
Proof. unfold page_of, page_params. now rewrite dict_get_set. Qed.

Lemma page_params_next (params : dict) (k k' : Z) :
  dict_set "page" (PInt k') (page_params params k) = page_params params k'.
Proof. unfold page_params. apply dict_set_set. Qed.

Lemma after_requests_nil (w : World) : after_requests w [] = w.
Proof. destruct w; unfold after_requests; simpl. now rewrite app_nil_r. Qed.

Lemma after_requests_app (w : World) (rs rs' : list Request) :
  after_requests (after_requests w rs) rs' = after_requests w (rs ++ rs').
Proof. unfold after_requests; simpl. now rewrite app_assoc. Qed.

Section Paginate.

Variable server : nat -> forall q : Request, Reply (list (item (target q))).
Variable self : GitHubMetricsCollector.

(** One request leaves the world with one more request sent, whatever the
    reply. *)
Lemma _get_world (e : endpoint) (params : dict) (w : World) :
  snd (_get server self e params w) = after_requests w [request_for self e params].
Proof.
  unfold _get.
  destruct (server _ _) as [code [items|]|];
    try destruct (is_error_status code); reflexivity.
Qed.

Lemma _get_ok (e : endpoint) (params : dict) (w : World) (code : Z)
    (items : list (item e)) :
  is_error_status code = false ->
  server (List.length (sent w)) (request_for self e params)
    = Response code (Some items) ->
  _get server self e params w
    = (Ok items, after_requests w [request_for self e params]).
Proof. intros Hc Hs. unfold _get. now rewrite Hs, Hc. Qed.

(** The loop sends at most as many requests as it has pages left below
    the limit of 10, and it does not run out of fuel. *)
Lemma paginate_bounded (e : endpoint) (fuel : nat) :
  forall (params : dict) (k : nat) (all_items : list (item e)) (w : World),
    page_of params = Z.of_nat k + 1 ->
    (k < 10)%nat -> (10 <= fuel + k)%nat ->
    fst (paginate server self fuel e params all_items w) <> Raise OutOfFuel
    /\ exists rs,
         snd (paginate server self fuel e params all_items w) = after_requests w rs
         /\ (1 <= List.length rs <= 10 - k)%nat.
Proof.
  induction fuel as [|fuel IH]; intros params k all_items w Hp Hk Hf; [lia|].
  cbn [paginate]. unfold bind.
  pose proof (_get_world e params w) as Hw.
  destruct (_get server self e params w) as [[items|ex] w1] eqn:Hget;
    simpl in Hw; subst w1.
  2:{ split.
      - simpl. unfold _get in Hget.
        destruct (server _ _) as [code [its|]|];
          try destruct (is_error_status code); inversion Hget; discriminate.
      - eexists; split; [reflexivity|]. cbn [List.length]. lia. }
  destruct items as [|x items].
  { split; [discriminate|]. eexists; split; [reflexivity|]. cbn [List.length]. lia. }
  destruct (List.length (x :: items) <? 100)%nat.
  { split; [discriminate|]. eexists; split; [reflexivity|]. cbn [List.length]. lia. }
  rewrite page_of_set.
  destruct (page_of params + 1 >? 10) eqn:Hlim.
  { split; [discriminate|]. eexists; split; [reflexivity|]. cbn [List.length]. lia. }
  assert (Hk' : (S k < 10)%nat) by lia.
  destruct (IH (dict_set "page" (PInt (page_of params + 1)) params) (S k)
              (all_items ++ x :: items)%list
              (after_requests w [request_for self e params])) as [Hne [rs [Hrs Hlen]]];
    try lia.
  { rewrite page_of_set. lia. }
  split; [exact Hne|].
  exists (request_for self e params :: rs). split.
  - rewrite Hrs. now rewrite after_requests_app.
  - cbn [List.length]. lia.
Qed.

(** The call as a whole: never out of fuel, between one and ten
    requests, whatever the server replies. *)
Lemma _get_paginated_bounded (e : endpoint) (params : dict) (w : World) :
  fst (_get_paginated server self e params w) <> Raise OutOfFuel
  /\ exists rs,
       snd (_get_paginated server self e params w) = after_requests w rs
       /\ (1 <= List.length rs <= 10)%nat.
Proof.
  unfold _get_paginated.
  destruct (paginate_bounded e 10
              (dict_set "page" (PInt 1) (dict_set "per_page" (PInt 100) params))
              0 [] w) as [H1 [rs [H2 H3]]]; try lia.
  - now rewrite page_of_set.
  - split; [exact H1|]. exists rs. split; [exact H2|lia].
Qed.

Section Pages.

Variable e : endpoint.
Variable params : dict.
Variable w : World.
Variable pg : nat -> list (item e).
Variable st : nat -> Z.

(** The server answers the [i]-th request of the call, for page [i + 1],
    with the items [pg i] under a status that is no error. *)
Hypothesis replies :
  forall i : nat, (i < 10)%nat ->
    is_error_status (st i) = false
    /\ server (List.length (sent w) + i)%nat
         (request_for self e (page_params params (Z.of_nat i + 1)))
       = Response (st i) (Some (pg i)).

Lemma paginate_pages (fuel : nat) :
  forall (k : nat) (all_items : list (item e)) (rs : list Request),
    (k < 10)%nat -> (10 <= fuel + k)%nat -> List.length rs = k ->
    exists n : nat,
      (k < n <= 10)%nat
      /\ (forall i, (k <= i)%nat -> (S i < n)%nat -> (100 <= List.length (pg i))%nat)
      /\ (n = 10%nat \/ (List.length (pg (n - 1)) < 100)%nat)
      /\ paginate server self fuel e (page_params params (Z.of_nat k + 1))
           all_items (after_requests w rs)
         = (Ok (all_items ++ List.concat (map pg (seq k (n - k))))%list,
            after_requests w
              (rs ++ map (fun i => request_for self e
                                     (page_params params (Z.of_nat i + 1)))
                         (seq k (n - k)))).
Proof.
  induction fuel as [|fuel IH]; intros k all_items rs Hk Hf Hrs; [lia|].
  destruct (replies k Hk) as [Hst Hrep].
  cbn [paginate]. unfold bind.
  rewrite (_get_ok e _ (after_requests w rs) (st k) (pg k) Hst)
    by (cbn [sent after_requests]; now rewrite length_app, Hrs).
  rewrite after_requests_app.
  assert (Hone : seq k (S k - k) = [k]) by (replace (S k - k)%nat with 1%nat by lia; reflexivity).
  destruct (pg k) as [|x items] eqn:Hpg.
  { exists (S k). split; [lia|]. split; [intros; lia|]. split.
    - right. replace (S k - 1)%nat with k by lia. rewrite Hpg. simpl. lia.
    - rewrite Hone. cbn [map List.concat]. rewrite Hpg. now rewrite !app_nil_r. }
  destruct (List.length (x :: items) <? 100)%nat eqn:Hshort.
  { apply Nat.ltb_lt in Hshort.
    exists (S k). split; [lia|]. split; [intros; lia|]. split.
    - right. replace (S k - 1)%nat with k by lia. now rewrite Hpg.
    - rewrite Hone. cbn [map List.concat]. rewrite Hpg. now rewrite !app_nil_r. }
  apply Nat.ltb_ge in Hshort.
  rewrite page_params_next, !page_of_page_params.
  destruct (Z.of_nat k + 1 + 1 >? 10) eqn:Hlim.
  { assert (k = 9%nat) by lia. clear Hrs. subst k.
    exists 10%nat. split; [lia|]. split; [intros; lia|]. split; [now left|].
    cbn [map List.concat seq Nat.sub]. rewrite Hpg. now rewrite !app_nil_r. }
  replace (Z.of_nat k + 1 + 1) with (Z.of_nat (S k) + 1) by lia.
  destruct (IH (S k) (all_items ++ x :: items)%list
              (rs ++ [request_for self e (page_params params (Z.of_nat k + 1))])%list)
    as [n [Hn [Hfull [Hstop Hrun]]]]; try lia.
  { rewrite length_app, Hrs. simpl. lia. }
  exists n. split; [lia|]. split; [|split; [exact Hstop|]].
  - intros i H1 H2. destruct (Nat.eq_dec i k) as [->|Hne].
    + now rewrite Hpg.
    + apply Hfull; lia.
  - rewrite Hrun. f_equal.
    + replace (n - k)%nat with (S (n - S k)) by lia.
      cbn [seq map List.concat]. rewrite Hpg. now rewrite <- app_assoc.
    + f_equal. replace (n - k)%nat with (S (n - S k)) by lia.
      cbn [seq map]. now rewrite <- app_assoc.
Qed.

End Pages.

End Paginate.

Lemma length_concat_pages {A} (pg : nat -> list A) (n k : nat) :
  (forall i, (i < k + n)%nat -> (List.length (pg i) <= 100)%nat) ->
  (List.length (List.concat (map pg (seq k n))) <= 100 * n)%nat.
Proof.
  revert k. induction n as [|n IH]; intros k H; simpl; [lia|].
  rewrite length_app. specialize (IH (S k)).
  assert (List.length (pg k) <= 100)%nat by (apply H; lia).
  assert (List.length (List.concat (map pg (seq (S k) n))) <= 100 * n)%nat
    by (apply IH; intros; apply H; lia).
  lia.
Qed.

(** C3.  When the server answers the requests of a paginated fetch with
    pages, the fetch makes [n] requests, for the pages 1 to [n] in order,
    and returns their items in order, where [n] is the first page with
    fewer than 100 items, or 10 if the first nine pages are all full: so it
    makes at most 10 requests, and returns at most 1000 items when no page
    has more than 100.  (Whatever the server replies, errors included, the
    fetch makes at most 10 requests: [_get_paginated_bounded].) *)
Theorem paginated_fetch_stops
    (server : nat -> forall q : Request, Reply (list (item (target q))))
    (self : GitHubMetricsCollector) (e : endpoint) (params : dict) (w : World)
    (pg : nat -> list (item e)) (st : nat -> Z)
    (replies : forall i : nat, (i < 10)%nat ->
       is_error_status (st i) = false
       /\ server (List.length (sent w) + i)%nat
            (request_for self e (page_params params (Z.of_nat i + 1)))
          = Response (st i) (Some (pg i))) :
  exists n : nat,
    (1 <= n <= 10)%nat
    /\ (forall i, (S i < n)%nat -> (100 <= List.length (pg i))%nat)
    /\ (n = 10%nat \/ (List.length (pg (n - 1)) < 100)%nat)
    /\ _get_paginated server self e params w
       = (Ok (List.concat (map pg (seq 0 n))),
          after_requests w
            (map (fun i => request_for self e (page_params params (Z.of_nat i + 1)))
                 (seq 0 n)))
    /\ ((forall i, (i < 10)%nat -> (List.length (pg i) <= 100)%nat) ->
        (List.length (List.concat (map pg (seq 0 n))) <= 1000)%nat).
Proof.
  destruct (paginate_pages server self e params w pg st replies 10 0 [] [])
    as [n [Hn [Hfull [Hstop Hrun]]]]; try lia; [reflexivity|].
  exists n. split; [lia|]. split; [|split; [exact Hstop|split]].
  - intros i Hi. apply Hfull; lia.
  - unfold _get_paginated. fold (page_params params 1).
    rewrite after_requests_nil in Hrun. simpl in Hrun.
    rewrite Nat.sub_0_r in Hrun. exact Hrun.
  - intros Hsmall.
    assert (List.length (List.concat (map pg (seq 0 n))) <= 100 * n)%nat.
    { apply length_concat_pages. intros i Hi. apply Hsmall. lia. }
    lia.
Qed.

Lemma paginated_fetch_stops_witness :
  exists n : nat,
    (1 <= n <= 10)%nat
    /\ (forall i, (S i < n)%nat ->
          (100 <= List.length (List.repeat (Run.run_at None "") 100))%nat)
    /\ (n = 10%nat \/ (List.length (List.repeat (Run.run_at None "") 100) < 100)%nat)
    /\ _get_paginated
         (Run.full_pages 100 (Run.run_at None "")
            {| pr_created_at := ""; merged_at := None; user := UserAbsent |})
         Run.collector ActionsRuns [] initial_world
       = (Ok (List.concat (map (fun _ => List.repeat (Run.run_at None "") 100) (seq 0 n))),
          after_requests initial_world
            (map (fun i => request_for Run.collector ActionsRuns
                             (page_params [] (Z.of_nat i + 1)))
                 (seq 0 n)))
    /\ ((forall i, (i < 10)%nat ->
           (List.length (List.repeat (Run.run_at None "") 100) <= 100)%nat) ->
        (List.length
           (List.concat (map (fun _ => List.repeat (Run.run_at None "") 100) (seq 0 n)))
         <= 1000)%nat).
Proof.
  apply (paginated_fetch_stops
           (Run.full_pages 100 (Run.run_at None "")
              {| pr_created_at := ""; merged_at := None; user := UserAbsent |})
           Run.collector ActionsRuns [] initial_world
           (fun _ => List.repeat (Run.run_at None "") 100) (fun _ => 200)).
  intros i Hi. split; reflexivity.
Defined.

(** A short second page ends the fetch after two requests. *)
Example two_pages :
  let server : nat -> forall q : Request, Reply (list (item (target q))) :=
    fun n q =>
      match target q as e return Reply (list (item e)) with
      | ActionsRuns =>
          Response 200 (Some (List.repeat (Run.run_at None "") (if Nat.eqb n 0 then 100 else 7)))
      | Pulls => Response 200 (Some [])
      end in
  let '(r, w) := _get_paginated server Run.collector ActionsRuns [] initial_world in
  option_map (@List.length _) (match r with Ok l => Some l | Raise _ => None end) = Some 107%nat
  /\ map (fun q => dict_get "page" (Metrics.params q)) (sent w) = [Some (PInt 1); Some (PInt 2)].
Proof. vm_compute. split; reflexivity. Qed.

End PaginationProps.

(** ** Sorting *)

Module SortedProps.

Import Metrics.

Section Generic.

Context {A K : Type} (lt : K -> K -> bool) (key : A -> K).

Lemma insert_sorted_perm (x : A) (l : list A) :
  Permutation (x :: l) (insert_sorted lt key x l).
Proof.
  induction l as [|y l IH]; simpl; [apply Permutation_refl|].
  destruct (lt (key y) (key x)); [|apply Permutation_refl].
  eapply perm_trans; [apply perm_swap|]. now apply perm_skip.
Qed.

Lemma sorted_perm (l : list A) : Permutation l (sorted lt key l).
Proof.
  induction l as [|x l IH]; simpl; [constructor|].
  eapply perm_trans; [apply perm_skip, IH|]. apply insert_sorted_perm.
Qed.

Lemma sorted_length (l : list A) : List.length (sorted lt key l) = List.length l.
Proof. symmetry. apply Permutation_length, sorted_perm. Qed.

(** The order laws are asked of the keys that satisfy [good] only (for
    floats: all but NaN). *)
Variable good : K -> Prop.
Hypothesis lt_asym :
  forall a b : K, good a -> good b -> lt a b = true -> lt b a = false.
Hypothesis lt_negtrans :
  forall a b c : K, good a -> good b -> good c ->
    lt b a = false -> lt c b = false -> lt c a = false.

Lemma insert_sorted_sorted (x : A) (l : list A) :
  good (key x) -> Forall (fun y => good (key y)) l ->
  StronglySorted (before lt key) l ->
  StronglySorted (before lt key) (insert_sorted lt key x l).
Proof.
  intros Hx.
  induction l as [|y l IH]; intros Hg Hs; simpl.
  - repeat constructor.
  - inversion Hs as [|? ? Hl Hy]; subst.
    inversion Hg as [|? ? Hgy Hgl]; subst.
    destruct (lt (key y) (key x)) eqn:E.
    + constructor; [auto|].
      eapply Permutation_Forall; [apply insert_sorted_perm|].
      constructor; [|exact Hy]. unfold before. now apply lt_asym.
    + constructor; [exact Hs|].
      constructor; [exact E|].
      rewrite Forall_forall in Hy, Hgl |- *.
      intros z Hz. unfold before in *.
      apply (lt_negtrans (key x) (key y) (key z)); auto.
Qed.

Lemma sorted_sorted (l : list A) :
  Forall (fun y => good (key y)) l ->
  StronglySorted (before lt key) (sorted lt key l).
Proof.
  induction l as [|x l IH]; intros Hg; simpl; [constructor|].
  inversion Hg; subst.
  apply insert_sorted_sorted; auto.
  eapply Permutation_Forall; [apply sorted_perm|]. assumption.
Qed.

End Generic.

(** In a sorted list an element stands before every later one. *)
Lemma StronglySorted_nth {A} (R : A -> A -> Prop) (l : list A) :
  StronglySorted R l ->
  forall i j a b, (i < j)%nat ->
    nth_error l i = Some a -> nth_error l j = Some b -> R a b.
Proof.
  induction 1 as [|x l Hl IH Hx]; intros i j a b Hij Hi Hj.
  - destruct i; discriminate.
  - destruct j as [|j]; [lia|]. simpl in Hj. destruct i as [|i]; simpl in Hi.
    + injection Hi as <-. rewrite Forall_forall in Hx.
      eapply Hx, nth_error_In, Hj.
    + apply (IH i j); auto. lia.
Qed.

(** The order of strings. *)
Lemma ascii_compare_trans (a b c : ascii) :
  Ascii.compare a b = Lt -> Ascii.compare b c = Lt -> Ascii.compare a c = Lt.
Proof.
  unfold Ascii.compare. rewrite !N.compare_lt_iff. apply N.lt_trans.
Qed.

Lemma string_compare_trans (s1 : string) :
  forall s2 s3 : string,
    String.compare s1 s2 = Lt -> String.compare s2 s3 = Lt ->
    String.compare s1 s3 = Lt.
Proof.
  induction s1 as [|a s1 IH]; intros [|b s2] [|c s3]; simpl; try congruence.
  destruct (Ascii.compare a b) eqn:Eab; try discriminate;
    destruct (Ascii.compare b c) eqn:Ebc; try discriminate; intros H1 H2.
  - apply Ascii.compare_eq_iff in Eab, Ebc. subst.
    unfold Ascii.compare. rewrite N.compare_refl. eauto.
  - apply Ascii.compare_eq_iff in Eab. subst. now rewrite Ebc.
  - apply Ascii.compare_eq_iff in Ebc. subst. now rewrite Eab.
  - now rewrite (ascii_compare_trans _ _ _ Eab Ebc).
Qed.

Lemma string_ltb_asym (a b : string) :
  True -> True -> String.ltb a b = true -> String.ltb b a = false.
Proof.
  intros _ _. unfold String.ltb. rewrite (String.compare_antisym a b).
  destruct (String.compare b a); simpl; congruence.
Qed.

Lemma string_ltb_negtrans (a b c : string) :
  True -> True -> True ->
  String.ltb b a = false -> String.ltb c b = false -> String.ltb c a = false.
Proof.
  intros _ _ _. unfold String.ltb. intros Hba Hcb.
  destruct (String.compare c a) eqn:Hca; try reflexivity. exfalso.
  destruct (String.compare c b) eqn:E1; try discriminate.
  - apply String.compare_eq_iff in E1. subst. rewrite Hca in Hba. discriminate.
  - assert (String.compare b c = Lt) as E2
      by (rewrite String.compare_antisym, E1; reflexivity).
    rewrite (string_compare_trans _ _ _ E2 Hca) in Hba. discriminate.
Qed.

(** Sorting by a string key yields ascending order. *)
Lemma sorted_by_string {A} (key : A -> string) (l : list A) :
  StronglySorted (before String.ltb key) (sorted String.ltb key l).
Proof.
  apply (sorted_sorted String.ltb key (fun _ => True)).
  - apply string_ltb_asym.
  - apply string_ltb_negtrans.
  - apply Forall_forall. auto.
Qed.

End SortedProps.

(** ** The recovery-time proxy *)

Module RecoveryProps.

Import Metrics MetricsExt.

Lemma find_index {A} (p : A -> bool) (l : list A) (x : A) :
  List.find p l = Some x ->
  exists j, nth_error l j = Some x /\ p x = true
            /\ forall k y, (k < j)%nat -> nth_error l k = Some y -> p y = false.
Proof.
  induction l as [|a l IH]; simpl; [discriminate|].
  destruct (p a) eqn:Ea.
  - intros [= <-]. exists 0%nat. repeat split; auto. intros; lia.
  - intros H. destruct (IH H) as [j [Hj [Hp Hlt]]].
    exists (S j). repeat split; auto.
    intros [|k] y Hk; simpl; [intros [= <-]; exact Ea|].
    apply Hlt. lia.
Qed.

Lemma first_failure_index (l : list WorkflowRun) (f : WorkflowRun)
    (later : list WorkflowRun) :
  first_failure l = Some (f, later) ->
  exists i, nth_error l i = Some f /\ conclusion_is "failure" f = true
            /\ later = skipn (S i) l
            /\ forall k r, (k < i)%nat -> nth_error l k = Some r ->
                           conclusion_is "failure" r = false.
Proof.
  induction l as [|a l IH]; simpl; [discriminate|].
  destruct (conclusion_is "failure" a) eqn:Ea.
  - intros [= <- <-]. exists 0%nat. repeat split; auto. intros; lia.
  - intros H. destruct (IH H) as [i [Hi [Hf [Hl Hlt]]]].
    exists (S i). repeat split; auto.
    intros [|k] r Hk; simpl; [intros [= <-]; exact Ea|].
    apply Hlt. lia.
Qed.


(** What [recovery_pair] finds: the positions of the pair, with no failed
    run before the first and no successful run between the two. *)
Lemma recovery_pair_some (l : list WorkflowRun) (f s : WorkflowRun) :
  recovery_pair l = Some (f, s) ->
  exists i j,
    (i < j)%nat
    /\ nth_error l i = Some f /\ conclusion_is "failure" f = true
    /\ nth_error l j = Some s /\ conclusion_is "success" s = true
    /\ (forall k r, (k < i)%nat -> nth_error l k = Some r ->
                    conclusion_is "failure" r = false)
    /\ (forall k r, (i < k < j)%nat -> nth_error l k = Some r ->
                    conclusion_is "success" r = false).
Proof.
  unfold recovery_pair.
  destruct (first_failure l) as [[f' later]|] eqn:Hf; [|discriminate].
  destruct (List.find _ later) as [s'|] eqn:Hs; [|discriminate].
  intros [= <- <-].
  destruct (first_failure_index _ _ _ Hf) as [i [Hi [Hfi [Hl Hbefore]]]].
  destruct (find_index _ _ _ Hs) as [j [Hj [Hsj Hbetween]]].
  subst later. rewrite nth_error_skipn in Hj.
  exists i, (S i + j)%nat. repeat split; auto; try lia.
  intros k r Hk Hr. apply (Hbetween (k - S i)%nat); [lia|].
  rewrite nth_error_skipn. now replace (S i + (k - S i))%nat with k by lia.
Qed.


Section Loops.

Variable fromisoformat : string -> option datetime.

Lemma next_success_spec (run : WorkflowRun) (later : list WorkflowRun) :
  next_success fromisoformat run later =
    match List.find (conclusion_is "success") later with
    | Some succeeded => recovery_hours fromisoformat run succeeded
    | None => Ok None
    end.
Proof.
  induction later as [|r later IH]; simpl; [reflexivity|].
  destruct (conclusion_is "success" r); [reflexivity|exact IH].
Qed.

(** The elapsed time of a pair is never the absent value. *)
Lemma recovery_hours_some (f s : WorkflowRun) :
  recovery_hours fromisoformat f s <> Ok None.
Proof.
  unfold recovery_hours, rbind.
  destruct (_parse_datetime _ _); [|discriminate].
  destruct (_parse_datetime _ _); [|discriminate].
  destruct (elapsed _ _ _); discriminate.
Qed.

(** Once no later run succeeded, no later failed run has a successor
    either: the outer loop runs to its end without a value. *)
Lemma first_recovery_no_success (l : list WorkflowRun) :
  List.find (conclusion_is "success") l = None ->
  first_recovery fromisoformat l = Ok None.
Proof.
  induction l as [|r l IH]; simpl; [reflexivity|].
  destruct (conclusion_is "success" r) eqn:Es; [discriminate|]. intros Hl.
  destruct (conclusion_is "failure" r); [|now apply IH].
  rewrite next_success_spec, Hl. simpl. now apply IH.
Qed.

Lemma first_recovery_spec (l : list WorkflowRun) :
  first_recovery fromisoformat l =
    match recovery_pair l with
    | Some (failed, succeeded) => recovery_hours fromisoformat failed succeeded
    | None => Ok None
    end.
Proof.
  unfold recovery_pair.
  induction l as [|r l IH]; simpl; [reflexivity|].
  destruct (conclusion_is "failure" r); [|exact IH].
  rewrite next_success_spec.
  destruct (List.find _ l) as [s|] eqn:Hs.
  - pose proof (recovery_hours_some r s) as Hne.
    destruct (recovery_hours fromisoformat r s) as [[h|]|ex]; simpl;
      congruence.
  - simpl. now apply first_recovery_no_success.
Qed.

End Loops.


Section Value.

Variable fromisoformat : string -> option datetime.



End Value.



Example recovery_time_of_mixed_offsets :
  mttr_proxy Run.fromisoformat
    [Run.run_at (Some "failure") "2024-01-01T01:30:00+00:00";
     Run.run_at (Some "success") "2024-01-01T02:00:00+02:00"]
  = Ok (Some (SFopp (F64.div (F64.of_Z 3) (F64.of_Z 2)))).
Proof. vm_compute. reflexivity. Qed.


(** A failure at 00:00, a cancelled run, a success at 01:30 and a later
    success: one hour and a half. *)
Example mttr_example :
  mttr_proxy Run.fromisoformat
    [Run.run_at (Some "success") "2024-01-01T03:00:00Z";
     Run.run_at (Some "success") "2024-01-01T01:30:00Z";
     Run.run_at (Some "cancelled") "2024-01-01T01:00:00Z";
     Run.run_at (Some "failure") "2024-01-01T00:00:00Z";
     Run.run_at (Some "success") "2023-12-31T00:00:00Z"]
  = Ok (Some (F64.div (F64.of_Z 3) (F64.of_Z 2))).
Proof. vm_compute. reflexivity. Qed.

End RecoveryProps.

(** ** The median proxy *)

Module MedianProps.

Import Metrics.

Lemma sorted_floats (l : list float) :
  Forall (fun x => F64.is_nan x = false) l ->
  StronglySorted (before F64.ltb (fun x => x)) (sorted F64.ltb (fun x => x) l).
Proof.
  apply (SortedProps.sorted_sorted F64.ltb (fun x => x)
           (fun x => F64.is_nan x = false)).
  - apply F64Facts.ltb_asym.
  - apply F64Facts.ltb_negtrans.
Qed.

(** C5.  For a non-empty list of lead times, the median proxy is the
    element at index [n / 2] (rounded down) of the list sorted in
    ascending order, an element of the list; for an even length [2 k] that
    is index [k], the upper of the two middle positions [k - 1] and [k].
    On [1, 2, 3, 4] it is the element at index 2, the value 3, and not the
    mean 2.5 of the two middle elements. *)
Theorem median_proxy_upper_middle (l : list float) :
  let s := sorted F64.ltb (fun x => x) l in
  Permutation l s
  /\ (Forall (fun x => F64.is_nan x = false) l ->
      StronglySorted (before F64.ltb (fun x => x)) s)
  /\ (l <> [] ->
      exists v, median_proxy l = Some v
                /\ nth_error s (List.length l / 2) = Some v /\ In v l)
  /\ (forall k : nat, List.length l = (2 * k)%nat -> (0 < k)%nat ->
      median_proxy l = nth_error s k
      /\ exists lower upper,
           nth_error s (k - 1) = Some lower /\ nth_error s k = Some upper
           /\ median_proxy l = Some upper)
  /\ sorted F64.ltb (fun x => x) (map F64.of_Z [4; 1; 3; 2]) = map F64.of_Z [1; 2; 3; 4]
  /\ median_proxy (map F64.of_Z [1; 2; 3; 4]) = Some (F64.of_Z 3)
  /\ nth_error (map F64.of_Z [1; 2; 3; 4]) 2 = Some (F64.of_Z 3)
  /\ F64.eqb (F64.of_Z 3) (F64.div (F64.of_Z 5) (F64.of_Z 2)) = false.
Proof.
  intros s. subst s.
  pose proof (SortedProps.sorted_perm F64.ltb (fun x => x) l) as Hperm.
  pose proof (SortedProps.sorted_length F64.ltb (fun x : float => x) l) as Hlen.
  assert (Hnth : forall i, (i < List.length l)%nat ->
            exists v, nth_error (sorted F64.ltb (fun x => x) l) i = Some v /\ In v l).
  { intros i Hi.
    destruct (nth_error (sorted F64.ltb (fun x => x) l) i) as [v|] eqn:E.
    - exists v. split; [reflexivity|].
      eapply Permutation_in; [apply Permutation_sym, Hperm|].
      eapply nth_error_In; eauto.
    - apply nth_error_None in E. lia. }
  split; [exact Hperm|]. split; [apply sorted_floats|]. split; [|split].
  - intros Hne. destruct l as [|x l]; [congruence|].
    destruct (Hnth (List.length (x :: l) / 2)%nat) as [v [Hv Hin]].
    { apply Nat.Div0.div_lt_upper_bound. simpl. lia. }
    exists v. unfold median_proxy. auto.
  - intros k Hk Hpos.
    assert (Hhalf : (List.length l / 2 = k)%nat)
      by (rewrite Hk, Nat.mul_comm; apply Nat.div_mul; lia).
    assert (Hm : median_proxy l = nth_error (sorted F64.ltb (fun x => x) l) k).
    { unfold median_proxy. destruct l; [simpl in Hk; lia|]. now rewrite Hhalf. }
    split; [exact Hm|].
    destruct (Hnth (k - 1)%nat) as [lo [Hlo _]]; [lia|].
    destruct (Hnth k) as [up [Hup _]]; [lia|].
    exists lo, up. rewrite Hm. auto.
  - vm_compute. repeat split; reflexivity.
Qed.

End MedianProps.

(** ** Failures of the collection *)

Module PropagationProps.

Import Metrics.

Section Propagation.

Variable server : nat -> forall q : Request, Reply (list (item (target q))).

Lemma only_requests_refl (w : World) : only_requests w w.
Proof. repeat split; auto. exists []. now rewrite app_nil_r. Qed.

Lemma only_requests_trans (w1 w2 w3 : World) :
  only_requests w1 w2 -> only_requests w2 w3 -> only_requests w1 w3.
Proof.
  intros [[rs1 H1] [Hd1 [Hf1 Hp1]]] [[rs2 H2] [Hd2 [Hf2 Hp2]]].
  repeat split; try congruence.
  exists (rs1 ++ rs2)%list. rewrite H2, H1. now rewrite app_assoc.
Qed.

Lemma fails_at_app (l rs : list Request) (i : nat) (code : Z) :
  (i < List.length l)%nat ->
  (fails_at server (l ++ rs) i code <-> fails_at server l i code).
Proof.
  intros Hi. unfold fails_at. now rewrite nth_error_app1.
Qed.

Lemma fails_at_lt (l : list Request) (i : nat) (code : Z) :
  fails_at server l i code -> (i < List.length l)%nat.
Proof.
  intros [q [json [Hn _]]]. apply nth_error_Some. congruence.
Qed.

(** A computation that sends nothing is clean. *)
Lemma outcome_ok_same {A} (r : result A) (l : list Request) :
  outcome_ok server (List.length l) r l.
Proof. left. intros i code Hi. lia. Qed.

Lemma propagates_pure {A} (c : M A) :
  (forall w, sent (snd (c w)) = sent w /\ dirs (snd (c w)) = dirs w
             /\ files (snd (c w)) = files w /\ printed (snd (c w)) = printed w) ->
  propagates server c.
Proof.
  intros H w. destruct (H w) as [Hs [Hd [Hf Hp]]]. split.
  - repeat split; auto. exists []. now rewrite app_nil_r.
  - rewrite Hs. apply outcome_ok_same.
Qed.

Lemma propagates_ret {A} (a : A) : propagates server (ret a).
Proof. apply propagates_pure. intros w. repeat split. Qed.

Lemma propagates_raise {A} (e : exn) : propagates server (@raise A e).
Proof. apply propagates_pure. intros w. repeat split. Qed.

Lemma propagates_lift {A} (r : result A) : propagates server (lift r).
Proof. apply propagates_pure. intros w. repeat split. Qed.

Lemma propagates_now (clock : nat -> datetime) : propagates server (now clock).
Proof. apply propagates_pure. intros w. repeat split. Qed.

Lemma propagates_bind {A B} (c : M A) (k : A -> M B) :
  propagates server c -> (forall a, propagates server (k a)) ->
  propagates server (bind c k).
Proof.
  intros Hc Hk w. unfold bind.
  destruct (Hc w) as [Hq1 Ho1].
  destruct (c w) as [[a|e] w1] eqn:Hcw; simpl in *.
  2:{ split; [assumption|].
      destruct Ho1 as [H|[code [Hr H]]]; [left; exact H|].
      right. exists code. split; [congruence|exact H]. }
  destruct (Hk a w1) as [Hq2 Ho2].
  split; [eapply only_requests_trans; eauto|].
  destruct Hq1 as [[rs1 Hs1] _]. destruct Hq2 as [[rs2 Hs2] _].
  assert (Hlen1 : List.length (sent w1) = (List.length (sent w) + List.length rs1)%nat)
    by (rewrite Hs1; apply length_app).
  assert (Hlen2 : List.length (sent (snd (k a w1)))
                  = (List.length (sent w1) + List.length rs2)%nat)
    by (rewrite Hs2; apply length_app).
  assert (Hclean1 : clean_between server (List.length (sent w)) (List.length (sent w1))
                      (sent (snd (k a w1)))).
  { destruct Ho1 as [Hc1|[code [Habs _]]]; [|discriminate].
    intros i code Hi Hf. apply (Hc1 i code Hi).
    rewrite Hs2 in Hf. apply fails_at_app in Hf; [exact Hf|lia]. }
  destruct Ho2 as [Hc2|[code [Hr [Hlt [Hfail Hc2]]]]].
  - left. intros i code Hi Hf.
    destruct (Nat.lt_ge_cases i (List.length (sent w1))) as [Hlt|Hge].
    + apply (Hclean1 i code); [lia|exact Hf].
    + apply (Hc2 i code); [lia|exact Hf].
  - right. exists code. repeat split; auto; try lia.
    intros i code' Hi Hf.
    destruct (Nat.lt_ge_cases i (List.length (sent w1))) as [Hlt'|Hge].
    + apply (Hclean1 i code'); [lia|exact Hf].
    + apply (Hc2 i code'); [lia|exact Hf].
Qed.

Variable self : GitHubMetricsCollector.

Lemma propagates__get (e : endpoint) (params : dict) :
  propagates server (_get server self e params).
Proof.
  intros w.
  pose proof (PaginationProps._get_world server self e params w) as Hw.
  split.
  - rewrite Hw. repeat split; auto. now exists [request_for self e params].
  - unfold outcome_ok. rewrite Hw. cbn [after_requests sent].
    rewrite !length_app. cbn [List.length].
    replace (List.length (sent w) + 1 - 1)%nat with (List.length (sent w)) by lia.
    unfold _get.
    destruct (server (List.length (sent w)) (request_for self e params))
      as [code json|] eqn:Hs.
    + destruct (is_error_status code) eqn:Hc.
      * right. exists code. repeat split; try lia.
        -- exists (request_for self e params), json.
           rewrite nth_error_app2, Nat.sub_diag by lia. auto.
        -- intros i c Hi. lia.
      * left. intros i c Hi [q [j [Hn [Hsv Herr]]]].
        assert (i = List.length (sent w)) by lia. subst i.
        rewrite nth_error_app2, Nat.sub_diag in Hn by lia.
        injection Hn as <-. rewrite Hs in Hsv. injection Hsv as <- _. congruence.
    + left. intros i c Hi [q [j [Hn [Hsv Herr]]]].
      assert (i = List.length (sent w)) by lia. subst i.
      rewrite nth_error_app2, Nat.sub_diag in Hn by lia.
      injection Hn as <-. rewrite Hs in Hsv. discriminate.
Qed.

Lemma propagates_paginate (e : endpoint) (fuel : nat) :
  forall (params : dict) (all_items : list (item e)),
    propagates server (paginate server self fuel e params all_items).
Proof.
  induction fuel as [|fuel IH]; intros params all_items; cbn [paginate].
  - apply propagates_raise.
  - apply propagates_bind; [apply propagates__get|].
    intros [|x items]; [apply propagates_ret|].
    destruct (List.length (x :: items) <? 100)%nat; [apply propagates_ret|].
    destruct (page_of _ >? 10); [apply propagates_ret|apply IH].
Qed.

Lemma propagates__get_paginated (e : endpoint) (params : dict) :
  propagates server (_get_paginated server self e params).
Proof. apply propagates_paginate. Qed.

Variable clock : nat -> datetime.
Variable fromisoformat : string -> option datetime.
Variable strftime_ymd : datetime -> string.
Variable str_lower : string -> string.
Variable isoformat : datetime -> string.
Variable py_sum : list float -> float.

Ltac propagate :=
  repeat first
    [ apply propagates_ret
    | apply propagates_lift
    | apply propagates_raise
    | apply propagates_now
    | apply propagates__get_paginated
    | apply propagates_bind; [|intros ?] ].

Lemma propagates__get_window_start :
  propagates server (_get_window_start clock self).
Proof. unfold _get_window_start. propagate. Qed.

Lemma propagates_get_workflow_runs (workflow_name : string) :
  propagates server
    (get_workflow_runs server clock strftime_ymd str_lower self workflow_name).
Proof.
  unfold get_workflow_runs.
  apply propagates_bind; [apply propagates__get_window_start|intros ?].
  propagate.
Qed.

Lemma propagates_collect_all_metrics :
  propagates server
    (collect_all_metrics server clock fromisoformat strftime_ymd str_lower isoformat
       py_sum self).
Proof.
  unfold collect_all_metrics, collect_dora_metrics, collect_pr_metrics,
    collect_ci_metrics, collect_deploy_duration_metrics,
    collect_security_metrics, collect_dependabot_metrics.
  repeat first
    [ apply propagates_get_workflow_runs
    | apply propagates__get_window_start
    | apply propagates_ret
    | apply propagates_lift
    | apply propagates_now
    | apply propagates__get_paginated
    | apply propagates_bind; [|intros ?] ].
Qed.

End Propagation.

Lemma fails_at_code
    (server : nat -> forall q : Request, Reply (list (item (target q))))
    (l : list Request) (i : nat) (c1 c2 : Z) :
  fails_at server l i c1 -> fails_at server l i c2 -> c1 = c2.
Proof.
  intros [q1 [j1 [Hn1 [Hs1 _]]]] [q2 [j2 [Hn2 [Hs2 _]]]].
  rewrite Hn1 in Hn2. injection Hn2 as <-. rewrite Hs1 in Hs2. congruence.
Qed.

(** What a failed request does to a computation that propagates: it is
    the last request, and its error is the result. *)
Lemma propagates_failure {A}
    (server : nat -> forall q : Request, Reply (list (item (target q))))
    (c : M A) (w : World) (i : nat) (code : Z) :
  propagates server c ->
  (List.length (sent w) <= i)%nat ->
  fails_at server (sent (snd (c w))) i code ->
  fst (c w) = Raise (HTTPError code)
  /\ List.length (sent (snd (c w))) = S i
  /\ only_requests w (snd (c w)).
Proof.
  intros Hc Hi Hf. destruct (Hc w) as [Hq Ho].
  pose proof (fails_at_lt server _ _ _ Hf) as Hlt.
  destruct Ho as [Hclean|[code0 [Hr [Hn [Hlast Hclean]]]]].
  - exfalso. apply (Hclean i code); [lia|exact Hf].
  - assert (i = (List.length (sent (snd (c w))) - 1)%nat).
    { destruct (Nat.eq_dec i (List.length (sent (snd (c w))) - 1)) as [|Hne];
        [assumption|].
      exfalso. apply (Hclean i code); [lia|exact Hf]. }
    subst i. rewrite (fails_at_code server _ _ _ _ Hf Hlast).
    split; [exact Hr|]. split; [lia|exact Hq].
Qed.

Section MainRun.

Variable server : nat -> forall q : Request, Reply (list (item (target q))).
Variable clock : nat -> datetime.
Variable environ : string -> option string.
Variable fromisoformat : string -> option datetime.
Variable strftime_ymd : datetime -> string.
Variable str_lower : string -> string.
Variable isoformat : datetime -> string.
Variable py_int : string -> option Z.
Variable py_sum : list float -> float.
Variable json_dumps : Report -> string.

Local Abbreviation run_main :=
  (main server clock environ fromisoformat strftime_ymd str_lower isoformat py_int
     py_sum json_dumps).
Local Abbreviation collect self :=
  (collect_all_metrics server clock fromisoformat strftime_ymd str_lower isoformat
     py_sum self).

(** [main] after the collector is built: the collection, then the
    writes. *)
Lemma main_unfold (w : World) :
  run_main w =
    match init environ py_int w with
    | (Ok self, w0) =>
        match collect self w0 with
        | (Ok metrics, w1) =>
            (Ok tt,
             {| sent := sent w1; clock_reads := clock_reads w1;
                dirs := dirs w1 ++ ["site"];
                files := files w1 ++ [("site/metrics.json", json_dumps metrics)];
                printed := printed w1
                           ++ ["Metrics collected and written to site/metrics.json"]
                           ++ [json_dumps metrics] |})
        | (Raise e, w1) => (Raise e, w1)
        end
    | (Raise e, w0) => (Raise e, w0)
    end.
Proof.
  unfold main, bind.
  destruct (init environ py_int w) as [[self|e] w0]; [|reflexivity].
  destruct (collect_all_metrics _ _ _ _ _ _ _ self w0) as [[metrics|e] w1];
    [|reflexivity].
  unfold makedirs, write_file, print. simpl. now rewrite <- app_assoc.
Qed.

Lemma init_world (w : World) : snd (init environ py_int w) = w.
Proof. unfold init. destruct (py_int _); reflexivity. Qed.

(** Whatever the error [main] ends with, nothing has been written. *)
Lemma main_error_writes_nothing (w : World) (e : exn) :
  fst (run_main w) = Raise e ->
  dirs (snd (run_main w)) = dirs w
  /\ files (snd (run_main w)) = files w
  /\ printed (snd (run_main w)) = printed w.
Proof.
  rewrite main_unfold.
  pose proof (init_world w) as Hw0.
  destruct (init environ py_int w) as [[self|e0] w0]; simpl in Hw0; subst w0;
    [|intros _; repeat split].
  destruct (propagates_collect_all_metrics server self clock fromisoformat
              strftime_ymd str_lower isoformat py_sum w) as [[_ Hq] _].
  destruct (collect_all_metrics _ _ _ _ _ _ _ self w) as [[metrics|e1] w1];
    simpl in *; [discriminate|]. intros _. exact Hq.
Qed.

(** C7.  If a request that a run of [main] sends is answered with an
    error status, the run ends with that [HTTPError]: the failed request is
    the last one sent (none is sent again or after it), the error is the
    result of [collect_all_metrics] and of [main], and nothing is written:
    no directory, no file, no output.  (By [main_error_writes_nothing] the
    same holds of the writes for every error [main] ends with.) *)
Theorem failed_request_aborts_run (w : World) (i : nat) (code : Z) :
  (List.length (sent w) <= i)%nat ->
  fails_at server (sent (snd (run_main w))) i code ->
  fst (run_main w) = Raise (HTTPError code)
  /\ List.length (sent (snd (run_main w))) = S i
  /\ dirs (snd (run_main w)) = dirs w
  /\ files (snd (run_main w)) = files w
  /\ printed (snd (run_main w)) = printed w
  /\ exists self,
       init environ py_int w = (Ok self, w)
       /\ collect self w = (Raise (HTTPError code), snd (run_main w)).
Proof.
  intros Hi. rewrite main_unfold.
  pose proof (init_world w) as Hw0.
  destruct (init environ py_int w) as [[self|e] w0]; simpl in Hw0; subst w0.
  2:{ simpl. intros Hf. apply fails_at_lt in Hf. lia. }
  pose proof (propagates_collect_all_metrics server self clock fromisoformat
                strftime_ymd str_lower isoformat py_sum) as Hp.
  pose proof (propagates_failure server _ w i code Hp Hi) as Hfail.
  destruct (collect_all_metrics _ _ _ _ _ _ _ self w) as [[metrics|e] w1] eqn:Hcol;
    simpl in *; intros Hf; destruct (Hfail Hf) as [Hr [Hlen [_ [Hd [Hfi Hpr]]]]].
  - discriminate.
  - injection Hr as ->. repeat split; auto. exists self. split; [reflexivity|].
    exact Hcol.
Qed.

End MainRun.

(** With a server that fails the third request, [main] stops there. *)
Lemma failed_request_aborts_run_witness :
  fst (main (Run.failing_at 2 503) Run.clock Run.environ Run.fromisoformat
         (fun _ => "2024-01-31") lower (fun _ => "2024-03-01T12:00:00+00:00")
         Run.py_int Run.py_sum (fun _ => "{}") initial_world)
  = Raise (HTTPError 503)
  /\ files (snd (main (Run.failing_at 2 503) Run.clock Run.environ Run.fromisoformat
                   (fun _ => "2024-01-31") lower (fun _ => "2024-03-01T12:00:00+00:00")
                   Run.py_int Run.py_sum (fun _ => "{}") initial_world)) = [].
Proof.
  destruct (failed_request_aborts_run (Run.failing_at 2 503) Run.clock Run.environ
              Run.fromisoformat (fun _ => "2024-01-31") lower
              (fun _ => "2024-03-01T12:00:00+00:00")
              Run.py_int Run.py_sum (fun _ => "{}") initial_world 2 503)
    as [Hr [_ [_ [Hf _]]]].
  - simpl. lia.
  - vm_compute. eexists. exists None. repeat split.
  - split; [exact Hr|exact Hf].
Defined.

(** With a server that answers every request with an empty page, the
    report is written after seven requests. *)
Example main_writes_report :
  let '(r, w) :=
    main (Run.full_pages 0 (Run.run_at None "")
            {| pr_created_at := ""; merged_at := None; user := UserAbsent |})
      Run.clock Run.environ Run.fromisoformat
      (fun _ => "2024-01-31") lower (fun _ => "2024-03-01T12:00:00+00:00")
      Run.py_int Run.py_sum (fun _ => "{}") initial_world in
  r = Ok tt /\ List.length (sent w) = 7%nat
  /\ files w = [("site/metrics.json", "{}")] /\ dirs w = ["site"].
Proof. vm_compute. repeat split. Qed.

End PropagationProps.

(** ** Zero values in the report *)

Module ZeroProps.

Import Metrics.

Lemma round2_if_zero (x : float) :
  F64.is_zero x = true -> round2_if (Some x) = None.
Proof. intros H. unfold round2_if, truthy_float. now rewrite H. Qed.

Lemma round2_if_nonzero (x : float) :
  F64.is_zero x = false -> round2_if (Some x) = Some (F64.round2 x).
Proof. intros H. unfold round2_if, truthy_float. now rewrite H. Qed.

Section Fields.

Variable fromisoformat : string -> option datetime.
Variable py_sum : list float -> float.

(** Each guarded field of the report is [round2_if] of the value
    computed for it. *)
Lemma mttr_hours_field (cd_runs : list WorkflowRun) (d : DoraMetrics) :
  dora_metrics fromisoformat cd_runs = Ok d ->
  exists v, mttr_proxy fromisoformat cd_runs = Ok v /\ mttr_hours d = round2_if v.
Proof.
  unfold dora_metrics, rbind.
  destruct (percent _ _); [|discriminate].
  destruct (mttr_proxy fromisoformat cd_runs) as [v|]; [|discriminate].
  intros [= <-]. exists v. split; reflexivity.
Qed.

Lemma pr_fields (window_start : datetime) (prs : list PullRequest) (m : PrMetrics) :
  pr_metrics fromisoformat py_sum window_start prs = Ok m ->
  exists merged_prs lead_times avg,
    merged_in_window fromisoformat window_start prs = Ok merged_prs
    /\ lead_times_of fromisoformat merged_prs = Ok lead_times
    /\ average py_sum lead_times = Ok avg
    /\ pr_lead_time_avg_hours m = round2_if avg
    /\ pr_lead_time_median_hours m = round2_if (median_proxy lead_times).
Proof.
  unfold pr_metrics, rbind.
  destruct (merged_in_window _ _ _) as [merged|] eqn:E1; [|discriminate].
  destruct (lead_times_of _ _) as [lts|] eqn:E2; [|discriminate].
  destruct (average _ _) as [avg|] eqn:E3; [|discriminate].
  intros [= <-]. exists merged, lts, avg. repeat split; auto.
Qed.

Lemma ci_field (ci_runs : list WorkflowRun) (c : CiMetrics) :
  ci_metrics fromisoformat py_sum ci_runs = Ok c ->
  exists durations avg,
    durations_of fromisoformat (fun _ => true) ci_runs = Ok durations
    /\ average py_sum durations = Ok avg
    /\ ci_avg_duration_minutes c = round2_if avg.
Proof.
  unfold ci_metrics, rbind.
  destruct (percent _ _); [|discriminate].
  destruct (durations_of _ _ _) as [ds|] eqn:E2; [|discriminate].
  destruct (average _ _) as [avg|] eqn:E3; [|discriminate].
  intros [= <-]. exists ds, avg. repeat split; auto.
Qed.

Lemma deploy_field (cd_runs : list WorkflowRun) (d : DeployMetrics) :
  deploy_duration_metrics fromisoformat py_sum cd_runs = Ok d ->
  exists durations avg,
    durations_of fromisoformat (conclusion_is "success") cd_runs = Ok durations
    /\ average py_sum durations = Ok avg
    /\ deploy_avg_duration_minutes d = round2_if avg.
Proof.
  unfold deploy_duration_metrics, rbind.
  destruct (durations_of _ _ _) as [ds|] eqn:E2; [|discriminate].
  destruct (average _ _) as [avg|] eqn:E3; [|discriminate].
  intros [= <-]. exists ds, avg. repeat split; auto.
Qed.

End Fields.

(** C9.  Whenever the recovery time, the average or median lead time, or
    the average duration of the CI or deployment runs is computed as a
    zero, the field of the report is [None], as it is when there is nothing
    to compute the value from: the guard of each field tests the value
    itself. *)
Theorem zero_value_reported_as_none
    (fromisoformat : string -> option datetime) (py_sum : list float -> float) :
  (forall cd_runs d v,
     dora_metrics fromisoformat cd_runs = Ok d ->
     mttr_proxy fromisoformat cd_runs = Ok (Some v) ->
     F64.is_zero v = true ->
     mttr_hours d = None)
  /\ (forall window_start prs merged_prs lead_times m v,
        pr_metrics fromisoformat py_sum window_start prs = Ok m ->
        merged_in_window fromisoformat window_start prs = Ok merged_prs ->
        lead_times_of fromisoformat merged_prs = Ok lead_times ->
        average py_sum lead_times = Ok (Some v) ->
        F64.is_zero v = true ->
        pr_lead_time_avg_hours m = None)
  /\ (forall window_start prs merged_prs lead_times m v,
        pr_metrics fromisoformat py_sum window_start prs = Ok m ->
        merged_in_window fromisoformat window_start prs = Ok merged_prs ->
        lead_times_of fromisoformat merged_prs = Ok lead_times ->
        median_proxy lead_times = Some v ->
        F64.is_zero v = true ->
        pr_lead_time_median_hours m = None)
  /\ (forall ci_runs durations c v,
        ci_metrics fromisoformat py_sum ci_runs = Ok c ->
        durations_of fromisoformat (fun _ => true) ci_runs = Ok durations ->
        average py_sum durations = Ok (Some v) ->
        F64.is_zero v = true ->
        ci_avg_duration_minutes c = None)
  /\ (forall cd_runs durations d v,
        deploy_duration_metrics fromisoformat py_sum cd_runs = Ok d ->
        durations_of fromisoformat (conclusion_is "success") cd_runs = Ok durations ->
        average py_sum durations = Ok (Some v) ->
        F64.is_zero v = true ->
        deploy_avg_duration_minutes d = None)
  /\ (forall x, F64.is_zero x = true -> round2_if (Some x) = round2_if None)
  /\ (forall x, F64.is_zero x = false -> round2_if (Some x) = Some (F64.round2 x)).
Proof.
  split; [|split; [|split; [|split; [|split; [|split]]]]].
  - intros cd_runs d v Hd Hv Hz.
    destruct (mttr_hours_field _ _ _ Hd) as [v' [Hv' ->]].
    rewrite Hv in Hv'. injection Hv' as <-. now apply round2_if_zero.
  - intros ws prs merged lts m v Hm Hmerged Hlts Havg Hz.
    destruct (pr_fields _ _ _ _ _ Hm) as [merged' [lts' [avg [H1 [H2 [H3 [-> _]]]]]]].
    assert (merged' = merged) by congruence. subst merged'.
    assert (lts' = lts) by congruence. subst lts'.
    assert (avg = Some v) by congruence. subst avg. now apply round2_if_zero.
  - intros ws prs merged lts m v Hm Hmerged Hlts Hmed Hz.
    destruct (pr_fields _ _ _ _ _ Hm) as [merged' [lts' [avg [H1 [H2 [H3 [_ ->]]]]]]].
    assert (merged' = merged) by congruence. subst merged'.
    assert (lts' = lts) by congruence. subst lts'.
    rewrite Hmed. now apply round2_if_zero.
  - intros ci_runs ds c v Hc Hds Havg Hz.
    destruct (ci_field _ _ _ _ Hc) as [ds' [avg [H1 [H2 ->]]]].
    assert (ds' = ds) by congruence. subst ds'.
    assert (avg = Some v) by congruence. subst avg. now apply round2_if_zero.
  - intros cd_runs ds d v Hd Hds Havg Hz.
    destruct (deploy_field _ _ _ _ Hd) as [ds' [avg [H1 [H2 ->]]]].
    assert (ds' = ds) by congruence. subst ds'.
    assert (avg = Some v) by congruence. subst avg. now apply round2_if_zero.
  - intros x Hz. now apply round2_if_zero.
  - apply round2_if_nonzero.
Qed.

(** A failure and a success created at the same second: the recovery
    time is computed as 0.0 and reported as [None], as for no runs at
    all. *)
Example mttr_zero_reported_as_none :
  let runs := [Run.run_at (Some "failure") "2024-01-01T00:00:00Z";
               Run.run_at (Some "success") "2024-01-01T00:00:00Z"] in
  mttr_proxy Run.fromisoformat runs = Ok (Some F64.zero)
  /\ option_map mttr_hours
       (match dora_metrics Run.fromisoformat runs with Ok d => Some d | Raise _ => None end)
     = Some None
  /\ option_map mttr_hours
       (match dora_metrics Run.fromisoformat [] with Ok d => Some d | Raise _ => None end)
     = Some None.
Proof. vm_compute. repeat split. Qed.

(** A pull request merged in the second it was created, and a CI run
    updated in the second it started: average and median of 0.0, reported
    as [None]. *)
Example lead_time_zero_reported_as_none :
  let pr := {| pr_created_at := "2024-02-01T10:00:00Z";
               merged_at := Some "2024-02-01T10:00:00Z";
               user := UserAbsent |} in
  lead_times_of Run.fromisoformat [pr] = Ok [F64.zero]
  /\ average Run.py_sum [F64.zero] = Ok (Some F64.zero)
  /\ median_proxy [F64.zero] = Some F64.zero
  /\ pr_metrics Run.fromisoformat Run.py_sum 0 [pr]
     = Ok {| pr_throughput := 1;
             pr_lead_time_avg_hours := None;
             pr_lead_time_median_hours := None |}
  /\ option_map ci_avg_duration_minutes
       (match ci_metrics Run.fromisoformat Run.py_sum
                [Run.run_at (Some "success") "2024-02-01T10:00:00Z"]
        with Ok c => Some c | Raise _ => None end)
     = Some None.
Proof. vm_compute. repeat split. Qed.

End ZeroProps.


(** ** Counts and rates *)

Module RateProps.

Import Metrics.

Lemma count_if_le {A} (p : A -> bool) (l : list A) :
  (count_if p l <= List.length l)%nat.
Proof. apply List.filter_length_le. Qed.

Lemma success_not_failure (r : WorkflowRun) :
  conclusion_is "success" r = true -> conclusion_is "failure" r = false.
Proof.
  unfold conclusion_is. destruct (conclusion r) as [s|]; [|discriminate].
  intros H. apply String.eqb_eq in H. now subst s.
Qed.

(** Successful and failed runs are counted apart, and together they are
    all the runs exactly when every run succeeded or failed. *)
Lemma counts_partition (l : list WorkflowRun) :
  (count_if (conclusion_is "success") l + count_if (conclusion_is "failure") l
   <= List.length l)%nat
  /\ ((count_if (conclusion_is "success") l + count_if (conclusion_is "failure") l
       = List.length l)%nat
      <-> Forall (fun r => conclusion_is "success" r || conclusion_is "failure" r = true) l).
Proof.
  unfold count_if.
  induction l as [|r l [IHle IHeq]]; simpl.
  - split; [lia|]. split; auto.
  - pose proof (success_not_failure r) as Hex.
    destruct (conclusion_is "success" r) eqn:Es;
      destruct (conclusion_is "failure" r) eqn:Ef; simpl;
      try (specialize (Hex eq_refl); discriminate).
    + split; [lia|]. split.
      * intros H. constructor; [now rewrite Es|]. apply IHeq. lia.
      * intros H. inversion H; subst. apply IHeq in H3. lia.
    + split; [lia|]. split.
      * intros H. constructor; [now rewrite Es, Ef|]. apply IHeq. lia.
      * intros H. inversion H; subst. apply IHeq in H3. lia.
    + split; [lia|]. split.
      * intros H. lia.
      * intros H. inversion H; subst. rewrite Es, Ef in H2. discriminate.
Qed.

(** The rate of [part] in [total]: the integer 0 for no runs, and the
    product of the correctly rounded quotient with 100 otherwise; it is
    never an error, and it lies between 0 and 100. *)
Lemma percent_spec (part total : nat) :
  (part <= total)%nat ->
  (total = 0%nat /\ percent part total = Ok (NInt 0))
  \/ ((0 < total)%nat
      /\ exists q,
           F64.int_truediv (Z.of_nat part) (Z.of_nat total) = Ok q
           /\ percent part total = Ok (NFloat (F64.mul q (F64.of_Z 100)))
           /\ F64.below 7036874417766400 (-46) (F64.mul q (F64.of_Z 100))).
Proof.
  intros Hle. destruct total as [|total]; [left; split; reflexivity|].
  right. split; [lia|].
  destruct (RoundingProps.int_truediv_unit part (S total) Hle ltac:(lia))
    as [q [Hq Hb]].
  exists q. split; [exact Hq|]. split.
  - unfold percent. cbn [Nat.ltb Nat.leb]. rewrite Hq. reflexivity.
  - now apply RoundingProps.mul_100_below.
Qed.

Lemma percent_between (part total : nat) :
  (part <= total)%nat ->
  exists x, percent part total = Ok x
            /\ number_between 0 100 (round2 x) = true.
Proof.
  intros Hle.
  destruct (percent_spec part total Hle) as [[_ H]|[_ [q [_ [H Hb]]]]].
  - exists (NInt 0). split; [exact H|reflexivity].
  - eexists. split; [exact H|].
    apply RoundingProps.round2_below in Hb.
    apply RoundingProps.below_between in Hb. destruct Hb as [H0 H100].
    unfold number_between, round2.
    apply andb_true_intro. split; [exact H0|exact H100].
Qed.

(** The value of a rate of [total > 0] runs, spelled out in the operations
    of the floats: the quotient of the two integers, correctly rounded,
    times 100; and that value rounded to two decimals, which is the float
    nearest to [k / 100] for the integer [k] nearest to a hundred times
    the value (the even one of two), a [k] between 0 and 10000. *)
Lemma percent_value (part total : nat) :
  (0 < total)%nat -> (part <= total)%nat ->
  exists p : float,
    percent part total = Ok (NFloat p)
    /\ p = SFmul 53 1024
             (if (part =? 0)%nat then S754_zero false
              else SFdiv 53 1024
                     (S754_finite false (Z.to_pos (Z.of_nat part)) 0)
                     (S754_finite false (Z.to_pos (Z.of_nat total)) 0))
             (binary_normalize 53 1024 100 0 false)
    /\ ((p = S754_zero false /\ round2 (NFloat p) = NFloat (S754_zero false))
        \/ exists (m : positive) (e k : Z),
             p = S754_finite false m e
             /\ F64.nearest_hundredth m e k
             /\ 0 <= k <= 10000
             /\ round2 (NFloat p)
                = NFloat match k with
                         | Zpos n => SFdiv 53 1024 (S754_finite false n 0)
                                       (S754_finite false 100 0)
                         | _ => S754_zero false
                         end).
Proof.
  intros Hpos Hle.
  destruct (percent_spec part total Hle) as [[H0 _]|[_ [q [Hq [Hp Hb]]]]]; [lia|].
  exists (F64.mul q (F64.of_Z 100)). split; [exact Hp|]. split.
  - unfold F64.int_truediv in Hq.
    replace (Z.of_nat total =? 0) with false in Hq
      by (symmetry; apply Z.eqb_neq; lia).
    replace (Z.of_nat part <? 0) with false in Hq by (symmetry; apply Z.ltb_ge; lia).
    replace (Z.of_nat total <? 0) with false in Hq by (symmetry; apply Z.ltb_ge; lia).
    cbn [xorb] in Hq.
    destruct part as [|part]; [injection Hq as <-; reflexivity|].
    cbn [Nat.eqb].
    replace (Z.abs (Z.of_nat (S part))) with (Zpos (Z.to_pos (Z.of_nat (S part))))
      in Hq by (rewrite Z2Pos.id; lia).
    replace (Z.abs (Z.of_nat total)) with (Z.of_nat total) in Hq by lia.
    cbv zeta in Hq. destruct (F64.is_infinite _); [discriminate|].
    injection Hq as <-. reflexivity.
  - pose proof (fun m e => RoundingProps.hundredths_le _ m e Hb) as Hk.
    destruct Hb as [Hz|[m [e [Hpe _]]]];
      [left; rewrite Hz; split; reflexivity|].
    right. exists m, e, (F64.hundredths m e).
    destruct (RoundingProps.hundredths_nearest m e) as [H0 Hn].
    split; [exact Hpe|]. split; [exact Hn|]. split; [|rewrite Hpe; reflexivity].
    split; [exact H0|]. now apply Hk.
Qed.

Section Fields.

Variable fromisoformat : string -> option datetime.
Variable py_sum : list float -> float.

Lemma dora_rate_field (cd_runs : list WorkflowRun) (d : DoraMetrics) :
  dora_metrics fromisoformat cd_runs = Ok d ->
  deployments_total d = List.length cd_runs
  /\ deployments_successful d = count_if (conclusion_is "success") cd_runs
  /\ deployments_failed d = count_if (conclusion_is "failure") cd_runs
  /\ exists x,
       percent (count_if (conclusion_is "failure") cd_runs) (List.length cd_runs) = Ok x
       /\ change_failure_rate_percent d = round2 x.
Proof.
  unfold dora_metrics, rbind.
  destruct (percent _ _) as [x|]; [|discriminate].
  destruct (mttr_proxy fromisoformat cd_runs) as [v|]; [|discriminate].
  intros [= <-]. repeat split. now exists x.
Qed.

Lemma ci_rate_field (ci_runs : list WorkflowRun) (c : CiMetrics) :
  ci_metrics fromisoformat py_sum ci_runs = Ok c ->
  exists x,
    percent (count_if (conclusion_is "success") ci_runs) (List.length ci_runs) = Ok x
    /\ ci_success_rate_percent c = round2 x.
Proof.
  unfold ci_metrics, rbind.
  destruct (percent _ _) as [x|]; [|discriminate].
  destruct (durations_of _ _ _) as [ds|]; [|discriminate].
  destruct (average _ _) as [avg|]; [|discriminate].
  intros [= <-]. now exists x.
Qed.

Lemma security_rate_field (security_runs : list WorkflowRun) :
  exists s x,
    security_metrics security_runs = Ok s
    /\ percent (count_if (conclusion_is "success") security_runs)
         (List.length security_runs) = Ok x
    /\ security_success_rate_percent s = round2 x.
Proof.
  unfold security_metrics, rbind.
  destruct (percent_between (count_if (conclusion_is "success") security_runs)
              (List.length security_runs) (count_if_le _ _)) as [x [Hx _]].
  rewrite Hx. eexists. exists x. repeat split.
Qed.

End Fields.

(** C4.  Each rate is the integer 0, and no error, when there are no
    runs; otherwise it is the quotient of the count by the total as Python
    divides two integers (the correctly rounded quotient), times 100,
    rounded to two decimals: the percentage [p] is replaced by the float
    nearest to [k / 100], where [k] is the integer nearest to [100 * p]
    (the even one of two equally near), a number of hundredths between 0
    and 10000.  This is the value of the change failure rate (failed
    runs), of the CI success rate and of the security success rate
    (successful runs), and computing a rate never raises. *)
Theorem rates_zero_or_rounded_percentage
    (fromisoformat : string -> option datetime) (py_sum : list float -> float) :
  (forall part : nat, percent part 0 = Ok (NInt 0) /\ round2 (NInt 0) = NInt 0)
  /\ (forall (p : WorkflowRun -> bool) (runs : list WorkflowRun),
        (count_if p runs <= List.length runs)%nat)
  /\ (forall part total : nat, (0 < total)%nat -> (part <= total)%nat ->
        exists q,
          F64.int_truediv (Z.of_nat part) (Z.of_nat total) = Ok q
          /\ percent part total = Ok (NFloat (F64.mul q (F64.of_Z 100)))
          /\ round2 (NFloat (F64.mul q (F64.of_Z 100)))
             = NFloat (F64.round2 (F64.mul q (F64.of_Z 100))))
  /\ (forall part total : nat, (0 < total)%nat -> (part <= total)%nat ->
        exists p : float,
          percent part total = Ok (NFloat p)
          /\ p = SFmul 53 1024
                   (if (part =? 0)%nat then S754_zero false
                    else SFdiv 53 1024
                           (S754_finite false (Z.to_pos (Z.of_nat part)) 0)
                           (S754_finite false (Z.to_pos (Z.of_nat total)) 0))
                   (binary_normalize 53 1024 100 0 false)
          /\ ((p = S754_zero false
               /\ round2 (NFloat p) = NFloat (S754_zero false))
              \/ exists (m : positive) (e k : Z),
                   p = S754_finite false m e
                   /\ F64.nearest_hundredth m e k
                   /\ 0 <= k <= 10000
                   /\ round2 (NFloat p)
                      = NFloat match k with
                               | Zpos n =>
                                   SFdiv 53 1024 (S754_finite false n 0)
                                     (S754_finite false 100 0)
                               | _ => S754_zero false
                               end))
  /\ (forall cd_runs d,
        dora_metrics fromisoformat cd_runs = Ok d ->
        exists x,
          percent (count_if (conclusion_is "failure") cd_runs) (List.length cd_runs)
            = Ok x
          /\ change_failure_rate_percent d = round2 x)
  /\ (forall ci_runs c,
        ci_metrics fromisoformat py_sum ci_runs = Ok c ->
        exists x,
          percent (count_if (conclusion_is "success") ci_runs) (List.length ci_runs)
            = Ok x
          /\ ci_success_rate_percent c = round2 x)
  /\ (forall security_runs,
        exists s x,
          security_metrics security_runs = Ok s
          /\ percent (count_if (conclusion_is "success") security_runs)
               (List.length security_runs) = Ok x
          /\ security_success_rate_percent s = round2 x)
  /\ dora_metrics fromisoformat []
     = Ok {| deployments_total := 0; deployments_successful := 0;
             deployments_failed := 0; change_failure_rate_percent := NInt 0;
             mttr_hours := None |}
  /\ ci_metrics fromisoformat py_sum []
     = Ok {| ci_runs_total := 0; ci_success_rate_percent := NInt 0;
             ci_avg_duration_minutes := None |}
  /\ security_metrics []
     = Ok {| security_runs_total := 0; security_success_rate_percent := NInt 0;
             security_last_conclusion := None |}.
Proof.
  split; [intros part; split; reflexivity|].
  split; [intros p runs; apply count_if_le|].
  split.
  { intros part total Hpos Hle.
    destruct (percent_spec part total Hle) as [[H0 _]|[_ [q [Hq [Hp _]]]]]; [lia|].
    exists q. repeat split; assumption. }
  split; [apply percent_value|].
  split.
  { intros cd_runs d Hd.
    destruct (dora_rate_field fromisoformat cd_runs d Hd) as [_ [_ [_ H]]]. exact H. }
  split; [apply ci_rate_field|].
  split; [apply security_rate_field|].
  repeat split.
Qed.

(** One failed run of three: 33.33; one of eight: 12.5; two of three:
    66.67. *)
Example percent_examples :
  (x <- percent 1 3 ;; Ok (round2 x))%res
    = Ok (NFloat (S754_finite false 4690780486883082 (-47)))
  /\ (x <- percent 1 8 ;; Ok (round2 x))%res
    = Ok (NFloat (F64.div (F64.of_Z 25) (F64.of_Z 2)))
  /\ (x <- percent 2 3 ;; Ok (round2 x))%res
    = Ok (NFloat (S754_finite false 4691484174324859 (-46)))
  /\ (x <- percent 3 3 ;; Ok (round2 x))%res = Ok (NFloat (F64.of_Z 100)).
Proof. vm_compute. repeat split. Qed.

(** C10.  In the report of [collect_dora_metrics] the successful and the
    failed deployments together are at most the total, and exactly the
    total when every run concluded with "success" or "failure"; the change
    failure rate lies between 0 and 100. *)
Theorem deployment_counts_and_rate_range
    (fromisoformat : string -> option datetime)
    (cd_runs : list WorkflowRun) (d : DoraMetrics) :
  dora_metrics fromisoformat cd_runs = Ok d ->
  (deployments_successful d + deployments_failed d <= deployments_total d)%nat
  /\ ((deployments_successful d + deployments_failed d = deployments_total d)%nat
      <-> Forall (fun r => conclusion_is "success" r || conclusion_is "failure" r = true)
            cd_runs)
  /\ number_between 0 100 (change_failure_rate_percent d) = true.
Proof.
  intros Hd.
  destruct (dora_rate_field fromisoformat cd_runs d Hd)
    as [Ht [Hs [Hf [x [Hx Hr]]]]].
  rewrite Ht, Hs, Hf, Hr.
  destruct (counts_partition cd_runs) as [Hle Heq].
  split; [exact Hle|]. split; [exact Heq|].
  destruct (percent_between (count_if (conclusion_is "failure") cd_runs)
              (List.length cd_runs) (count_if_le _ _)) as [x' [Hx' Hb]].
  rewrite Hx in Hx'. injection Hx' as <-. exact Hb.
Qed.

Lemma deployment_counts_and_rate_range_witness :
  let cd_runs := [Run.run_at (Some "failure") "2024-01-01T00:00:00Z";
                  Run.run_at (Some "success") "2024-01-01T01:30:00Z";
                  Run.run_at (Some "cancelled") "2024-01-01T01:30:00Z"] in
  let d := {| deployments_total := 3;
              deployments_successful := 1;
              deployments_failed := 1;
              change_failure_rate_percent :=
                NFloat (S754_finite false 4690780486883082 (-47));
              mttr_hours := Some (S754_finite false 6755399441055744 (-52)) |} in
  (deployments_successful d + deployments_failed d <= deployments_total d)%nat
  /\ ((deployments_successful d + deployments_failed d = deployments_total d)%nat
      <-> Forall (fun r => conclusion_is "success" r || conclusion_is "failure" r = true)
            cd_runs)
  /\ number_between 0 100 (change_failure_rate_percent d) = true.
Proof.
  intros cd_runs d.
  apply (deployment_counts_and_rate_range Run.fromisoformat cd_runs d).
  vm_compute. reflexivity.
Defined.

End RateProps.

(** * Further properties *)

(** ** Laws of the four operations *)

Module CalculatorLaws.

Import Calculator.

(** X1.  [subtract a b] is [add a (-b)]: subtracting is adding the negation,
    for every pair of floats, signed zeros, infinities and NaN included. *)
Theorem subtract_is_add_of_negation (a b : float) :
  subtract a b = add a (SFopp b).
Proof.
  unfold subtract, add, F64.sub, F64.add.
  destruct a as [[|]|[|]| |sa ma ea], b as [[|]|[|]| |sb mb eb];
    try reflexivity.
  unfold SFsub, SFadd, SFopp. f_equal.
  destruct sb; cbn [negb cond_Zopp]; lia.
Qed.

(** X2.  [subtract a a] is [+0.0] for every finite [a], and NaN for the
    infinities and NaN. *)
Theorem subtract_self (a : float) :
  subtract a a = if F64.is_finite a then S754_zero false else S754_nan.
Proof.
  unfold subtract, F64.sub.
  destruct a as [[|]|[|]| |s m e]; try reflexivity.
  unfold SFsub, F64.is_finite. rewrite Z.min_id.
  unfold shl_align. replace (e - e) with 0 by lia. cbn [fst].
  set (t := cond_Zopp s (Zpos m)). now replace (t - t) with 0 by lia.
Qed.

(** X3.  Under [==], zero is neutral for [add] and [subtract], whatever its
    sign: [add a 0 == a] and [subtract a 0 == a] unless [a] is NaN. *)
Theorem zero_is_neutral (a : float) (s : bool) :
  F64.eqb (add a (S754_zero s)) a = negb (F64.is_nan a)
  /\ F64.eqb (subtract a (S754_zero s)) a = negb (F64.is_nan a).
Proof.
  unfold add, subtract, F64.add, F64.sub.
  destruct a as [[|]|[|]| |sa m e], s; cbn [SFadd SFsub];
    split; try reflexivity; apply F64Facts.eqb_refl.
Qed.

(** X4.  [multiply] is commutative, and the product of two negated arguments
    is the product of the arguments. *)
Theorem multiply_commutes (a b : float) :
  multiply a b = multiply b a
  /\ multiply (SFopp a) (SFopp b) = multiply a b.
Proof.
  unfold multiply, F64.mul. split.
  - destruct a as [[|]|[|]| |[|] ma ea], b as [[|]|[|]| |[|] mb eb];
      try reflexivity;
      unfold SFmul; cbn [xorb];
      now rewrite (Pos.mul_comm mb ma), (Z.add_comm eb ea).
  - destruct a as [[|]|[|]| |[|] ma ea], b as [[|]|[|]| |[|] mb eb];
      reflexivity.
Qed.

(** X5.  The product with a zero is a zero exactly for the finite factors:
    [multiply a 0 == 0] for every finite [a], and NaN for the infinities
    and NaN. *)
Theorem multiply_by_zero (a : float) (s : bool) :
  F64.is_zero (multiply a (S754_zero s)) = F64.is_finite a
  /\ F64.is_nan (multiply a (S754_zero s)) = negb (F64.is_finite a).
Proof.
  unfold multiply, F64.mul.
  destruct a as [[|]|[|]| |[|] m e], s; split; reflexivity.
Qed.

(** X6.  Negating both arguments changes nothing for [divide]: the same
    quotient, and the same error for a zero divisor. *)
Theorem divide_of_negations (a b : float) :
  divide (SFopp a) (SFopp b) = divide a b.
Proof.
  unfold divide.
  assert (Hz : F64.is_zero (SFopp b) = F64.is_zero b)
    by (destruct b as [[|]|[|]| |[|] m e]; reflexivity).
  rewrite Hz. destruct (F64.is_zero b); [reflexivity|]. f_equal.
  unfold F64.div.
  destruct a as [[|]|[|]| |[|] ma ea], b as [[|]|[|]| |[|] mb eb];
    reflexivity.
Qed.

Lemma div_core_nonneg (m1 m2 : positive) (e1 e2 : Z) :
  0 <= fst (fst (SFdiv_core_binary 53 1024 (Zpos m1) e1 (Zpos m2) e2)).
Proof.
  unfold SFdiv_core_binary.
  set (s := e1 - e2 - _).
  set (m' := match s with 0 => Zpos m1 | Zpos _ => Z.shiftl (Zpos m1) s | Zneg _ => 0 end).
  assert (Hm' : 0 <= m').
  { unfold m'. destruct s; try lia. apply Z.shiftl_nonneg. lia. }
  pose proof (Z_div_mod m' (Zpos m2) ltac:(lia)) as H.
  destruct (Z.div_eucl m' (Zpos m2)) as [q r]. cbn [fst]. nia.
Qed.

(** X7.  For finite [a] and finite non-zero [b], [divide a b] returns a number
    (never NaN, never an error), and a zero when [a] is a zero. *)
Theorem divide_of_finite (a b : float) :
  F64.is_finite a = true -> F64.is_finite b = true -> F64.is_zero b = false ->
  exists q, divide a b = Ok q
            /\ F64.is_nan q = false
            /\ (F64.is_zero a = true -> F64.is_zero q = true).
Proof.
  intros Ha Hb Hz. unfold divide. rewrite Hz. eexists. split; [reflexivity|].
  unfold F64.div.
  destruct a as [sa|sa| |sa ma ea]; simpl in Ha; try discriminate Ha;
    destruct b as [[|]|sb| |sb mb eb]; simpl in Hb, Hz;
    try discriminate Hb; try discriminate Hz.
  - split; [reflexivity|]. intros _. destruct sa, sb; reflexivity.
  - split; [|destruct sa; discriminate].
    unfold SFdiv, F64.prec, F64.emax.
    pose proof (div_core_nonneg ma mb ea eb) as Hq.
    destruct (SFdiv_core_binary 53 1024 (Zpos ma) ea (Zpos mb) eb) as [[mz ez] lz].
    cbn [fst] in Hq. now apply RoundingProps.round_aux_not_nan.
Qed.

Lemma divide_of_finite_witness :
  exists q, divide (F64.of_Z 0) (F64.of_Z 5) = Ok q
            /\ F64.is_nan q = false
            /\ (F64.is_zero (F64.of_Z 0) = true -> F64.is_zero q = true).
Proof.
  apply (divide_of_finite (F64.of_Z 0) (F64.of_Z 5)); reflexivity.
Defined.

End CalculatorLaws.

(** ** The operation routes *)

Module RoutesProps.

Import Api Routes.

(** X8.  Each of the four routes answers with what the operation of the
    calculator returns on the two numbers of the body: 200 and the result
    when it returns, 400 and the message of the error when it raises; so a
    route answers 400 only for [/div] with a zero divisor, and never with
    another status. *)
Theorem route_answers_with_operation (r : route) (x y : float) :
  (forall v, Calculator.call (operation_of r) x y = Ok v ->
             post r {| a := x; b := y |} = (200, ResultBody v))
  /\ (forall e, Calculator.call (operation_of r) x y = Raise e ->
                post r {| a := x; b := y |}
                = (400, DetailBody "Division by zero is not allowed"))
  /\ (fst (post r {| a := x; b := y |}) = 400
      <-> r = PostDiv /\ F64.is_zero y = true)
  /\ (fst (post r {| a := x; b := y |}) = 200
      \/ fst (post r {| a := x; b := y |}) = 400).
Proof.
  unfold post, respond, handler.
  destruct r; cbn [operation_of Calculator.call];
    unfold add_numbers, subtract_numbers, multiply_numbers, divide_numbers,
      Calculator.divide; cbn [a b result_ fst].
  1-3: (split; [intros v [= <-]; reflexivity|]; split; [discriminate|];
        split; [|now left]; split; [discriminate|intros [H _]; discriminate]).
  destruct (F64.is_zero y); cbn [fst].
  - split; [discriminate|]. split; [reflexivity|]. split; [|now right].
    split; auto.
  - split; [intros v [= <-]; reflexivity|]. split; [discriminate|].
    split; [|now left]. split; [discriminate|intros [_ H]; discriminate].
Qed.

End RoutesProps.

(** ** The settings *)

Module ConfigProps.

Import Config.

(** X9.  [Settings()] fails only on a [PORT] that is no integer, with
    [ValueError]; otherwise the port is that integer (8000 when unset) and
    [debug] is on exactly when [DEBUG] is set to a value that reads "true"
    in lower case. *)
Theorem settings_of_environment
    (getenv : string -> option string) (py_int : string -> option Z) :
  py_int "8000" = Some 8000 ->
  (Settings_init getenv py_int = Raise ValueError
   <-> exists v, getenv "PORT" = Some v /\ py_int v = None)
  /\ (forall e, Settings_init getenv py_int = Raise e -> e = ValueError)
  /\ (forall s, Settings_init getenv py_int = Ok s ->
        (debug s = true
         <-> exists v, getenv "DEBUG" = Some v /\ Metrics.lower v = "true")
        /\ (getenv "PORT" = None -> port s = 8000)
        /\ (forall v, getenv "PORT" = Some v -> py_int v = Some (port s))).
Proof.
  intros H8000. unfold Settings_init, getenv_default.
  destruct (getenv "PORT") as [p|] eqn:Hport.
  - destruct (py_int p) as [n|] eqn:Hp.
    + split; [split; [discriminate|intros [v [[= <-] Hv]]; congruence]|].
      split; [discriminate|]. intros s [= <-]. cbn [debug port].
      split; [|split; [discriminate|intros v [= <-]; assumption]].
      destruct (getenv "DEBUG") as [d|]; rewrite String.eqb_eq.
      * split; [intros H; now exists d|intros [v [[= <-] Hv]]; assumption].
      * split; [discriminate|intros [v [Hv _]]; discriminate].
    + split; [split; [intros _; now exists p|reflexivity]|].
      split; [intros e [= <-]; reflexivity|discriminate].
  - rewrite H8000.
    split; [split; [discriminate|intros [v [Hv _]]; discriminate]|].
    split; [discriminate|]. intros s [= <-]. cbn [debug port].
    split; [|split; [reflexivity|discriminate]].
    destruct (getenv "DEBUG") as [d|]; rewrite String.eqb_eq.
    + split; [intros H; now exists d|intros [v [[= <-] Hv]]; assumption].
    + split; [discriminate|intros [v [Hv _]]; discriminate].
Qed.

Lemma settings_of_environment_witness :
  (Settings_init (fun k => if String.eqb k "DEBUG" then Some "True" else None)
     Run.py_int = Raise ValueError
   <-> exists v, (if String.eqb "PORT" "DEBUG" then Some "True" else None) = Some v
                 /\ Run.py_int v = None)
  /\ (forall e,
        Settings_init (fun k => if String.eqb k "DEBUG" then Some "True" else None)
          Run.py_int = Raise e -> e = ValueError)
  /\ (forall s,
        Settings_init (fun k => if String.eqb k "DEBUG" then Some "True" else None)
          Run.py_int = Ok s ->
        (debug s = true
         <-> exists v, (if String.eqb "DEBUG" "DEBUG" then Some "True" else None) = Some v
                       /\ Metrics.lower v = "true")
        /\ ((if String.eqb "PORT" "DEBUG" then Some "True" else None) = None ->
            port s = 8000)
        /\ (forall v, (if String.eqb "PORT" "DEBUG" then Some "True" else None) = Some v ->
                      Run.py_int v = Some (port s))).
Proof.
  apply (settings_of_environment
           (fun k => if String.eqb k "DEBUG" then Some "True" else None) Run.py_int).
  reflexivity.
Defined.

Lemma calls_cached (py_int : string -> option Z) (s : Settings)
    (environments : list (string -> option string)) :
  calls py_int environments (Some s) = List.map (fun _ => Ok s) environments.
Proof.
  induction environments as [|g rest IH]; simpl; [reflexivity|]. now rewrite IH.
Qed.

Lemma calls_fresh (py_int : string -> option Z)
    (environments : list (string -> option string)) :
  forall (cache : option Settings) (i : nat) (e : exn),
    nth_error (calls py_int environments cache) i = Some (Raise e) ->
    cache = None
    /\ forall (k : nat) (getenv : string -> option string),
         (k <= S i)%nat -> nth_error environments k = Some getenv ->
         nth_error (calls py_int environments cache) k
         = Some (Settings_init getenv py_int).
Proof.
  induction environments as [|g rest IH]; intros cache i e Hi;
    [destruct i; discriminate|].
  destruct cache as [s|].
  { rewrite calls_cached, nth_error_map in Hi.
    destruct (nth_error (g :: rest) i); discriminate. }
  split; [reflexivity|]. cbn [calls get_settings] in *.
  assert (Hhead : forall rest' c, nth_error rest' 0 = Some c ->
            nth_error (calls py_int rest' None) 0 = Some (Settings_init c py_int)).
  { intros [|c' rest'] c; [discriminate|]. intros [= ->]. cbn [calls get_settings].
    destruct (Settings_init c py_int); reflexivity. }
  destruct (Settings_init g py_int) as [s|e0] eqn:Hg.
  - destruct i as [|i]; [discriminate|]. cbn [nth_error] in Hi.
    destruct (IH _ _ _ Hi) as [Hc _]. discriminate.
  - intros k getenv Hk Hgk. destruct k as [|k].
    + injection Hgk as <-. cbn [nth_error]. now rewrite Hg.
    + cbn [nth_error] in *. destruct i as [|i].
      * assert (k = 0%nat) by lia. subst k. now apply Hhead.
      * cbn [nth_error] in Hi. destruct (IH _ _ _ Hi) as [_ Hfresh].
        apply Hfresh; [lia|exact Hgk].
Qed.

(** X10.  Once a call of [get_settings] has returned settings, every later
    call returns the same settings, whatever the environment has become
    since.  A call that raised has cached nothing: nothing was cached
    before it, and every call up to and including the next one builds
    [Settings()] anew from the environment of its own time. *)
Theorem get_settings_is_cached (py_int : string -> option Z)
    (environments : list (string -> option string)) (cache : option Settings) :
  (forall (i j : nat) (s : Settings),
     nth_error (calls py_int environments cache) i = Some (Ok s) ->
     (i <= j)%nat -> (j < List.length environments)%nat ->
     nth_error (calls py_int environments cache) j = Some (Ok s))
  /\ (forall (i : nat) (e : exn),
        nth_error (calls py_int environments cache) i = Some (Raise e) ->
        cache = None
        /\ forall (k : nat) (getenv : string -> option string),
             (k <= S i)%nat -> nth_error environments k = Some getenv ->
             nth_error (calls py_int environments cache) k
             = Some (Settings_init getenv py_int)).
Proof.
  split; [|apply calls_fresh].
  revert cache.
  induction environments as [|g rest IH]; intros cache i j s Hi Hij Hj;
    [simpl in Hj; lia|].
  cbn [calls] in *.
  destruct (get_settings g py_int cache) as [r cache'] eqn:Hg.
  assert (Hcache : forall s', r = Ok s' -> cache' = Some s').
  { unfold get_settings in Hg. destruct cache as [c|].
    - injection Hg as <- <-. intros s' [= <-]. reflexivity.
    - destruct (Settings_init g py_int); injection Hg as <- <-;
        [intros s' [= <-]; reflexivity|discriminate]. }
  destruct i as [|i]; cbn [nth_error] in Hi.
  - injection Hi as ->. rewrite (Hcache s eq_refl), calls_cached.
    destruct j as [|j]; [reflexivity|]. cbn [nth_error].
    rewrite nth_error_map.
    destruct (nth_error rest j) eqn:E; [reflexivity|].
    apply nth_error_None in E. simpl in Hj. lia.
  - destruct j as [|j]; [lia|]. cbn [nth_error].
    apply (IH cache' i j s Hi); simpl in Hj; lia.
Qed.

(** A [PORT] that is no number, then none, then 9000: the first call
    raises and caches nothing, the second builds the settings from the
    environment of its time, the third returns them from the cache. *)
Lemma get_settings_is_cached_witness :
  nth_error
    (calls Run.py_int
       [(fun k => if String.eqb k "PORT" then Some "http" else None);
        (fun _ => None);
        (fun k => if String.eqb k "PORT" then Some "9000" else None)]
       None) 2
  = Some (Ok {| app_name := "Calculator WebApp"; env := "development";
                debug := false; host := "0.0.0.0"; port := 8000 |})
  /\ nth_error
       (calls Run.py_int
          [(fun k => if String.eqb k "PORT" then Some "http" else None);
           (fun _ => None);
           (fun k => if String.eqb k "PORT" then Some "9000" else None)]
          None) 1
     = Some (Settings_init (fun _ => None) Run.py_int).
Proof.
  destruct (get_settings_is_cached Run.py_int
              [(fun k => if String.eqb k "PORT" then Some "http" else None);
               (fun _ => None);
               (fun k => if String.eqb k "PORT" then Some "9000" else None)]
              None) as [Hcached Hraised].
  split.
  - apply (Hcached 1%nat 2%nat); [reflexivity|lia|simpl; lia].
  - destruct (Hraised 0%nat ValueError) as [_ Hfresh]; [reflexivity|].
    apply Hfresh; [lia|reflexivity].
Defined.

End ConfigProps.

(** ** The requests of a fetch *)

Module FetchProps.

Import Metrics MetricsExt.

Lemma append_assoc (s t u : string) : ((s ++ t) ++ u = s ++ (t ++ u))%string.
Proof. induction s as [|c s IH]; simpl; [reflexivity|now rewrite IH]. Qed.

Lemma replace_Z_app (s t : string) :
  replace_Z (s ++ t) = (replace_Z s ++ replace_Z t)%string.
Proof.
  induction s as [|c s IH]; simpl; [reflexivity|].
  destruct (Ascii.eqb c "Z"); rewrite IH; reflexivity.
Qed.

(** X11.  A [Z] in a timestamp is read as the offset [+00:00]: the two spellings
    of a timestamp parse to the same result, error or instant. *)
Theorem parse_datetime_reads_Z_as_utc
    (fromisoformat : string -> option datetime) (s t : string) :
  _parse_datetime fromisoformat (s ++ "Z" ++ t)
  = _parse_datetime fromisoformat (s ++ "+00:00" ++ t).
Proof.
  unfold _parse_datetime. rewrite !replace_Z_app.
  replace (replace_Z ("Z" ++ t)) with (replace_Z ("+00:00" ++ t)) by reflexivity.
  reflexivity.
Qed.

Lemma dict_get_set_other (k k' : string) (v : pval) (d : dict) :
  k <> k' -> dict_get k (dict_set k' v d) = dict_get k d.
Proof.
  intros Hne.
  assert (Hkk : String.eqb k k' = false) by now apply String.eqb_neq.
  induction d as [|[k0 v0] d IH]; simpl.
  - now rewrite Hkk.
  - destruct (String.eqb k' k0) eqn:E; simpl.
    + apply String.eqb_eq in E. subst k0. now rewrite Hkk.
    + destruct (String.eqb k k0); [reflexivity|exact IH].
Qed.

Section Fetch.

Variable server : nat -> forall q : Request, Reply (list (item (target q))).
Variable self : GitHubMetricsCollector.

Lemma _get_outcome (e : endpoint) (params : dict) (w : World) :
  _get server self e params w
  = (outcome_of_reply (server (List.length (sent w)) (request_for self e params)),
     after_requests w [request_for self e params]).
Proof.
  unfold _get, outcome_of_reply.
  destruct (server _ _) as [code [items|]|];
    try destruct (is_error_status code); reflexivity.
Qed.

(** The requests of the loop, whatever the replies: one per page, from
    the page it starts at, at most up to page 10. *)
Lemma paginate_requests (e : endpoint) (params : dict) (fuel : nat) :
  forall (k : nat) (all_items : list (item e)) (w : World),
    (k < 10)%nat -> (10 <= fuel + k)%nat ->
    exists m : nat,
      (1 <= m <= 10 - k)%nat
      /\ snd (paginate server self fuel e (page_params params (Z.of_nat k + 1))
                all_items w)
         = after_requests w
             (map (fun i => request_for self e (page_params params (Z.of_nat i + 1)))
                  (seq k m)).
Proof.
  induction fuel as [|fuel IH]; intros k all_items w Hk Hf; [lia|].
  cbn [paginate]. unfold bind. rewrite _get_outcome.
  destruct (outcome_of_reply _) as [[|x items]|ex].
  - exists 1%nat. split; [lia|reflexivity].
  - destruct (Nat.ltb _ _);
      [exists 1%nat; split; [lia|reflexivity]|].
    rewrite PaginationProps.page_params_next,
      !PaginationProps.page_of_page_params.
    destruct (Z.of_nat k + 1 + 1 >? 10) eqn:Hlim;
      [exists 1%nat; split; [lia|reflexivity]|].
    replace (Z.of_nat k + 1 + 1) with (Z.of_nat (S k) + 1) by lia.
    destruct (IH (S k) (all_items ++ x :: items)%list
                (after_requests w
                   [request_for self e (page_params params (Z.of_nat k + 1))]))
      as [m [Hm Hs]]; try lia.
    exists (S m). split; [lia|].
    rewrite Hs, PaginationProps.after_requests_app. reflexivity.
  - exists 1%nat. split; [lia|reflexivity].
Qed.

Section Failure.

Variable e : endpoint.
Variable params : dict.
Variable w : World.
Variable k : nat.
Variable ex : exn.

Hypothesis k_below_10 : (k < 10)%nat.

(** The first [k] requests are answered with full pages. *)
Hypothesis full_pages :
  forall i : nat, (i < k)%nat ->
    exists items,
      outcome_of_reply
        (server (List.length (sent w) + i)%nat
           (request_for self e (page_params params (Z.of_nat i + 1))))
      = Ok items
      /\ (100 <= List.length items)%nat.

(** The next request fails. *)
Hypothesis failure :
  outcome_of_reply
    (server (List.length (sent w) + k)%nat
       (request_for self e (page_params params (Z.of_nat k + 1))))
  = Raise ex.

Lemma paginate_fails (d : nat) :
  forall (j : nat) (all_items : list (item e)) (rs : list Request),
    (j + d = k)%nat -> List.length rs = j ->
    paginate server self (10 - j) e (page_params params (Z.of_nat j + 1))
      all_items (after_requests w rs)
    = (Raise ex,
       after_requests w
         (rs ++ map (fun i => request_for self e (page_params params (Z.of_nat i + 1)))
                    (seq j (S d)))).
Proof.
  induction d as [|d IH]; intros j all_items rs Hj Hrs.
  - assert (Hjk : j = k) by lia. rewrite Hjk in Hrs |- *. clear Hjk Hj.
    replace (10 - k)%nat with (S (9 - k)) by lia.
    cbn [paginate]. unfold bind. rewrite _get_outcome.
    cbn [after_requests sent]. rewrite length_app, Hrs, failure.
    unfold after_requests; cbn [sent clock_reads dirs files printed seq map].
    now rewrite <- app_assoc.
  - replace (10 - j)%nat with (S (10 - S j)) by lia.
    cbn [paginate]. unfold bind. rewrite _get_outcome.
    cbn [after_requests sent]. rewrite length_app, Hrs.
    destruct (full_pages j ltac:(lia)) as [items [Hok Hlen]].
    rewrite Hok.
    destruct items as [|x items]; [simpl in Hlen; lia|].
    replace (Nat.ltb _ _) with false by (symmetry; apply Nat.ltb_ge; exact Hlen).
    rewrite PaginationProps.page_params_next,
      !PaginationProps.page_of_page_params.
    replace (Z.of_nat j + 1 + 1 >? 10) with false by lia.
    replace (Z.of_nat j + 1 + 1) with (Z.of_nat (S j) + 1) by lia.
    fold (after_requests w rs).
    fold (after_requests (after_requests w rs)
            [request_for self e (page_params params (Z.of_nat j + 1))]).
    rewrite PaginationProps.after_requests_app.
    rewrite (IH (S j)); [|lia|rewrite length_app, Hrs; simpl; lia].
    f_equal. f_equal. cbn [seq map]. now rewrite <- app_assoc.
Qed.

End Failure.

End Fetch.

(** X12.  A paginated fetch is all or nothing: when the request for a page
    fails after [k] full pages, the fetch raises the error of that request
    and returns none of the items of the pages before; the failed request
    is its last. *)
Theorem paginated_fetch_fails_as_a_whole
    (server : nat -> forall q : Request, Reply (list (item (target q))))
    (self : GitHubMetricsCollector) (e : endpoint) (params : dict) (w : World)
    (k : nat) (ex : exn) :
  (k < 10)%nat ->
  (forall i : nat, (i < k)%nat ->
     exists items,
       outcome_of_reply
         (server (List.length (sent w) + i)%nat
            (request_for self e (page_params params (Z.of_nat i + 1))))
       = Ok items
       /\ (100 <= List.length items)%nat) ->
  outcome_of_reply
    (server (List.length (sent w) + k)%nat
       (request_for self e (page_params params (Z.of_nat k + 1))))
  = Raise ex ->
  _get_paginated server self e params w
  = (Raise ex,
     after_requests w
       (map (fun i => request_for self e (page_params params (Z.of_nat i + 1)))
            (seq 0 (S k)))).
Proof.
  intros Hk Hfull Hfail.
  pose proof (paginate_fails server self e params w k ex Hk Hfull Hfail k 0 [] []
                eq_refl eq_refl) as H.
  rewrite PaginationProps.after_requests_nil in H. exact H.
Qed.

Lemma paginated_fetch_fails_as_a_whole_witness :
  _get_paginated (RunExt.full_until 2 502) Run.collector ActionsRuns [] initial_world
  = (Raise (HTTPError 502),
     after_requests initial_world
       (map (fun i => request_for Run.collector ActionsRuns
                        (page_params [] (Z.of_nat i + 1)))
            (seq 0 3))).
Proof.
  apply (paginated_fetch_fails_as_a_whole (RunExt.full_until 2 502) Run.collector
           ActionsRuns [] initial_world 2 (HTTPError 502)).
  - lia.
  - intros i Hi. destruct i as [|[|i]]; [| |lia];
      (eexists; split; [reflexivity|simpl; lia]).
  - reflexivity.
Defined.

(** X13.  Whatever the server replies, a paginated fetch sends between one and
    ten requests, for the pages 1, 2, ... in order, each asking for 100
    items per page and carrying every other parameter of the caller
    unchanged. *)
Theorem paginated_fetch_requests
    (server : nat -> forall q : Request, Reply (list (item (target q))))
    (self : GitHubMetricsCollector) (e : endpoint) (params : dict) (w : World) :
  exists n : nat,
    (1 <= n <= 10)%nat
    /\ snd (_get_paginated server self e params w)
       = after_requests w
           (map (fun i => request_for self e (page_params params (Z.of_nat i + 1)))
                (seq 0 n))
    /\ forall i : nat,
         dict_get "page" (page_params params (Z.of_nat i + 1))
         = Some (PInt (Z.of_nat i + 1))
         /\ dict_get "per_page" (page_params params (Z.of_nat i + 1))
            = Some (PInt 100)
         /\ forall key : string, key <> "page" -> key <> "per_page" ->
              dict_get key (page_params params (Z.of_nat i + 1))
              = dict_get key params.
Proof.
  destruct (paginate_requests server self e params 10 0 [] w) as [n [Hn Hs]];
    try lia.
  exists n. split; [lia|]. split; [exact Hs|].
  intros i. unfold page_params. repeat split.
  - apply PaginationProps.dict_get_set.
  - rewrite dict_get_set_other by discriminate. apply PaginationProps.dict_get_set.
  - intros key H1 H2. now rewrite !dict_get_set_other.
Qed.

End FetchProps.

(** ** The requests of a collection *)

Module BudgetProps.

Import Metrics MetricsExt.

Section Sends.

Variable P : Request -> Prop.

Lemma sends_pure {A} (c : M A) :
  (forall w, sent (snd (c w)) = sent w) -> sends P 0 0 c.
Proof.
  intros H w. exists []. rewrite H, app_nil_r.
  repeat split; auto.
Qed.

Lemma sends_weaken {A} (lo lo' hi hi' : nat) (c : M A) :
  sends P lo hi c -> (lo' <= lo)%nat -> (hi <= hi')%nat -> sends P lo' hi' c.
Proof.
  intros H Hlo Hhi w. destruct (H w) as [rs [Hs [HP [Hl Hok]]]].
  exists rs. repeat split; auto; try lia. intros Hr. specialize (Hok Hr). lia.
Qed.

Lemma sends_bind {A B} (lo1 hi1 lo2 hi2 : nat) (c : M A) (k : A -> M B) :
  sends P lo1 hi1 c -> (forall a, sends P lo2 hi2 (k a)) ->
  sends P (lo1 + lo2) (hi1 + hi2) (bind c k).
Proof.
  intros Hc Hk w. unfold bind.
  destruct (Hc w) as [rs1 [Hs1 [HP1 [Hl1 Hok1]]]].
  destruct (c w) as [[a|e] w1]; cbn [fst snd] in *.
  - destruct (Hk a w1) as [rs2 [Hs2 [HP2 [Hl2 Hok2]]]].
    exists (rs1 ++ rs2)%list. rewrite Hs2, Hs1, app_assoc, length_app.
    repeat split; auto.
    + now apply Forall_app.
    + lia.
    + intros Hr. specialize (Hok1 eq_refl). specialize (Hok2 Hr). lia.
  - exists rs1. repeat split; auto; [lia|discriminate].
Qed.

End Sends.

Section Collector.

Variable server : nat -> forall q : Request, Reply (list (item (target q))).
Variable clock : nat -> datetime.
Variable fromisoformat : string -> option datetime.
Variable strftime_ymd : datetime -> string.
Variable str_lower : string -> string.
Variable isoformat : datetime -> string.
Variable py_sum : list float -> float.
Variable self : GitHubMetricsCollector.

Lemma sends__get_paginated (e : endpoint) (params : dict) :
  sends (built_by self) 1 10 (_get_paginated server self e params).
Proof.
  intros w.
  destruct (FetchProps.paginate_requests server self e params 10 0 [] w)
    as [n [Hn Hs]]; try lia.
  unfold _get_paginated. fold (page_params params 1).
  change (Z.of_nat 0 + 1) with 1 in Hs. rewrite Hs.
  eexists. split; [reflexivity|]. rewrite length_map, length_seq.
  split; [|split; [lia|intros _; lia]].
  apply Forall_forall. intros q Hq. apply in_map_iff in Hq.
  destruct Hq as [i [<- _]]. unfold built_by, request_for, page_params.
  cbn [url headers target Metrics.params]. repeat split.
  rewrite FetchProps.dict_get_set_other by discriminate.
  apply PaginationProps.dict_get_set.
Qed.

Ltac sends_pure_tac :=
  apply sends_pure; intros w; reflexivity.

Lemma sends__get_window_start :
  sends (built_by self) 0 0 (_get_window_start clock self).
Proof.
  apply sends_pure. intros w. unfold _get_window_start, bind, now, lift.
  cbn [fst snd]. reflexivity.
Qed.

Lemma sends_lift {A} (r : result A) : sends (built_by self) 0 0 (lift r).
Proof. sends_pure_tac. Qed.

Lemma sends_ret {A} (a : A) : sends (built_by self) 0 0 (ret a).
Proof. sends_pure_tac. Qed.

Lemma sends_get_workflow_runs (workflow_name : string) :
  sends (built_by self) 1 10
    (get_workflow_runs server clock strftime_ymd str_lower self workflow_name).
Proof.
  unfold get_workflow_runs.
  apply (sends_bind _ 0 0 1 10); [apply sends__get_window_start|intros ws].
  apply (sends_weaken _ (1 + 0) 1 (10 + 0) 10); try lia.
  apply sends_bind; [apply sends__get_paginated|intros; apply sends_ret].
Qed.

Lemma sends_runs_then {A} (workflow_name : string)
    (f : list WorkflowRun -> result A) :
  sends (built_by self) 1 10
    (bind (get_workflow_runs server clock strftime_ymd str_lower self workflow_name)
       (fun runs => lift (f runs))).
Proof.
  apply (sends_weaken _ (1 + 0) 1 (10 + 0) 10); try lia.
  apply sends_bind; [apply sends_get_workflow_runs|intros; apply sends_lift].
Qed.

Lemma sends_collect_pr_metrics :
  sends (built_by self) 1 10
    (collect_pr_metrics server clock fromisoformat py_sum self).
Proof.
  unfold collect_pr_metrics.
  apply (sends_weaken _ (1 + (0 + 0)) 1 (10 + (0 + 0)) 10); try lia.
  apply sends_bind; [apply sends__get_paginated|intros prs].
  apply sends_bind; [apply sends__get_window_start|intros; apply sends_lift].
Qed.

Lemma sends_collect_dependabot_metrics :
  sends (built_by self) 2 20
    (collect_dependabot_metrics server clock fromisoformat self).
Proof.
  unfold collect_dependabot_metrics.
  apply (sends_weaken _ (0 + (1 + (0 + (1 + (0 + 0))))) 2
           (0 + (10 + (0 + (10 + (0 + 0))))) 20); try lia.
  apply sends_bind; [apply sends__get_window_start|intros ws].
  apply sends_bind; [apply sends__get_paginated|intros open_prs].
  apply sends_bind; [apply sends_lift|intros dependabot_open].
  apply sends_bind; [apply sends__get_paginated|intros closed_prs].
  apply sends_bind; [apply sends_lift|intros; apply sends_ret].
Qed.

(** One collection: at most 70 requests, at least 7 when it returns the
    report, all built by the collector. *)
Lemma sends_collect_all_metrics :
  sends (built_by self) 7 70
    (collect_all_metrics server clock fromisoformat strftime_ymd str_lower isoformat
       py_sum self).
Proof.
  unfold collect_all_metrics.
  apply (sends_weaken _ (0 + (1 + (1 + (1 + (1 + (1 + (2 + 0))))))) 7
           (0 + (10 + (10 + (10 + (10 + (10 + (20 + 0))))))) 70); try lia.
  apply sends_bind; [apply sends_pure; intros w; reflexivity|intros t].
  apply sends_bind; [apply sends_runs_then|intros d].
  apply sends_bind; [apply sends_collect_pr_metrics|intros p].
  apply sends_bind; [apply sends_runs_then|intros c].
  apply sends_bind; [apply sends_runs_then|intros dd].
  apply sends_bind; [apply sends_runs_then|intros s].
  apply sends_bind; [apply sends_collect_dependabot_metrics|intros; apply sends_ret].
Qed.

End Collector.

Section Main.

Variable server : nat -> forall q : Request, Reply (list (item (target q))).
Variable clock : nat -> datetime.
Variable environ : string -> option string.
Variable fromisoformat : string -> option datetime.
Variable strftime_ymd : datetime -> string.
Variable str_lower : string -> string.
Variable isoformat : datetime -> string.
Variable py_int : string -> option Z.
Variable py_sum : list float -> float.
Variable json_dumps : Report -> string.

Local Abbreviation run_main :=
  (main server clock environ fromisoformat strftime_ymd str_lower isoformat py_int
     py_sum json_dumps).

(** The requests of one run of [main]. *)
Lemma main_requests (w : World) :
  exists rs : list Request,
    sent (snd (run_main w)) = (sent w ++ rs)%list
    /\ (List.length rs <= 70)%nat
    /\ (is_ok (fst (run_main w)) = true -> (7 <= List.length rs)%nat)
    /\ Forall
         (fun q =>
            url q = "https://api.github.com"
                    ++ path (environ_get environ "GITHUB_REPOSITORY" "") (target q)
            /\ headers q
               = [("Authorization", "Bearer " ++ environ_get environ "GITHUB_TOKEN" "");
                  ("Accept", "application/vnd.github+json");
                  ("X-GitHub-Api-Version", "2022-11-28")]
            /\ dict_get "per_page" (params q) = Some (PInt 100))
         rs.
Proof.
  rewrite PropagationProps.main_unfold. unfold init.
  destruct (py_int _) as [days|]; cbn [raise ret].
  2:{ exists []. rewrite app_nil_r. repeat split; auto; simpl; [lia|discriminate]. }
  set (self := {| token := _ |}).
  destruct (sends_collect_all_metrics server clock fromisoformat strftime_ymd str_lower
              isoformat py_sum self w) as [rs [Hs [HP [Hl Hok]]]].
  destruct (collect_all_metrics _ _ _ _ _ _ _ self w) as [[metrics|e] w1];
    cbn [fst snd sent] in *; exists rs; repeat split; auto.
Qed.

(** X14.  A run of [main] sends at most 70 requests, and at least 7 when it
    ends without error. *)
Theorem main_request_budget (w : World) :
  (List.length (sent (snd (run_main w))) <= List.length (sent w) + 70)%nat
  /\ (List.length (sent w) <= List.length (sent (snd (run_main w))))%nat
  /\ (fst (run_main w) = Ok tt ->
      (List.length (sent w) + 7 <= List.length (sent (snd (run_main w))))%nat).
Proof.
  destruct (main_requests w) as [rs [Hs [Hl [Hok _]]]].
  rewrite Hs, length_app. repeat split; try lia.
  intros Hr. rewrite Hr in Hok. specialize (Hok eq_refl). lia.
Qed.

(** X15.  Every request that a run of [main] sends goes to the API of the
    repository named in the environment, carries the bearer token of the
    environment, and asks for pages of 100. *)
Theorem main_requests_are_authorised (w : World) (i : nat) (q : Request) :
  nth_error (sent (snd (run_main w))) i = Some q ->
  (List.length (sent w) <= i)%nat ->
  url q = "https://api.github.com"
          ++ path (environ_get environ "GITHUB_REPOSITORY" "") (target q)
  /\ In ("Authorization", "Bearer " ++ environ_get environ "GITHUB_TOKEN" "")
        (headers q)
  /\ dict_get "per_page" (params q) = Some (PInt 100).
Proof.
  intros Hq Hi.
  destruct (main_requests w) as [rs [Hs [_ [_ HP]]]].
  rewrite Hs, nth_error_app2 in Hq by exact Hi.
  apply nth_error_In in Hq. rewrite Forall_forall in HP.
  destruct (HP q Hq) as [Hu [Hh Hp]]. repeat split; auto.
  rewrite Hh. now left.
Qed.

End Main.

Lemma main_requests_are_authorised_witness :
  let q := request_for
             {| token := ""; repo := ""; window_days := 30;
                base_url := "https://api.github.com";
                headers_ := [("Authorization", "Bearer ");
                             ("Accept", "application/vnd.github+json");
                             ("X-GitHub-Api-Version", "2022-11-28")] |}
             ActionsRuns
             (page_params [("created", PStr ">=2024-01-31")] 1) in
  url q = "https://api.github.com" ++ path (environ_get Run.environ "GITHUB_REPOSITORY" "") (target q)
  /\ In ("Authorization", "Bearer " ++ environ_get Run.environ "GITHUB_TOKEN" "")
        (headers q)
  /\ dict_get "per_page" (params q) = Some (PInt 100).
Proof.
  intros q.
  apply (main_requests_are_authorised (Run.failing_at 2 503) Run.clock Run.environ
           Run.fromisoformat (fun _ => "2024-01-31") lower
           (fun _ => "2024-03-01T12:00:00+00:00") Run.py_int Run.py_sum
           (fun _ => "{}") initial_world 0 q).
  - vm_compute. reflexivity.
  - simpl. lia.
Defined.

End BudgetProps.

(** ** What a run of [main] writes *)

Module ReportProps.

Import Metrics.

Section Main.

Variable server : nat -> forall q : Request, Reply (list (item (target q))).
Variable clock : nat -> datetime.
Variable environ : string -> option string.
Variable fromisoformat : string -> option datetime.
Variable strftime_ymd : datetime -> string.
Variable str_lower : string -> string.
Variable isoformat : datetime -> string.
Variable py_int : string -> option Z.
Variable py_sum : list float -> float.
Variable json_dumps : Report -> string.

Local Abbreviation run_main :=
  (main server clock environ fromisoformat strftime_ymd str_lower isoformat py_int
     py_sum json_dumps).
Local Abbreviation collect :=
  (collect_all_metrics server clock fromisoformat strftime_ymd str_lower isoformat
     py_sum).

(** The head of the report: the time of the first clock read, and the
    window and repository of the collector. *)
Lemma report_head (self : GitHubMetricsCollector) (w w1 : World)
    (metrics : Report) :
  collect self w = (Ok metrics, w1) ->
  generated_at metrics = isoformat (clock (clock_reads w))
  /\ window_days_ metrics = window_days self
  /\ repository metrics = repo self.
Proof.
  unfold collect_all_metrics, bind, now, ret.
  repeat match goal with
         | |- context [match ?c ?x with pair _ _ => _ end] =>
             destruct (c x) as [[?|?] ?]
         end; intros H; try discriminate H.
  injection H as <- _. repeat split.
Qed.

(** X16.  When [main] ends without error it has made the directory [site],
    written the report it collected to [site/metrics.json] as the text
    [json.dumps] gives for it, and printed a notice and the same text; it
    has written nothing else.  The report is stamped with the first clock
    read and names the repository of the environment.  A window length
    that [int] rejects ends the run with [ValueError] before anything is
    sent or written. *)
Theorem main_writes_the_collected_report (w : World) :
  (fst (run_main w) = Ok tt ->
   exists self metrics w1,
     init environ py_int w = (Ok self, w)
     /\ collect self w = (Ok metrics, w1)
     /\ generated_at metrics = isoformat (clock (clock_reads w))
     /\ repository metrics = environ_get environ "GITHUB_REPOSITORY" ""
     /\ Some (window_days_ metrics)
        = py_int (environ_get environ "METRICS_WINDOW_DAYS" "30")
     /\ dirs (snd (run_main w)) = (dirs w ++ ["site"])%list
     /\ files (snd (run_main w))
        = (files w ++ [("site/metrics.json", json_dumps metrics)])%list
     /\ printed (snd (run_main w))
        = (printed w
           ++ ["Metrics collected and written to site/metrics.json";
               json_dumps metrics])%list)
  /\ (py_int (environ_get environ "METRICS_WINDOW_DAYS" "30") = None ->
      run_main w = (Raise ValueError, w)).
Proof.
  rewrite PropagationProps.main_unfold. split.
  - unfold init.
    destruct (py_int (environ_get environ "METRICS_WINDOW_DAYS" "30"))
      as [days|] eqn:Hdays; cbn [raise ret]; [|discriminate].
    set (self := {| token := _ |}).
    destruct (PropagationProps.propagates_collect_all_metrics server self clock
                fromisoformat strftime_ymd str_lower isoformat py_sum w)
      as [[_ [Hd [Hf Hp]]] _].
    destruct (collect_all_metrics _ _ _ _ _ _ _ self w) as [[metrics|e] w1]
      eqn:Hcol; cbn [fst snd dirs files printed] in *; [|discriminate].
    intros _. exists self, metrics, w1.
    destruct (report_head self w w1 metrics Hcol) as [Hg [Hw Hr]].
    rewrite Hd, Hf, Hp, Hg, Hr, Hw. repeat split. exact Hcol.
  - intros H. unfold init. rewrite H. reflexivity.
Qed.

End Main.

Lemma main_writes_the_collected_report_witness :
  files (snd (Metrics.main
                (Run.full_pages 0 (Run.run_at None "")
                   {| pr_created_at := ""; merged_at := None;
                      user := UserAbsent |})
                Run.clock Run.environ Run.fromisoformat
                (fun _ => "2024-01-31") lower (fun _ => "2024-03-01T12:00:00+00:00")
                Run.py_int Run.py_sum (fun _ => "{}") initial_world))
  = [("site/metrics.json", "{}")].
Proof.
  destruct (proj1 (main_writes_the_collected_report
              (Run.full_pages 0 (Run.run_at None "")
                 {| pr_created_at := ""; merged_at := None;
                    user := UserAbsent |})
              Run.clock Run.environ Run.fromisoformat
              (fun _ => "2024-01-31") lower (fun _ => "2024-03-01T12:00:00+00:00")
              Run.py_int Run.py_sum (fun _ => "{}") initial_world))
    as [self [metrics [w1 [_ [_ [_ [_ [_ [_ [Hf _]]]]]]]]]].
  - vm_compute. reflexivity.
  - exact Hf.
Defined.

End ReportProps.

(** ** How the aggregations relate *)

Module AggregationProps.

Import Metrics MetricsExt.

Section Aggregations.

Variable fromisoformat : string -> option datetime.
Variable py_sum : list float -> float.

Lemma durations_of_filter (keep : WorkflowRun -> bool) (runs : list WorkflowRun) :
  durations_of fromisoformat keep runs
  = durations_of fromisoformat (fun _ => true) (List.filter keep runs).
Proof.
  induction runs as [|run rest IH]; simpl; [reflexivity|].
  destruct (keep run) eqn:Hk; simpl.
  - rewrite !andb_true_r.
    destruct (truthy_str (run_started_at run) && truthy_str (updated_at run));
      [|exact IH].
    now rewrite IH.
  - rewrite andb_false_r. exact IH.
Qed.

Lemma filter_idem {A} (p : A -> bool) (l : list A) :
  List.filter p (List.filter p l) = List.filter p l.
Proof.
  induction l as [|x l IH]; simpl; [reflexivity|].
  destruct (p x) eqn:E; simpl; [rewrite E, IH; reflexivity|exact IH].
Qed.

(** X17.  The deploy durations are the durations [collect_ci_metrics] would
    take of the successful runs alone; runs that did not succeed have no
    part in the deploy average, not even through a timestamp that cannot be
    read. *)
Theorem deploy_durations_are_those_of_successes (cd_runs : list WorkflowRun) :
  durations_of fromisoformat (conclusion_is "success") cd_runs
  = durations_of fromisoformat (fun _ => true)
      (List.filter (conclusion_is "success") cd_runs)
  /\ deploy_duration_metrics fromisoformat py_sum cd_runs
     = deploy_duration_metrics fromisoformat py_sum
         (List.filter (conclusion_is "success") cd_runs)
  /\ forall ci : CiMetrics,
       ci_metrics fromisoformat py_sum
         (List.filter (conclusion_is "success") cd_runs) = Ok ci ->
       deploy_duration_metrics fromisoformat py_sum cd_runs
       = Ok {| deploy_avg_duration_minutes := ci_avg_duration_minutes ci |}.
Proof.
  split; [apply durations_of_filter|]. split.
  - unfold deploy_duration_metrics.
    rewrite (durations_of_filter _ (List.filter _ _)), filter_idem.
    now rewrite durations_of_filter.
  - intros ci. unfold ci_metrics, deploy_duration_metrics, rbind.
    rewrite (durations_of_filter (conclusion_is "success") cd_runs).
    destruct (percent _ _); [|discriminate].
    destruct (durations_of _ _ _) as [ds|]; [|discriminate].
    destruct (average _ _) as [avg|]; [|discriminate].
    now intros [= <-].
Qed.

(** The comprehension of [collect_pr_metrics] keeps the pull requests that
    satisfy [merged_since], in their order. *)
Lemma merged_in_window_filter (window_start : datetime)
    (prs merged_prs : list PullRequest) :
  merged_in_window fromisoformat window_start prs = Ok merged_prs ->
  merged_prs = List.filter (merged_since fromisoformat window_start) prs.
Proof.
  revert merged_prs.
  induction prs as [|pr prs IH]; simpl; intros merged_prs.
  - now intros [= <-].
  - unfold merged_since at 1.
    destruct (truthy_str (merged_at pr)); simpl; [|apply IH].
    unfold rbind.
    destruct (parse_field fromisoformat (merged_at pr)) as [t|]; [|discriminate].
    destruct (merged_in_window _ _ prs) as [rest|]; [|discriminate].
    intros [= <-]. rewrite <- (IH rest eq_refl).
    now destruct (t >=? window_start).
Qed.

(** It can only fail on a [merged_at] that is set and cannot be read. *)
Lemma merged_in_window_ok (window_start : datetime) (prs : list PullRequest) :
  Forall (fun pr => truthy_str (merged_at pr) = true ->
                    is_ok (parse_field fromisoformat (merged_at pr)) = true) prs ->
  merged_in_window fromisoformat window_start prs
  = Ok (List.filter (merged_since fromisoformat window_start) prs).
Proof.
  induction 1 as [|pr prs Hpr _ IH]; simpl; [reflexivity|].
  unfold merged_since at 1.
  destruct (truthy_str (merged_at pr)); simpl; [|exact IH].
  specialize (Hpr eq_refl).
  destruct (parse_field fromisoformat (merged_at pr)) as [t|]; [|discriminate].
  simpl. rewrite IH. simpl. now destruct (t >=? window_start).
Qed.

Lemma count_dependabot_merged_filter (window_start : datetime)
    (prs merged_prs : list PullRequest) :
  merged_in_window fromisoformat window_start prs = Ok merged_prs ->
  count_dependabot_merged fromisoformat window_start prs
  = if existsb user_is_null prs then Raise AttributeError
    else Ok (count_if by_dependabot merged_prs).
Proof.
  revert merged_prs.
  induction prs as [|pr prs IH]; intros merged_prs; cbn [merged_in_window].
  - now intros [= <-].
  - cbn [count_dependabot_merged existsb].
    unfold is_dependabot, user_is_null at 1, rbind.
    destruct (truthy_str (merged_at pr)) eqn:Ht.
    + destruct (parse_field fromisoformat (merged_at pr)) as [t|]; [|discriminate].
      destruct (merged_in_window _ _ prs) as [rest|]; [|discriminate].
      intros [= <-]. specialize (IH rest eq_refl).
      assert (Hcount : forall d : bool,
                by_dependabot pr = d ->
                count_if by_dependabot (if t >=? window_start then pr :: rest else rest)
                = if d && (t >=? window_start) then S (count_if by_dependabot rest)
                  else count_if by_dependabot rest).
      { intros d Hd. unfold count_if. destruct (t >=? window_start); simpl;
          [rewrite Hd; destruct d; reflexivity|now rewrite andb_false_r]. }
      specialize (Hcount _ eq_refl). rewrite Hcount. unfold by_dependabot.
      destruct (user pr) as [| |[login|]]; cbn [orb andb]; try reflexivity;
        try destruct (String.eqb login "dependabot[bot]"); cbn [andb];
        rewrite IH; destruct (existsb user_is_null prs); try reflexivity;
        now destruct (t >=? window_start).
    + intros Hm. specialize (IH merged_prs Hm).
      destruct (user pr) as [| |[login|]]; cbn [orb andb]; try reflexivity;
        rewrite ?andb_false_r; exact IH.
Qed.

(** X18.  [pr_throughput] counts the pull requests of the fetched list whose
    [merged_at] is set and lies in the window; with none of them, both
    lead times are [None].  On the same list and window, the sum of
    [collect_dependabot_metrics] over the closed pull requests raises
    [AttributeError] exactly when the list holds a pull request whose
    [user] is [null], and raises nothing else; when it returns, its value
    is the number of Dependabot pull requests among those the throughput
    counts, so it never exceeds the throughput. *)
Theorem pr_throughput_counts_merged_in_window (window_start : datetime)
    (prs : list PullRequest) (m : PrMetrics) :
  pr_metrics fromisoformat py_sum window_start prs = Ok m ->
  pr_throughput m = count_if (merged_since fromisoformat window_start) prs
  /\ (pr_throughput m <= List.length prs)%nat
  /\ (pr_throughput m = 0%nat ->
      pr_lead_time_avg_hours m = None /\ pr_lead_time_median_hours m = None)
  /\ (forall n : nat,
        count_dependabot_merged fromisoformat window_start prs = Ok n ->
        n = count_if (fun pr => by_dependabot pr
                                && merged_since fromisoformat window_start pr) prs
        /\ (n <= pr_throughput m)%nat)
  /\ (forall e : exn,
        count_dependabot_merged fromisoformat window_start prs = Raise e ->
        e = AttributeError)
  /\ (is_ok (count_dependabot_merged fromisoformat window_start prs) = false
      <-> exists pr, In pr prs /\ user pr = UserNull).
Proof.
  unfold pr_metrics, rbind.
  destruct (merged_in_window _ _ prs) as [merged_prs|] eqn:Hm; [|discriminate].
  pose proof (merged_in_window_filter _ _ _ Hm) as Hf.
  pose proof (count_dependabot_merged_filter _ _ _ Hm) as Hc.
  destruct (lead_times_of _ merged_prs) as [lead_times|] eqn:Hl; [|discriminate].
  destruct (average _ lead_times) as [avg|] eqn:Ha; [|discriminate].
  intros [= <-]. cbn [pr_throughput pr_lead_time_avg_hours pr_lead_time_median_hours].
  assert (Hnull : existsb user_is_null prs = true
                  <-> exists pr, In pr prs /\ user pr = UserNull).
  { rewrite existsb_exists. unfold user_is_null.
    split; intros [pr [Hin Hu]]; exists pr; split; auto;
      destruct (user pr); congruence. }
  split; [now rewrite Hf|]. split; [|split; [|split; [|split]]].
  - rewrite Hf. apply filter_length_le.
  - intros H0. destruct merged_prs; [|discriminate H0].
    simpl in Hl. injection Hl as <-. simpl in Ha. injection Ha as <-.
    split; reflexivity.
  - intros n. rewrite Hc. destruct (existsb user_is_null prs); [discriminate|].
    intros [= <-]. split.
    + rewrite Hf. unfold count_if. clear.
      induction prs as [|pr prs IH]; simpl; [reflexivity|].
      destruct (merged_since _ _ pr); simpl.
      * rewrite andb_true_r. destruct (by_dependabot pr); simpl; now rewrite IH.
      * rewrite andb_false_r. exact IH.
    + unfold count_if. apply filter_length_le.
  - intros e. rewrite Hc. destruct (existsb user_is_null prs); [|discriminate].
    now intros [= <-].
  - rewrite <- Hnull, Hc. destruct (existsb user_is_null prs); simpl;
      split; congruence.
Qed.

End Aggregations.

Lemma pr_throughput_counts_merged_in_window_witness :
  let prs :=
    [{| pr_created_at := "2024-02-01T00:00:00Z";
        merged_at := Some "2024-02-02T00:00:00Z";
        user := User (Some "dependabot[bot]") |};
     {| pr_created_at := "2024-02-01T00:00:00Z"; merged_at := None;
        user := User (Some "alice") |}] in
  exists m,
    pr_metrics Run.fromisoformat Run.py_sum 0 prs = Ok m
    /\ pr_throughput m = count_if (merged_since Run.fromisoformat 0) prs.
Proof.
  intros prs. eexists. split; [vm_compute; reflexivity|].
  apply (pr_throughput_counts_merged_in_window Run.fromisoformat Run.py_sum 0 prs).
  vm_compute. reflexivity.
Defined.

End AggregationProps.

(** ** The order of the runs *)

Module OrderProps.

Import Metrics MetricsExt.

Section ByString.

Context {A : Type} (key : A -> string).

(** The head of the stable descending sort: the first element of the list
    with the greatest key. *)
Lemma sorted_descending_head (l : list A) :
  match sorted gtb key l with
  | [] => l = []
  | h :: _ =>
      exists pre post,
        l = (pre ++ h :: post)%list
        /\ (forall r, In r pre -> String.ltb (key r) (key h) = true)
        /\ (forall r, In r post -> String.ltb (key h) (key r) = false)
  end.
Proof.
  induction l as [|x l IH]; simpl; [reflexivity|].
  destruct (sorted gtb key l) as [|h s] eqn:Hs.
  - subst l. simpl. exists [], []. repeat split; intros r [].
  - destruct IH as [pre [post [Hl [Hpre Hpost]]]]. simpl. unfold gtb at 1.
    destruct (String.ltb (key x) (key h)) eqn:Hxh.
    + exists (x :: pre), post. rewrite Hl. repeat split; auto.
      intros r [<-|Hr]; auto.
    + exists [], l. repeat split; [intros r []|].
      intros r Hr. rewrite Hl in Hr. apply in_app_or in Hr.
      apply (SortedProps.string_ltb_negtrans (key r) (key h) (key x) I I I);
        [|exact Hxh].
      destruct Hr as [Hr|[<-|Hr]].
      * apply SortedProps.string_ltb_asym; auto.
      * destruct (String.ltb (key h) (key h)) eqn:E; [|reflexivity].
        now rewrite (SortedProps.string_ltb_asym _ _ I I E) in E.
      * now apply Hpost.
Qed.

Variable p : A -> bool.

Lemma insert_sorted_head (x : A) (l : list A) :
  Forall (before String.ltb key x) l ->
  insert_sorted String.ltb key x l = x :: l.
Proof.
  destruct 1 as [|y l Hy _]; simpl; [reflexivity|].
  unfold before in Hy. now rewrite Hy.
Qed.

Lemma filter_insert_sorted_keep (x : A) (l : list A) :
  StronglySorted (before String.ltb key) l -> p x = true ->
  List.filter p (insert_sorted String.ltb key x l)
  = insert_sorted String.ltb key x (List.filter p l).
Proof.
  intros Hs Hx. induction Hs as [|y l Hl IH Hy]; simpl; [now rewrite Hx|].
  destruct (String.ltb (key y) (key x)) eqn:Hyx; simpl.
  - destruct (p y); simpl; [rewrite Hyx|]; now rewrite IH.
  - rewrite Hx. destruct (p y); simpl; [now rewrite Hyx|].
    symmetry. apply insert_sorted_head.
    apply Forall_forall. intros z Hz. apply filter_In in Hz. destruct Hz as [Hz _].
    rewrite Forall_forall in Hy. unfold before in *.
    apply (SortedProps.string_ltb_negtrans (key x) (key y) (key z) I I I); auto.
Qed.

Lemma filter_insert_sorted_drop (x : A) (l : list A) :
  p x = false ->
  List.filter p (insert_sorted String.ltb key x l) = List.filter p l.
Proof.
  intros Hx. induction l as [|y l IH]; simpl; [now rewrite Hx|].
  destruct (String.ltb (key y) (key x)); simpl.
  - now rewrite IH.
  - now rewrite Hx.
Qed.

(** Sorting by a string key and filtering commute. *)
Lemma filter_sorted (l : list A) :
  List.filter p (sorted String.ltb key l) = sorted String.ltb key (List.filter p l).
Proof.
  induction l as [|x l IH]; simpl; [reflexivity|].
  destruct (p x) eqn:Hx; simpl.
  - rewrite filter_insert_sorted_keep, IH; auto.
    apply SortedProps.sorted_by_string.
  - now rewrite filter_insert_sorted_drop.
Qed.

End ByString.

Section Runs.

Variable fromisoformat : string -> option datetime.
Variable py_sum : list float -> float.

(** X19.  [collect_security_metrics] reports the conclusion of the latest run:
    no run of the list was created later by the order of the [created_at]
    strings, and every run listed before it was created strictly earlier.
    With no run it reports [None]. *)
Theorem security_last_conclusion_is_of_latest_run
    (security_runs : list WorkflowRun) (m : SecurityMetrics) :
  security_metrics security_runs = Ok m ->
  match security_runs with
  | [] => security_last_conclusion m = None
  | _ :: _ =>
      exists pre latest post,
        security_runs = (pre ++ latest :: post)%list
        /\ security_last_conclusion m = conclusion latest
        /\ (forall r, In r pre ->
              String.ltb (created_at r) (created_at latest) = true)
        /\ (forall r, In r post ->
              String.ltb (created_at latest) (created_at r) = false)
  end.
Proof.
  unfold security_metrics, rbind.
  destruct (percent _ _); [|discriminate]. intros [= <-].
  cbn [security_last_conclusion].
  pose proof (sorted_descending_head created_at security_runs) as H.
  change (fun k1 k2 : string => String.ltb k2 k1) with gtb.
  destruct (sorted gtb created_at security_runs) as [|h s].
  - now rewrite H.
  - destruct H as [pre [post [Hl [Hpre Hpost]]]].
    destruct security_runs as [|r0 rs]; [now destruct pre|].
    exists pre, h, post. auto.
Qed.

Lemma next_success_decided (run : WorkflowRun) (later : list WorkflowRun) :
  next_success fromisoformat run (List.filter decided later)
  = next_success fromisoformat run later.
Proof.
  induction later as [|r later IH]; simpl; [reflexivity|]. unfold decided at 1.
  destruct (conclusion_is "success" r) eqn:Es.
  - rewrite orb_true_r. simpl. now rewrite Es.
  - rewrite orb_false_r. destruct (conclusion_is "failure" r); simpl;
      [rewrite Es|]; exact IH.
Qed.

Lemma first_recovery_decided (l : list WorkflowRun) :
  first_recovery fromisoformat (List.filter decided l)
  = first_recovery fromisoformat l.
Proof.
  induction l as [|r l IH]; simpl; [reflexivity|]. unfold decided at 1.
  destruct (conclusion_is "failure" r) eqn:Ef; simpl.
  - rewrite Ef, next_success_decided, IH. reflexivity.
  - destruct (conclusion_is "success" r); simpl; [rewrite Ef|]; exact IH.
Qed.

Lemma count_if_decided (c : string) (l : list WorkflowRun) :
  c = "failure" \/ c = "success" ->
  count_if (conclusion_is c) (List.filter decided l) = count_if (conclusion_is c) l.
Proof.
  intros Hc. unfold count_if. induction l as [|r l IH]; simpl; [reflexivity|].
  unfold decided at 1.
  destruct (conclusion_is "failure" r) eqn:Ef;
    destruct (conclusion_is "success" r) eqn:Es; simpl;
    destruct Hc as [-> | ->]; rewrite ?Ef, ?Es; simpl; now rewrite IH.
Qed.

(** X20.  Runs that neither failed nor succeeded have no part in the recovery
    time nor in the two counts: leaving them out of the list changes
    neither (it changes the total, and with it the rate). *)
Theorem mttr_ignores_undecided_runs (cd_runs : list WorkflowRun) :
  mttr_proxy fromisoformat (List.filter decided cd_runs)
  = mttr_proxy fromisoformat cd_runs
  /\ forall d d' : DoraMetrics,
       dora_metrics fromisoformat cd_runs = Ok d ->
       dora_metrics fromisoformat (List.filter decided cd_runs) = Ok d' ->
       mttr_hours d' = mttr_hours d
       /\ deployments_successful d' = deployments_successful d
       /\ deployments_failed d' = deployments_failed d
       /\ (deployments_total d' <= deployments_total d)%nat.
Proof.
  assert (Hm : mttr_proxy fromisoformat (List.filter decided cd_runs)
               = mttr_proxy fromisoformat cd_runs).
  { unfold mttr_proxy. rewrite <- filter_sorted. apply first_recovery_decided. }
  split; [exact Hm|]. intros d d'. unfold dora_metrics, rbind. rewrite Hm.
  destruct (percent _ (List.length cd_runs)); [|discriminate].
  destruct (percent _ (List.length (List.filter _ _))); [|discriminate].
  destruct (mttr_proxy fromisoformat cd_runs); [|discriminate].
  intros [= <-] [= <-]. simpl.
  rewrite !count_if_decided by auto. repeat split. apply filter_length_le.
Qed.

End Runs.

Lemma security_last_conclusion_is_of_latest_run_witness :
  exists m,
    security_metrics
      [Run.run_at (Some "failure") "2024-01-01T00:00:00Z";
       Run.run_at (Some "success") "2024-01-02T00:00:00Z"] = Ok m
    /\ exists pre latest post,
         [Run.run_at (Some "failure") "2024-01-01T00:00:00Z";
          Run.run_at (Some "success") "2024-01-02T00:00:00Z"]
         = (pre ++ latest :: post)%list
         /\ security_last_conclusion m = conclusion latest
         /\ (forall r, In r pre ->
               String.ltb (created_at r) (created_at latest) = true)
         /\ (forall r, In r post ->
               String.ltb (created_at latest) (created_at r) = false).
Proof.
  eexists. split; [vm_compute; reflexivity|].
  apply (security_last_conclusion_is_of_latest_run
           [Run.run_at (Some "failure") "2024-01-01T00:00:00Z";
            Run.run_at (Some "success") "2024-01-02T00:00:00Z"]).
  vm_compute. reflexivity.
Defined.

End OrderProps.

(** ** Signs and ranks *)

Module SignProps.

Import Metrics MetricsExt.

Lemma round_aux_unsigned (mx ex : Z) (lx : location) :
  unsigned (binary_round_aux F64.prec F64.emax false mx ex lx) = true.
Proof.
  unfold binary_round_aux.
  destruct (shr_fexp _ _ mx ex lx) as [mrs' e'].
  destruct (shr_fexp _ _ _ e' loc_Exact) as [mrs'' e''].
  destruct (shr_m mrs''); [reflexivity| |reflexivity].
  destruct (e'' <=? F64.emax - F64.prec); reflexivity.
Qed.

Lemma div_unsigned (x y : float) :
  unsigned x = true -> unsigned y = true -> unsigned (F64.div x y) = true.
Proof.
  destruct x as [[|]|[|]| |[|] mx ex]; try discriminate;
    destruct y as [[|]|[|]| |[|] my ey]; try discriminate;
    intros _ _; try reflexivity.
  unfold F64.div, SFdiv. cbn [xorb].
  destruct (SFdiv_core_binary _ _ _ _ _ _) as [[mz ez] lz].
  apply round_aux_unsigned.
Qed.

Lemma of_Z_unsigned (z : Z) : 0 <= z -> unsigned (F64.of_Z z) = true.
Proof.
  intros Hz. unfold F64.of_Z, binary_normalize.
  destruct z as [|p|p]; [reflexivity| |lia].
  unfold binary_round. destruct (shl_align _ _ _) as [mz ez].
  apply round_aux_unsigned.
Qed.

Lemma int_truediv_unsigned (a b : Z) (q : float) :
  0 <= a -> 0 < b -> F64.int_truediv a b = Ok q -> unsigned q = true.
Proof.
  intros Ha Hb. unfold F64.int_truediv.
  destruct (b =? 0); [discriminate|].
  replace (a <? 0) with false by (symmetry; apply Z.ltb_ge; lia).
  replace (b <? 0) with false by (symmetry; apply Z.ltb_ge; lia).
  cbn [xorb].
  destruct (Z.abs a) as [|ma|ma]; try (now intros [= <-]).
  destruct (F64.is_infinite _); [discriminate|]. intros [= <-].
  apply (div_unsigned (S754_finite false ma 0)
           (S754_finite false (Z.to_pos (Z.abs b)) 0)); reflexivity.
Qed.

Lemma round2_unsigned (x : float) :
  unsigned x = true -> unsigned (F64.round2 x) = true.
Proof.
  destruct x as [s|s| |s m e]; cbn [F64.round2]; auto. intros Hs.
  destruct (F64.hundredths m e) as [|n|n]; auto.
  apply (div_unsigned (S754_finite s n 0) (S754_finite false 100 0)); auto.
Qed.

Lemma unsigned_not_negative (x : float) :
  unsigned x = true -> F64.ltb x F64.zero = false.
Proof. destruct x as [[|]|[|]| |[|] m e]; try discriminate; reflexivity. Qed.

Lemma elapsed_unsigned (unit : Z) (earlier later : datetime) (h : float) :
  0 < unit -> earlier <= later ->
  elapsed unit earlier later = Ok h -> unsigned h = true.
Proof.
  intros Hu Hle. unfold elapsed, total_seconds, float_div_int, rbind.
  destruct (F64.int_truediv _ _) as [s|] eqn:Hs; [|discriminate].
  apply int_truediv_unsigned in Hs; [|lia|reflexivity].
  unfold F64.of_int. destruct (F64.is_infinite _); [discriminate|].
  unfold float_truediv. destruct (F64.is_zero _); [discriminate|].
  intros [= <-]. apply div_unsigned; [exact Hs|].
  apply of_Z_unsigned. lia.
Qed.

Section Recovery.

Variable fromisoformat : string -> option datetime.

(** X21.  When the order of the [created_at] strings of the runs is the order
    of their times (as it is for timestamps of one format and offset), the
    recovery time is never negative, neither as computed nor as reported. *)
Theorem mttr_is_not_negative (cd_runs : list WorkflowRun) :
  chronological fromisoformat cd_runs ->
  (forall h, mttr_proxy fromisoformat cd_runs = Ok (Some h) ->
             F64.ltb h F64.zero = false)
  /\ forall d v, dora_metrics fromisoformat cd_runs = Ok d ->
                 mttr_hours d = Some v -> F64.ltb v F64.zero = false.
Proof.
  intros Hchr.
  assert (Hu : forall h, mttr_proxy fromisoformat cd_runs = Ok (Some h) ->
                         unsigned h = true).
  { intros h. unfold mttr_proxy. rewrite RecoveryProps.first_recovery_spec.
    pose proof (SortedProps.sorted_perm String.ltb created_at cd_runs) as Hperm.
    pose proof (SortedProps.sorted_by_string created_at cd_runs) as Hsorted.
    destruct (recovery_pair _) as [[f s]|] eqn:Hp; [|discriminate].
    destruct (RecoveryProps.recovery_pair_some _ _ _ Hp)
      as [i [j [Hij [Hi [_ [Hj _]]]]]].
    pose proof (SortedProps.StronglySorted_nth _ _ Hsorted i j f s Hij Hi Hj) as Hfs.
    apply nth_error_In, (Permutation_in _ (Permutation_sym Hperm)) in Hi, Hj.
    unfold recovery_hours, rbind.
    destruct (_parse_datetime _ (created_at f)) as [t1|] eqn:H1; [|discriminate].
    destruct (_parse_datetime _ (created_at s)) as [t2|] eqn:H2; [|discriminate].
    destruct (elapsed 3600 t1 t2) as [h'|] eqn:He; [|discriminate].
    intros [= <-]. apply (elapsed_unsigned 3600 t1 t2); [lia| |exact He].
    apply (Hchr f s); auto. }
  split.
  - intros h Hh. apply unsigned_not_negative, Hu, Hh.
  - intros d v. unfold dora_metrics, rbind.
    destruct (percent _ _); [|discriminate].
    destruct (mttr_proxy fromisoformat cd_runs) as [[h|]|]; try discriminate;
      intros [= <-]; unfold round2_if; simpl; [|discriminate].
    destruct (F64.is_zero h); simpl; [discriminate|]. intros [= <-].
    apply unsigned_not_negative, round2_unsigned, Hu. reflexivity.
Qed.

End Recovery.

Lemma mttr_is_not_negative_witness :
  F64.ltb (F64.div (F64.of_Z 3) (F64.of_Z 2)) F64.zero = false.
Proof.
  destruct (mttr_is_not_negative Run.fromisoformat
              [Run.run_at (Some "success") "2024-01-01T01:30:00Z";
               Run.run_at (Some "failure") "2024-01-01T00:00:00Z"])
    as [H _].
  - intros r1 r2 t1 t2 [<-|[<-|[]]] [<-|[<-|[]]];
      vm_compute; intros [= <-] [= <-]; congruence.
  - apply H. vm_compute. reflexivity.
Defined.

(** *** The rank of the median proxy *)

Lemma count_if_perm {A} (p : A -> bool) (l l' : list A) :
  Permutation l l' -> count_if p l = count_if p l'.
Proof.
  unfold count_if. induction 1 as [|x l l' _ IH|x y l|l l' l'' _ IH1 _ IH2];
    simpl; auto.
  - destruct (p x); simpl; now rewrite IH.
  - destruct (p x), (p y); reflexivity.
  - now rewrite IH1.
Qed.

Lemma count_if_all {A} (p : A -> bool) (l : list A) :
  Forall (fun x => p x = true) l -> count_if p l = List.length l.
Proof.
  unfold count_if. induction 1 as [|x l Hx _ IH]; simpl; [reflexivity|].
  rewrite Hx. simpl. now rewrite IH.
Qed.

Lemma count_if_app {A} (p : A -> bool) (l l' : list A) :
  count_if p (l ++ l') = (count_if p l + count_if p l')%nat.
Proof. unfold count_if. now rewrite filter_app, length_app. Qed.

(** X22.  More than half of the lead times are not above the median proxy, and
    at least half of them (the upper half, rounded up) are not below it. *)
Theorem median_proxy_splits_the_list (l : list float) (m : float) :
  Forall (fun x => F64.is_nan x = false) l ->
  median_proxy l = Some m ->
  (List.length l / 2 < count_if (fun x => negb (F64.ltb m x)) l)%nat
  /\ (List.length l - List.length l / 2
      <= count_if (fun x => negb (F64.ltb x m)) l)%nat.
Proof.
  intros Hnan Hm.
  pose proof (SortedProps.sorted_perm F64.ltb (fun x => x) l) as Hperm.
  pose proof (MedianProps.sorted_floats l Hnan) as Hsorted.
  pose proof (SortedProps.sorted_length F64.ltb (fun x : float => x) l) as Hlen.
  assert (Hk : nth_error (sorted F64.ltb (fun x => x) l) (List.length l / 2) = Some m).
  { unfold median_proxy in Hm. destruct l; [discriminate|exact Hm]. }
  set (s := sorted F64.ltb (fun x => x) l) in *.
  set (k := (List.length l / 2)%nat) in *.
  assert (Hkn : (k < List.length s)%nat) by (apply nth_error_Some; congruence).
  assert (Hmm : F64.ltb m m = false).
  { destruct (F64.ltb m m) eqn:E; [|reflexivity].
    assert (Hn : F64.is_nan m = false).
    { rewrite Forall_forall in Hnan. apply Hnan.
      apply (Permutation_in _ (Permutation_sym Hperm)).
      eapply nth_error_In, Hk. }
    now rewrite (F64Facts.ltb_asym m m Hn Hn E) in E. }
  rewrite !(count_if_perm _ l s Hperm). split.
  - rewrite <- (firstn_skipn (S k) s), count_if_app.
    rewrite count_if_all.
    + rewrite length_firstn. lia.
    + apply Forall_forall. intros x Hx. apply In_nth_error in Hx.
      destruct Hx as [i Hi]. rewrite nth_error_firstn in Hi.
      destruct (Nat.ltb_spec i (S k)) as [Hlt|]; [|discriminate].
      apply negb_true_iff.
      destruct (Nat.eq_dec i k) as [->|Hne]; [congruence|].
      apply (SortedProps.StronglySorted_nth _ _ Hsorted i k x m); auto. lia.
  - rewrite <- (firstn_skipn k s), count_if_app.
    rewrite (count_if_all _ (skipn k s)).
    + rewrite length_skipn. lia.
    + apply Forall_forall. intros x Hx. apply In_nth_error in Hx.
      destruct Hx as [i Hi]. rewrite nth_error_skipn in Hi.
      apply negb_true_iff.
      destruct i as [|i]; [rewrite Nat.add_0_r in Hi; congruence|].
      apply (SortedProps.StronglySorted_nth _ _ Hsorted k (k + S i) m x); auto. lia.
Qed.

Lemma median_proxy_splits_the_list_witness :
  (2 < count_if (fun x => negb (F64.ltb (F64.of_Z 3) x))
         (map F64.of_Z [4; 1; 3; 2]%Z))%nat.
Proof.
  apply (median_proxy_splits_the_list (map F64.of_Z [4; 1; 3; 2]) (F64.of_Z 3)).
  - repeat constructor.
  - vm_compute. reflexivity.
Defined.

End SignProps.

(** ** The runs of one workflow *)

Module WorkflowProps.

Import Metrics.

Section Runs.

Variable server : nat -> forall q : Request, Reply (list (item (target q))).
Variable clock : nat -> datetime.
Variable strftime_ymd : datetime -> string.
Variable str_lower : string -> string.
Variable self : GitHubMetricsCollector.

Local Abbreviation runs_of := (get_workflow_runs server clock strftime_ymd str_lower self).

(** X23.  [get_workflow_runs] matches the workflow name by the lower-case
    forms that [str.lower] gives (whatever [str.lower] does on the
    characters of the names): two names with the same lower-case form give
    the same requests and the same runs, every run returned has the
    lower-case form of the name asked for, and no fetched run with that
    form is left out.  The clock is read once, for the start of the
    window. *)
Theorem workflow_runs_match_name_ignoring_case (workflow_name : string)
    (w : World) :
  (forall other : string,
     str_lower other = str_lower workflow_name ->
     runs_of other w = runs_of workflow_name w)
  /\ forall runs w',
       runs_of workflow_name w = (Ok runs, w') ->
       Forall (fun run => str_lower (name run) = str_lower workflow_name) runs
       /\ clock_reads w' = S (clock_reads w)
       /\ exists window_start all_runs,
            fst (_get_window_start clock self w) = Ok window_start
            /\ _get_paginated server self ActionsRuns
                 [("created", PStr (">=" ++ strftime_ymd window_start))]
                 (snd (_get_window_start clock self w))
               = (Ok all_runs, w')
            /\ forall run, In run runs <->
                  In run all_runs
                  /\ str_lower (name run) = str_lower workflow_name.
Proof.
  split.
  { intros other Ho. unfold get_workflow_runs. now rewrite Ho. }
  intros runs w'. unfold get_workflow_runs, bind.
  destruct (_get_window_start clock self w) as [[ws|e] w0] eqn:Hws;
    [|discriminate].
  assert (Hc0 : clock_reads w0 = S (clock_reads w)).
  { unfold _get_window_start, bind, now, lift in Hws.
    injection Hws as _ <-. reflexivity. }
  destruct (FetchProps.paginate_requests server self ActionsRuns
              [("created", PStr (">=" ++ strftime_ymd ws))] 10 0 [] w0)
    as [m [_ Hp]]; try lia.
  change (paginate server self 10 ActionsRuns _ [] w0)
    with (_get_paginated server self ActionsRuns
            [("created", PStr (">=" ++ strftime_ymd ws))] w0) in Hp.
  destruct (_get_paginated server self ActionsRuns _ w0) as [[all_runs|e] w1]
    eqn:Hpg; [|discriminate].
  unfold ret. intros [= <- <-]. cbn [fst snd] in *. split; [|split].
  - apply Forall_forall. intros run Hrun. apply filter_In in Hrun.
    now apply String.eqb_eq.
  - rewrite Hp. exact Hc0.
  - exists ws, all_runs. split; [reflexivity|]. split; [exact Hpg|].
    intros run. rewrite filter_In, String.eqb_eq. reflexivity.
Qed.

End Runs.

End WorkflowProps.
